(** * Bridge STAAD Builder: the truss geometry generator and the STAAD exporter

    A shallow embedding of [compute_geometry], [run_in_staad] and
    [draw_preview_mpl] of [src/FEBRUARY 14-15/MOTOL/main.py].

    - Python [int] is [Z]; a Python [float] is an element of a type [F] that
      carries the float operations the program uses (class [PyFloat]).
      The theorems hold for every such [F]; what they need of the
      arithmetic beyond that is a hypothesis, made of identities of IEEE
      754 arithmetic ([ieee_identities]).  The instances over the real
      numbers ([R_float], [R_pi64]) serve to evaluate the generator at
      given inputs.
    - [of_int] is total: an [int] too large for a [float] (which makes
      Python raise [OverflowError]) is left out of the picture.
    - A Python [str] is the Rocq string of its code points, all below
      U+0100.
    - A raised exception is the [Raise] branch of [result].
    - The dictionaries [nodes] and [members] keep insertion order, as Python
      dictionaries do; they are association lists updated by [dict_set].
    - The STAAD.Pro binding is an oracle answering every call with a value
      or an exception; the exporter threads the list of events (log lines
      and calls) it has produced.
    - The matplotlib axes are outside the program too: the preview is the
      list of the calls it makes on them. *)

From Stdlib Require Import ZArith List String Ascii Bool Lia QArith.
From Stdlib Require Import Reals Lra Qreals Machin.
Import ListNotations.

#[local] Open Scope string_scope.
#[local] Open Scope list_scope.
#[local] Open Scope Z_scope.

(** ** Exceptions and results *)

Inductive exn : Type :=
| ZeroDivisionError
| IndexError
| KeyError (key : string)
| ImportError
| StaadError (msg : string).

Inductive result (A : Type) : Type :=
| Ok (a : A)
| Raise (e : exn).

Arguments Ok {A} a.
Arguments Raise {A} e.

Definition bind {A B} (m : result A) (k : A -> result B) : result B :=
  match m with
  | Ok a => k a
  | Raise e => Raise e
  end.

Notation "x <- m ;; k" := (bind m (fun x => k))
  (at level 61, m at next level, right associativity).

(** ** Python floats *)

Class PyFloat (F : Type) : Type := {
  of_int : Z -> F;          (* int -> float conversion *)
  flit   : Q -> F;          (* a float literal *)
  fadd   : F -> F -> F;
  fmul   : F -> F -> F;
  fdiv   : F -> F -> F;     (* divisor already known to be non-zero *)
  fneg   : F -> F;
  fsin   : F -> F;          (* math.sin *)
  fpi    : F;               (* math.pi *)
  round4 : F -> F;          (* round(x, 4) *)
  fpos   : F -> bool        (* x > 0 *)
}.

(** ** Python lists, ranges and dictionaries *)

Definition range (n : Z) : list Z := map Z.of_nat (seq 0 (Z.to_nat n)).

(** [l[i]], with Python's negative indices. *)
Definition getitem {A} (l : list A) (i : Z) : result A :=
  let n := Z.of_nat (List.length l) in
  let j := if i <? 0 then i + n else i in
  if (j <? 0) || (n <=? j) then Raise IndexError
  else match nth_error l (Z.to_nat j) with
       | Some a => Ok a
       | None => Raise IndexError
       end.

(** [l[1:-1]] *)
Definition slice_1_m1 {A} (l : list A) : list A :=
  removelast (tl l).

Definition dict (V : Type) : Type := list (Z * V).

Fixpoint dict_set {V} (d : dict V) (k : Z) (v : V) : dict V :=
  match d with
  | [] => [(k, v)]
  | (k', v') :: d' =>
      if k' =? k then (k', v) :: d' else (k', v') :: dict_set d' k v
  end.

Fixpoint dict_get {V} (d : dict V) (k : Z) : option V :=
  match d with
  | [] => None
  | (k', v') :: d' => if k' =? k then Some v' else dict_get d' k
  end.

Definition keys {V} (d : dict V) : list Z := map fst d.

(** A [for] loop over a list, threading the loop's variables. *)
Fixpoint for_each {S} (xs : list Z) (body : Z -> S -> result S) (s : S)
  : result S :=
  match xs with
  | [] => Ok s
  | x :: xs' => s' <- body x s ;; for_each xs' body s'
  end.

(** ** Python strings: [lower()] and [split()]

    A Python [str] is the Rocq string of its code points, all of them
    below U+0100; text with other characters is outside the model. *)

(** White space, as [str.split()] sees it: among the code points below
    U+0100 these are U+0009 to U+000D, U+001C to U+0020, U+0085 and
    U+00A0. *)
Definition is_space (c : ascii) : bool :=
  let n := Z.of_nat (nat_of_ascii c) in
  (n =? 32) || ((9 <=? n) && (n <=? 13)) || ((28 <=? n) && (n <=? 31))
  || (n =? 133) || (n =? 160).

(** [str.lower()] on one character: [A] to [Z] and, further up, U+00C0
    to U+00DE without U+00D7 move 32 places; the rest stays. *)
Definition lower_char (c : ascii) : ascii :=
  let n := nat_of_ascii c in
  if ((65 <=? n)%nat && (n <=? 90)%nat)
     || ((192 <=? n)%nat && (n <=? 222)%nat && negb (n =? 215)%nat)
  then ascii_of_nat (n + 32) else c.

Fixpoint lower (s : string) : string :=
  match s with
  | EmptyString => EmptyString
  | String c s' => String (lower_char c) (lower s')
  end.

Fixpoint rev_string (acc s : string) : string :=
  match s with
  | EmptyString => acc
  | String c s' => rev_string (String c acc) s'
  end.

(** [split_aux cur s]: the whitespace-separated words of [s], [cur] being
    the word under construction (reversed). *)
Fixpoint split_aux (cur : string) (s : string) : list string :=
  match s with
  | EmptyString =>
      match cur with
      | EmptyString => []
      | _ => [rev_string EmptyString cur]
      end
  | String c s' =>
      if is_space c then
        match cur with
        | EmptyString => split_aux EmptyString s'
        | _ => rev_string EmptyString cur :: split_aux EmptyString s'
        end
      else split_aux (String c cur) s'
  end.

Definition split (s : string) : list string := split_aux EmptyString s.

(** ** Constants of the program *)

Definition BRIDGE_TYPES : list string :=
  ["Pratt Truss"; "Warren Truss"; "Howe Truss"; "Bowstring Arch"].

Definition UNIT_OPTIONS : list (string * (Z * Z)) :=
  [("Feet / Kip", (1, 0)); ("Meter / kN", (5, 4)); ("Inches / Kip", (0, 0))].

Fixpoint lookup_unit (tbl : list (string * (Z * Z))) (k : string)
  : result (Z * Z) :=
  match tbl with
  | [] => Raise (KeyError k)
  | (k', v) :: tbl' => if String.eqb k' k then Ok v else lookup_unit tbl' k
  end.

(** ** The geometry generator *)

Section Geometry.

Context {F : Type} `{PyFloat F}.

Definition coord : Type := (F * F * F)%type.

Record geometry : Type := {
  nodes   : dict coord;
  members : dict (Z * Z);
  bottom  : list Z;
  top     : list Z;
  bot_ch  : list Z;
  top_ch  : list Z;
  verts   : list Z;
  diags   : list Z
}.

(** The variables of the node loops. *)
Record node_vars : Type := {
  nv_nodes  : dict coord;
  nv_nid    : Z;
  nv_bottom : list Z;
  nv_top    : list Z
}.

(** [nodes[nid] = c; bottom.append(nid); nid += 1] *)
Definition add_bottom_node (c : coord) (s : node_vars) : node_vars :=
  {| nv_nodes  := dict_set (nv_nodes s) (nv_nid s) c;
     nv_nid    := nv_nid s + 1;
     nv_bottom := nv_bottom s ++ [nv_nid s];
     nv_top    := nv_top s |}.

(** [nodes[nid] = c; top.append(nid); nid += 1] *)
Definition add_top_node (c : coord) (s : node_vars) : node_vars :=
  {| nv_nodes  := dict_set (nv_nodes s) (nv_nid s) c;
     nv_nid    := nv_nid s + 1;
     nv_bottom := nv_bottom s;
     nv_top    := nv_top s ++ [nv_nid s] |}.

(** The variables of the member loops. *)
Record member_vars : Type := {
  mv_members : dict (Z * Z);
  mv_mid     : Z;
  mv_bot_ch  : list Z;
  mv_top_ch  : list Z;
  mv_verts   : list Z;
  mv_diags   : list Z
}.

Inductive role : Type := BottomChord | TopChord | Vertical | Diagonal.

(** [members[mid_] = e; <role list>.append(mid_); mid_ += 1] *)
Definition add_member (r : role) (e : Z * Z) (s : member_vars)
  : member_vars :=
  let m := mv_mid s in
  {| mv_members := dict_set (mv_members s) m e;
     mv_mid     := m + 1;
     mv_bot_ch  := match r with BottomChord => mv_bot_ch s ++ [m]
                              | _ => mv_bot_ch s end;
     mv_top_ch  := match r with TopChord => mv_top_ch s ++ [m]
                              | _ => mv_top_ch s end;
     mv_verts   := match r with Vertical => mv_verts s ++ [m]
                              | _ => mv_verts s end;
     mv_diags   := match r with Diagonal => mv_diags s ++ [m]
                              | _ => mv_diags s end |}.

(** [x / n] for a float [x] and an int [n]. *)
Definition float_div_int (x : F) (n : Z) : result F :=
  if n =? 0 then Raise ZeroDivisionError else Ok (fdiv x (of_int n)).

(** [i / n] for ints [i] and [n] (true division). *)
Definition int_truediv (i n : Z) : result F :=
  if n =? 0 then Raise ZeroDivisionError
  else Ok (fdiv (of_int i) (of_int n)).

Definition f0 : F := flit 0.

Definition compute_geometry (span height : F) (panels : Z) (btype : string)
  : result geometry :=
  panel_w <- float_div_int span panels ;;
  btype_key <- getitem (split (lower btype)) 0 ;;
  let nv0 := {| nv_nodes := []; nv_nid := 1;
                nv_bottom := []; nv_top := [] |} in
  (* bottom chord nodes *)
  nv1 <- for_each (range (panels + 1))
           (fun i s =>
              let x := round4 (fmul (of_int i) panel_w) in
              Ok (add_bottom_node (x, f0, f0) s)) nv0 ;;
  (* top chord nodes *)
  nv2 <- (if String.eqb btype_key "warren" then
            for_each (range panels)
              (fun i s =>
                 let x := round4 (fmul (fadd (of_int i) (flit (1#2)))
                                       panel_w) in
                 Ok (add_top_node (x, height, f0) s)) nv1
          else if String.eqb btype_key "bowstring" then
            for_each (range (panels + 1))
              (fun i s =>
                 let x := round4 (fmul (of_int i) panel_w) in
                 q <- int_truediv i panels ;;
                 let y := round4 (fmul height (fsin (fmul q fpi))) in
                 Ok (add_top_node (x, y, f0) s)) nv1
          else
            for_each (range (panels + 1))
              (fun i s =>
                 let x := round4 (fmul (of_int i) panel_w) in
                 Ok (add_top_node (x, height, f0) s)) nv1) ;;
  let bottom := nv_bottom nv2 in
  let top := nv_top nv2 in
  let mv0 := {| mv_members := []; mv_mid := 1; mv_bot_ch := [];
                mv_top_ch := []; mv_verts := []; mv_diags := [] |} in
  (* bottom chords *)
  mv1 <- for_each (range panels)
           (fun i s =>
              a <- getitem bottom i ;;
              b <- getitem bottom (i + 1) ;;
              Ok (add_member BottomChord (a, b) s)) mv0 ;;
  mv2 <- (if String.eqb btype_key "warren" then
            (* top chords between apex nodes *)
            s1 <- for_each (range (panels - 1))
                    (fun i s =>
                       a <- getitem top i ;;
                       b <- getitem top (i + 1) ;;
                       Ok (add_member TopChord (a, b) s)) mv1 ;;
            (* diagonals (W-pattern) *)
            for_each (range panels)
              (fun i s =>
                 a <- getitem bottom i ;;
                 b <- getitem top i ;;
                 let s' := add_member Diagonal (a, b) s in
                 c <- getitem top i ;;
                 d <- getitem bottom (i + 1) ;;
                 Ok (add_member Diagonal (c, d) s')) s1
          else if String.eqb btype_key "pratt" || String.eqb btype_key "howe"
        then
            (* top chords *)
            s1 <- for_each (range panels)
                    (fun i s =>
                       a <- getitem top i ;;
                       b <- getitem top (i + 1) ;;
                       Ok (add_member TopChord (a, b) s)) mv1 ;;
            (* verticals *)
            s2 <- for_each (range (panels + 1))
                    (fun i s =>
                       a <- getitem bottom i ;;
                       b <- getitem top i ;;
                       Ok (add_member Vertical (a, b) s)) s1 ;;
            (* diagonals *)
            let half := panels / 2 in
            for_each (range panels)
              (fun i s =>
                 e <- (if String.eqb btype_key "pratt" then
                         if i <? half then
                           a <- getitem top i ;;
                           b <- getitem bottom (i + 1) ;;
                           Ok (a, b)
                         else
                           a <- getitem bottom i ;;
                           b <- getitem top (i + 1) ;;
                           Ok (a, b)
                       else
                         if i <? half then
                           a <- getitem bottom i ;;
                           b <- getitem top (i + 1) ;;
                           Ok (a, b)
                         else
                           a <- getitem top i ;;
                           b <- getitem bottom (i + 1) ;;
                           Ok (a, b)) ;;
                 Ok (add_member Diagonal e s)) s2
          else if String.eqb btype_key "bowstring" then
            (* top arch chords *)
            s1 <- for_each (range panels)
                    (fun i s =>
                       a <- getitem top i ;;
                       b <- getitem top (i + 1) ;;
                       Ok (add_member TopChord (a, b) s)) mv1 ;;
            (* verticals (hangers) *)
            s2 <- for_each (range (panels + 1))
                    (fun i s =>
                       a <- getitem bottom i ;;
                       b <- getitem top i ;;
                       Ok (add_member Vertical (a, b) s)) s1 ;;
            (* diagonals *)
            for_each (range panels)
              (fun i s =>
                 a <- getitem bottom i ;;
                 b <- getitem top (i + 1) ;;
                 Ok (add_member Diagonal (a, b) s)) s2
          else Ok mv1) ;;
  Ok {| nodes := nv_nodes nv2; members := mv_members mv2;
        bottom := bottom; top := top;
        bot_ch := mv_bot_ch mv2; top_ch := mv_top_ch mv2;
        verts := mv_verts mv2; diags := mv_diags mv2 |}.

End Geometry.

Arguments coord F : clear implicits.
Arguments geometry F : clear implicits.
Arguments node_vars F : clear implicits.

(** ** The four truss types of [BRIDGE_TYPES] *)

Inductive topology : Type := Pratt | Warren | Howe | Bowstring.

Definition btype_of (t : topology) : string :=
  match t with
  | Pratt => "Pratt Truss"
  | Warren => "Warren Truss"
  | Howe => "Howe Truss"
  | Bowstring => "Bowstring Arch"
  end.

Definition key_of (t : topology) : string :=
  match t with
  | Pratt => "pratt"
  | Warren => "warren"
  | Howe => "howe"
  | Bowstring => "bowstring"
  end.

(** ** Consecutive ids *)

(** [zrange a n] is [[a; a+1; ...; a+n-1]]. *)
Fixpoint zrange (a : Z) (n : nat) : list Z :=
  match n with
  | O => []
  | S n' => a :: zrange (a + 1) n'
  end.

Definition keys_below {V} (d : dict V) (k : Z) : Prop :=
  Forall (fun x => x < k) (keys d).

(** ** The generated truss in closed form *)

Section Shape.

Context {F : Type} `{PyFloat F}.

Definition nv0 : node_vars F :=
  {| nv_nodes := []; nv_nid := 1; nv_bottom := []; nv_top := [] |}.

Definition mv0 : member_vars :=
  {| mv_members := []; mv_mid := 1; mv_bot_ch := []; mv_top_ch := [];
     mv_verts := []; mv_diags := [] |}.

Definition add_bottom_nodes (cs : list (coord F)) (s : node_vars F)
  : node_vars F :=
  fold_left (fun s c => add_bottom_node c s) cs s.

Definition add_top_nodes (cs : list (coord F)) (s : node_vars F)
  : node_vars F :=
  fold_left (fun s c => add_top_node c s) cs s.

Definition add_members (r : role) (es : list (Z * Z)) (s : member_vars)
  : member_vars :=
  fold_left (fun s e => add_member r e s) es s.

(** The role list [r'] after members of role [r] got the ids [ids]. *)
Definition grow (r r' : role) (l ids : list Z) : list Z :=
  match r, r' with
  | BottomChord, BottomChord | TopChord, TopChord
  | Vertical, Vertical | Diagonal, Diagonal => l ++ ids
  | _, _ => l
  end.

(** [bottom[i]] and [top[i]] as node ids. *)
Definition bottom_id (i : Z) : Z := 1 + i.
Definition top_id (panels i : Z) : Z := panels + 2 + i.

Definition top_count (t : topology) (panels : Z) : Z :=
  match t with
  | Warren => panels
  | _ => panels + 1
  end.

Definition bottom_coord (panel_w : F) (i : Z) : coord F :=
  (round4 (fmul (of_int i) panel_w), f0, f0).

Definition top_coord (t : topology) (height : F) (panels : Z) (panel_w : F)
           (i : Z) : coord F :=
  match t with
  | Warren =>
      (round4 (fmul (fadd (of_int i) (flit (1#2))) panel_w), height, f0)
  | Bowstring =>
      (round4 (fmul (of_int i) panel_w),
       round4 (fmul height
                    (fsin (fmul (fdiv (of_int i) (of_int panels)) fpi))),
       f0)
  | _ => (round4 (fmul (of_int i) panel_w), height, f0)
  end.

(** [top[i] -> bottom[i+1]] and [bottom[i] -> top[i+1]]. *)
Definition falling (panels i : Z) : Z * Z :=
  (top_id panels i, bottom_id (i + 1)).
Definition rising (panels i : Z) : Z * Z :=
  (bottom_id i, top_id panels (i + 1)).

Definition bottom_edges (panels : Z) : list (Z * Z) :=
  map (fun i => (bottom_id i, bottom_id (i + 1))) (range panels).

Definition top_edges (t : topology) (panels : Z) : list (Z * Z) :=
  map (fun i => (top_id panels i, top_id panels (i + 1)))
      (range (match t with Warren => panels - 1 | _ => panels end)).

Definition vertical_edges (t : topology) (panels : Z) : list (Z * Z) :=
  match t with
  | Warren => []
  | _ => map (fun i => (bottom_id i, top_id panels i)) (range (panels + 1))
  end.

Definition diagonal_edges (t : topology) (panels : Z) : list (Z * Z) :=
  match t with
  | Warren =>
      flat_map (fun i => [(bottom_id i, top_id panels i);
                          (top_id panels i, bottom_id (i + 1))])
               (range panels)
  | Pratt =>
      map (fun i => if i <? panels / 2 then falling panels i
                    else rising panels i) (range panels)
  | Howe =>
      map (fun i => if i <? panels / 2 then rising panels i
                    else falling panels i) (range panels)
  | Bowstring => map (rising panels) (range panels)
  end.

Definition truss (t : topology) (span height : F) (panels : Z)
  : geometry F :=
  let panel_w := fdiv span (of_int panels) in
  let nb := Z.to_nat (panels + 1) in
  let nt := Z.to_nat (top_count t panels) in
  let eb := bottom_edges panels in
  let et := top_edges t panels in
  let ev := vertical_edges t panels in
  let ed := diagonal_edges t panels in
  let mb := List.length eb in
  let mt := List.length et in
  let mv := List.length ev in
  let md := List.length ed in
  {| nodes :=
       combine (zrange 1 nb) (map (bottom_coord panel_w) (range (panels + 1)))
       ++ combine (zrange (panels + 2) nt)
                  (map (top_coord t height panels panel_w)
                       (range (top_count t panels)));
     members :=
       combine (zrange 1 (mb + mt + mv + md)) (eb ++ et ++ ev ++ ed);
     bottom := zrange 1 nb;
     top    := zrange (panels + 2) nt;
     bot_ch := zrange 1 mb;
     top_ch := zrange (1 + Z.of_nat mb) mt;
     verts  := zrange (1 + Z.of_nat (mb + mt)) mv;
     diags  := zrange (1 + Z.of_nat (mb + mt + mv)) md |}.

End Shape.

(** ** Well-formed output *)

Section WellFormed.

Context {F : Type}.

(** Node ids are [1..N], member ids are [1..M], members join two different
    existing nodes, and the four role lists split the member ids. *)
Definition well_formed (g : geometry F) : Prop :=
  let role_ids := bot_ch g ++ top_ch g ++ verts g ++ diags g in
  keys (nodes g) = zrange 1 (List.length (nodes g)) /\
  keys (members g) = zrange 1 (List.length (members g)) /\
  NoDup (keys (nodes g)) /\
  NoDup (keys (members g)) /\
  (forall m a b, In (m, (a, b)) (members g) ->
                 In a (keys (nodes g)) /\ In b (keys (nodes g)) /\ a <> b) /\
  NoDup role_ids /\
  (forall m, In m (keys (members g)) <-> In m role_ids).

End WellFormed.

(** ** Reading the output *)

Section Reading.

Context {F : Type} `{PyFloat F}.

(** The [k]-th diagonal is the member joining the nodes [e]. *)
Definition diagonal_of (g : geometry F) (k : Z) (e : Z * Z) : Prop :=
  exists d, getitem (diags g) k = Ok d /\ dict_get (members g) d = Some e.

(** The coordinates of [top[i]]. *)
Definition top_node (g : geometry F) (i : Z) : option (coord F) :=
  match getitem (top g) i with
  | Ok n => dict_get (nodes g) n
  | Raise _ => None
  end.

Definition top_y (g : geometry F) (i : Z) : option F :=
  match top_node g i with
  | Some (_, y, _) => Some y
  | None => None
  end.

(** A value that [round(_, 4)] returned. *)
Definition rounded4 (v : F) : Prop := exists u, v = round4 u.

(** The geometry with no node and no member. *)
Definition empty_geometry : geometry F :=
  {| nodes := []; members := []; bottom := []; top := []; bot_ch := [];
     top_ch := []; verts := []; diags := [] |}.

End Reading.

(** ** Real arithmetic as instances of [PyFloat]

    Two idealised arithmetics, to evaluate the generator at given
    inputs: the results are exact, not rounded to binary64. *)

(** The nearest integer, ties going to the even one. *)
Definition round_half_even (x : R) : Z :=
  let n := Int_part x in
  let d := (x - IZR n)%R in
  if Rlt_dec d (1 / 2) then n
  else if Rlt_dec (1 / 2) d then n + 1
  else if Z.even n then n else n + 1.

Definition Rround4 (x : R) : R :=
  (IZR (round_half_even (x * 10000)) / 10000)%R.

#[export] Instance R_float : PyFloat R := {|
  of_int := IZR;
  flit   := Q2R;
  fadd   := Rplus;
  fmul   := Rmult;
  fdiv   := Rdiv;
  fneg   := Ropp;
  fsin   := sin;
  fpi    := PI;
  round4 := Rround4;
  fpos   := fun x => if Rlt_dec 0 x then true else false
|}.

(** A real number with at most four decimal places. *)
Definition four_decimals (x : R) : Prop :=
  exists n : Z, x = (IZR n / 10000)%R.

(** [math.pi], the binary64 number next to pi: 0x1.921fb54442d18p+1. *)
Definition pi64 : R := (884279719003555 / 281474976710656)%R.

(** As [R_float], with [math.pi] for what it is. *)
Definition R_pi64 : PyFloat R := {|
  of_int := IZR;
  flit   := Q2R;
  fadd   := Rplus;
  fmul   := Rmult;
  fdiv   := Rdiv;
  fneg   := Ropp;
  fsin   := sin;
  fpi    := pi64;
  round4 := Rround4;
  fpos   := fun x => if Rlt_dec 0 x then true else false
|}.

(** ** Identities of the arithmetic

    What the theorem on the Bowstring arch needs of the floats.  Each of
    these holds of Python's binary64 floats: a quotient of two [int]s is
    correctly rounded, so that [0 / n] is [0.0], [n / n] is [1.0] and
    [k / (2 * k)] is [0.5]; multiplying by [0.0] or [1.0] and
    [math.sin(0.0)] are exact, and [math.sin(0.5 * math.pi)] is [1.0].
    That [math.sin(math.pi)] is [0.0] is not among them: it is
    [1.2246467991473532e-16]. *)
Record ieee_identities (F : Type) `{PyFloat F} : Prop := {
  zero_div    : forall n, 1 <= n -> fdiv (of_int 0) (of_int n) = flit 0;
  self_div    : forall n, 1 <= n -> fdiv (of_int n) (of_int n) = flit 1;
  half_div    : forall k, 1 <= k ->
                  fdiv (of_int k) (of_int (2 * k)) = flit (1#2);
  zero_mul_pi : fmul (flit 0) fpi = flit 0;
  one_mul_pi  : fmul (flit 1) fpi = fpi;
  sin_zero    : fsin (flit 0) = flit 0;
  sin_half_pi : fsin (fmul (flit (1#2)) fpi) = flit 1;
  mul_one     : forall x, fmul x (flit 1) = x
}.
(** ** The exporter *)

(** Python's truth value of a list. *)
Definition nonempty {A} (l : list A) : bool :=
  match l with
  | [] => false
  | _ :: _ => true
  end.

(** What a call of the STAAD binding returns (a property, support or load
    case id, or nothing the program looks at). *)
Definition value : Type := Z.

Section Exporter.

Context {F : Type} `{PyFloat F}.

(** The dictionary [cfg] built by [_on_run]: always these thirteen keys. *)
Record config : Type := {
  cfg_bridge_type   : string;
  cfg_span          : F;
  cfg_height        : F;
  cfg_panels        : Z;
  cfg_unit          : string;
  cfg_support_left  : string;
  cfg_support_right : string;
  cfg_chord_sec     : string;
  cfg_diag_sec      : string;
  cfg_dead_load     : F;
  cfg_live_load     : F;
  cfg_wind_load     : F;
  cfg_self_weight   : bool
}.

(** The operations of the binding that the exporter calls. *)
Inductive call : Type :=
| connect
| SetInputUnits (lu fu : Z)
| SaveModel (b : bool)
| CreateNode (nid : Z) (x y z : F)
| CreateBeam (mid n1 n2 : Z)
| CreateBeamPropertyFromTable (cc : Z) (sec : string) (ty : Z) (a b : F)
| CreateAnglePropertyFromTable (cc : Z) (sec : string) (ty : Z) (a : F)
| AssignBeamProperty (ms : list Z) (p : value)
| AssignMaterialToMember (mat : string) (ms : list Z)
| CreateMemberPartialReleaseSpec (loc : Z) (flags : list Z) (vals : list F)
| AssignMemberSpecToBeam (ms : list Z) (spec : value)
| CreateSupportFixed
| CreateSupportPinned
| AssignSupportToNode (ns : list Z) (sid : value)
| CreateNewPrimaryLoadEx2 (name : string) (ty no : Z)
| SetLoadActive (c : value)
| AddSelfWeightInXYZ (dir : Z) (f : F)
| AddNodalLoad (ns : list Z) (fx fy fz mx my mz : F)
| AddMemberUniformForce (ms : list Z) (dir : Z) (w d1 d2 d3 : F)
| CreateNewLoadCombination (name : string) (no : Z)
| AddLoadAndFactorToCombination (combo lc : Z) (factor : F)
| PerformAnalysis (n : Z).

(** The lines handed to [log_callback]. *)
Inductive message : Type :=
| MsgNoOpenstaadpy
| MsgConnecting
| MsgSettingUnits (unit_ : string) (lu fu : Z)
| MsgCreatingNodes (total_n : Z)
| MsgCreatingMembers (total_m : Z)
| MsgAssigningSections
| MsgApplyingReleases
| MsgAssigningSupports
| MsgCreatingLoadCases
| MsgSavingModel
| MsgRunningAnalysis
| MsgDone (btype : string) (span height : F) (panels total_n total_m : Z)
| MsgError (exc : exn).

(** What the outside sees of a run, in order. *)
Inductive event : Type :=
| Call (c : call)
| Log (m : message) (error success : bool).

(** The binding answers a call, given everything that happened before. *)
Definition staad : Type := list event -> call -> result value.

(** Computations that extend the list of events and return or raise. *)
Definition M (A : Type) : Type := list event -> list event * result A.

Definition ret {A} (a : A) : M A := fun tr => (tr, Ok a).

Definition mbind {A B} (m : M A) (k : A -> M B) : M B :=
  fun tr =>
    match m tr with
    | (tr', Ok a) => k a tr'
    | (tr', Raise e) => (tr', Raise e)
    end.

Definition lift {A} (r : result A) : M A := fun tr => (tr, r).

Definition log_callback (m : message) (error success : bool) : M unit :=
  fun tr => (tr ++ [Log m error success], Ok tt).

Definition try_except {A} (body : M A) (handler : exn -> M A) : M A :=
  fun tr =>
    match body tr with
    | (tr', Ok a) => (tr', Ok a)
    | (tr', Raise e) => handler e tr'
    end.

Definition when (b : bool) (m : M unit) : M unit :=
  if b then m else ret tt.

Fixpoint for_eachM {X} (xs : list X) (body : X -> M unit) : M unit :=
  match xs with
  | [] => ret tt
  | x :: xs' => mbind (body x) (fun _ => for_eachM xs' body)
  end.

Variable os_analytical : staad.

Definition do_call (c : call) : M value :=
  fun tr => (tr ++ [Call c], os_analytical tr c).

Notation "x <~ m ;; k" := (mbind m (fun x => k))
  (at level 61, m at next level, right associativity).
Notation "m ;;; k" := (mbind m (fun _ => k))
  (at level 61, right associativity).

(** The body of the second [try] of [run_in_staad]. *)
Definition build_model (cfg : config) (lu fu : Z) (g : geometry F)
  : M bool :=
  let span    := cfg_span cfg in
  let height  := cfg_height cfg in
  let panels  := cfg_panels cfg in
  let btype   := cfg_bridge_type cfg in
  let unit_   := cfg_unit cfg in
  let csec    := cfg_chord_sec cfg in
  let dsec    := cfg_diag_sec cfg in
  let supp_l  := cfg_support_left cfg in
  let supp_r  := cfg_support_right cfg in
  let sw      := cfg_self_weight cfg in
  let dl      := cfg_dead_load cfg in
  let ll      := cfg_live_load cfg in
  let wl      := cfg_wind_load cfg in
  let total_n := Z.of_nat (List.length (nodes g)) in
  let total_m := Z.of_nat (List.length (members g)) in
  log_callback MsgConnecting false false ;;;
  do_call connect ;;;
  log_callback (MsgSettingUnits unit_ lu fu) false false ;;;
  do_call (SetInputUnits lu fu) ;;;
  do_call (SaveModel true) ;;;
  (* Nodes *)
  log_callback (MsgCreatingNodes total_n) false false ;;;
  for_eachM (nodes g)
    (fun '(nid, (x, y, z)) => do_call (CreateNode nid x y z) ;;; ret tt) ;;;
  (* Members *)
  log_callback (MsgCreatingMembers total_m) false false ;;;
  for_eachM (members g)
    (fun '(mid, (n1, n2)) => do_call (CreateBeam mid n1 n2) ;;; ret tt) ;;;
  (* Properties *)
  log_callback MsgAssigningSections false false ;;;
  let cc := 1 in
  chord_p <~ do_call (CreateBeamPropertyFromTable cc csec 0 f0 f0) ;;
  diag_p <~ do_call (CreateAnglePropertyFromTable cc dsec 0 f0) ;;
  do_call (AssignBeamProperty (bot_ch g) chord_p) ;;;
  when (nonempty (top_ch g))
    (do_call (AssignBeamProperty (top_ch g) chord_p) ;;; ret tt) ;;;
  when (nonempty (verts g))
    (do_call (AssignBeamProperty (verts g) diag_p) ;;; ret tt) ;;;
  when (nonempty (diags g))
    (do_call (AssignBeamProperty (diags g) diag_p) ;;; ret tt) ;;;
  do_call (AssignMaterialToMember "STEEL" (zrange 1 (Z.to_nat total_m))) ;;;
  (* Releases on diagonals/verticals *)
  when (nonempty (diags g))
    (log_callback MsgApplyingReleases false false ;;;
     sr <~ do_call (CreateMemberPartialReleaseSpec 0 [0; 1; 1]
                      [f0; flit (99#100); flit (99#100)]) ;;
     er <~ do_call (CreateMemberPartialReleaseSpec 1 [0; 1; 1]
                      [f0; flit (99#100); flit (99#100)]) ;;
     do_call (AssignMemberSpecToBeam (diags g) sr) ;;;
     do_call (AssignMemberSpecToBeam (diags g) er) ;;;
     ret tt) ;;;
  (* Supports *)
  log_callback MsgAssigningSupports false false ;;;
  left_node <~ lift (getitem (bottom g) 0) ;;
  right_node <~ lift (getitem (bottom g) (-1)) ;;
  sid <~ (if String.eqb supp_l "Fixed" then do_call CreateSupportFixed
          else do_call CreateSupportPinned) ;;
  do_call (AssignSupportToNode [left_node] sid) ;;;
  sid2 <~ (if String.eqb supp_r "Pinned" then do_call CreateSupportPinned
           else do_call CreateSupportFixed) ;;
  do_call (AssignSupportToNode [right_node] sid2) ;;;
  (* Load Case 1 - Dead + Live *)
  log_callback MsgCreatingLoadCases false false ;;;
  c1 <~ do_call (CreateNewPrimaryLoadEx2 "DEAD AND LIVE LOAD" 0 1) ;;
  do_call (SetLoadActive c1) ;;;
  when sw (do_call (AddSelfWeightInXYZ 2 (flit (-1))) ;;; ret tt) ;;;
  let interior := slice_1_m1 (bottom g) in
  when (fpos ll && nonempty interior)
    (for_eachM interior
       (fun n => do_call (AddNodalLoad [n] f0 (fneg ll) f0 f0 f0 f0) ;;;
                 ret tt)) ;;;
  when (fpos dl)
    (do_call (AddMemberUniformForce (bot_ch g) 2 (fneg dl) f0 f0 f0) ;;;
     ret tt) ;;;
  (* Load Case 2 - Wind *)
  c2 <~ do_call (CreateNewPrimaryLoadEx2 "WIND FROM LEFT" 3 2) ;;
  do_call (SetLoadActive c2) ;;;
  when (fpos wl)
    (let wind_members :=
       if nonempty (verts g) then verts g else bot_ch g in
     do_call (AddMemberUniformForce wind_members 4 wl f0 f0 f0) ;;;
     ret tt) ;;;
  (* Combination 3 - 75 % *)
  do_call (CreateNewLoadCombination "75 PERCENT DL LL WL" 3) ;;;
  do_call (AddLoadAndFactorToCombination 3 1 (flit (3#4))) ;;;
  do_call (AddLoadAndFactorToCombination 3 2 (flit (3#4))) ;;;
  (* Save & analyse *)
  log_callback MsgSavingModel false false ;;;
  do_call (SaveModel true) ;;;
  log_callback MsgRunningAnalysis false false ;;;
  do_call (PerformAnalysis 0) ;;;
  log_callback (MsgDone btype span height panels total_n total_m)
               false true ;;;
  ret true.

(** [run_in_staad cfg log_callback]; [has_openstaadpy] tells whether
    [from openstaadpy import os_analytical] succeeds. *)
Definition run_in_staad (has_openstaadpy : bool) (cfg : config) : M bool :=
  if negb has_openstaadpy then
    log_callback MsgNoOpenstaadpy true false ;;;
    ret false
  else
    lufu <~ lift (lookup_unit UNIT_OPTIONS (cfg_unit cfg)) ;;
    let '(lu, fu) := lufu in
    g <~ lift (compute_geometry (cfg_span cfg) (cfg_height cfg)
                                (cfg_panels cfg) (cfg_bridge_type cfg)) ;;
    try_except (build_model cfg lu fu g)
      (fun exc =>
         log_callback (MsgError exc) true false ;;;
         ret false).

End Exporter.

Arguments config F : clear implicits.
Arguments call F : clear implicits.
Arguments message F : clear implicits.
Arguments event F : clear implicits.
Arguments staad F : clear implicits.
Arguments M F A : clear implicits.

(** ** Describing runs of the exporter *)

Section Runs.

Context {F : Type} `{PyFloat F}.

(** Every event that [m] adds satisfies [P]. *)
Definition emits {A} (P : event F -> Prop) (m : M F A) : Prop :=
  forall tr, exists es, fst (m tr) = tr ++ es /\ Forall P es.

(** [m] returns normally. *)
Definition succeeds {A} (m : M F A) : Prop :=
  forall tr, exists es a, m tr = (tr ++ es, Ok a).

(** [m] returns normally and has added the event [e]. *)
Definition passes {A} (e : event F) (m : M F A) : Prop :=
  forall tr, exists es a, m tr = (tr ++ es, Ok a) /\ In e es.

(** When [m] returns, it returns a value satisfying [Q]. *)
Definition returns {A} (Q : A -> Prop) (m : M F A) : Prop :=
  forall tr tr' a, m tr = (tr', Ok a) -> Q a.

(** A binding that never raises. *)
Definition reliable (os_analytical : staad F) : Prop :=
  forall tr c, exists v, os_analytical tr c = Ok v.

Variables (cfg : config F) (g : geometry F).

Definition interior : list Z := slice_1_m1 (bottom g).

Definition wind_members : list Z :=
  if nonempty (verts g) then verts g else bot_ch g.

Definition create_left_support : call F :=
  if String.eqb (cfg_support_left cfg) "Fixed" then CreateSupportFixed
  else CreateSupportPinned.

Definition create_right_support : call F :=
  if String.eqb (cfg_support_right cfg) "Pinned" then CreateSupportPinned
  else CreateSupportFixed.

(** The events of the support block, [sid] and [sid2] being what the two
    creating calls returned. *)
Definition support_events (left_node right_node : Z) (sid sid2 : value)
  : list (event F) :=
  [Log MsgAssigningSupports false false;
   Call create_left_support;
   Call (AssignSupportToNode [left_node] sid);
   Call create_right_support;
   Call (AssignSupportToNode [right_node] sid2)].

Definition nodal_load (n : Z) : call F :=
  AddNodalLoad [n] f0 (fneg (cfg_live_load cfg)) f0 f0 f0 f0.

Definition dead_load : call F :=
  AddMemberUniformForce (bot_ch g) 2 (fneg (cfg_dead_load cfg)) f0 f0 f0.

Definition wind_load : call F :=
  AddMemberUniformForce wind_members 4 (cfg_wind_load cfg) f0 f0 f0.

(** The events of the two load cases and of the combination, [c1] and
    [c2] being what creating the two cases returned. *)
Definition load_events (c1 c2 : value) : list (event F) :=
  [Log MsgCreatingLoadCases false false;
   Call (CreateNewPrimaryLoadEx2 "DEAD AND LIVE LOAD" 0 1);
   Call (SetLoadActive c1)]
  ++ (if cfg_self_weight cfg
      then [Call (AddSelfWeightInXYZ 2 (flit (-1)))] else [])
  ++ (if fpos (cfg_live_load cfg) && nonempty interior
      then map (fun n => Call (nodal_load n)) interior else [])
  ++ (if fpos (cfg_dead_load cfg) then [Call dead_load] else [])
  ++ [Call (CreateNewPrimaryLoadEx2 "WIND FROM LEFT" 3 2);
      Call (SetLoadActive c2)]
  ++ (if fpos (cfg_wind_load cfg) then [Call wind_load] else [])
  ++ [Call (CreateNewLoadCombination "75 PERCENT DL LL WL" 3);
      Call (AddLoadAndFactorToCombination 3 1 (flit (3#4)));
      Call (AddLoadAndFactorToCombination 3 2 (flit (3#4)))].

(** What holds of a load that the exporter applies. *)
Definition load_guarded (ev : event F) : Prop :=
  match ev with
  | Call (AddNodalLoad ns fx fy fz mx my mz) =>
      fpos (cfg_live_load cfg) = true /\
      exists n, In n interior /\ AddNodalLoad ns fx fy fz mx my mz
                                 = nodal_load n
  | Call (AddMemberUniformForce ms dir w d1 d2 d3) =>
      (fpos (cfg_dead_load cfg) = true /\
       AddMemberUniformForce ms dir w d1 d2 d3 = dead_load) \/
      (fpos (cfg_wind_load cfg) = true /\
       AddMemberUniformForce ms dir w d1 d2 d3 = wind_load)
  | _ => True
  end.

End Runs.

(** The configuration the form starts with. *)
Definition default_config : config R :=
  {| cfg_bridge_type   := "Pratt Truss";
     cfg_span          := 120%R;
     cfg_height        := 20%R;
     cfg_panels        := 8;
     cfg_unit          := "Feet / Kip";
     cfg_support_left  := "Fixed";
     cfg_support_right := "Pinned";
     cfg_chord_sec     := "W21X50";
     cfg_diag_sec      := "L40404";
     cfg_dead_load     := (12 / 10)%R;
     cfg_live_load     := 20%R;
     cfg_wind_load     := (6 / 10)%R;
     cfg_self_weight   := true |}.

(** A binding that accepts every call and returns the number of events so
    far. *)
Definition obliging : staad R := fun tr _ => Ok (Z.of_nat (List.length tr)).

(** The starting configuration with the right support set to "Roller", as
    the form allows. *)
Definition roller_config : config R :=
  {| cfg_bridge_type   := cfg_bridge_type default_config;
     cfg_span          := cfg_span default_config;
     cfg_height        := cfg_height default_config;
     cfg_panels        := cfg_panels default_config;
     cfg_unit          := cfg_unit default_config;
     cfg_support_left  := cfg_support_left default_config;
     cfg_support_right := "Roller";
     cfg_chord_sec     := cfg_chord_sec default_config;
     cfg_diag_sec      := cfg_diag_sec default_config;
     cfg_dead_load     := cfg_dead_load default_config;
     cfg_live_load     := cfg_live_load default_config;
     cfg_wind_load     := cfg_wind_load default_config;
     cfg_self_weight   := cfg_self_weight default_config |}.

(** The starting configuration with other dimensions. *)
Definition resized_config (span height : R) (panels : Z) : config R :=
  {| cfg_bridge_type   := cfg_bridge_type default_config;
     cfg_span          := span;
     cfg_height        := height;
     cfg_panels        := panels;
     cfg_unit          := cfg_unit default_config;
     cfg_support_left  := cfg_support_left default_config;
     cfg_support_right := cfg_support_right default_config;
     cfg_chord_sec     := cfg_chord_sec default_config;
     cfg_diag_sec      := cfg_diag_sec default_config;
     cfg_dead_load     := cfg_dead_load default_config;
     cfg_live_load     := cfg_live_load default_config;
     cfg_wind_load     := cfg_wind_load default_config;
     cfg_self_weight   := cfg_self_weight default_config |}.

(** ** More ways of reading the output *)

Section MoreReading.

Context {F : Type} `{PyFloat F}.

(** The coordinates of [bottom[i]]. *)
Definition bottom_node (g : geometry F) (i : Z) : option (coord F) :=
  match getitem (bottom g) i with
  | Ok n => dict_get (nodes g) n
  | Raise _ => None
  end.

(** The [k]-th member of the role list [ids] joins [l1[i1]] to [l2[i2]]. *)
Definition joins (g : geometry F) (ids : list Z) (k : Z)
           (l1 : list Z) (i1 : Z) (l2 : list Z) (i2 : Z) : Prop :=
  exists m a b,
    getitem ids k = Ok m /\ dict_get (members g) m = Some (a, b) /\
    getitem l1 i1 = Ok a /\ getitem l2 i2 = Ok b.

(** What the generator returns for a truss type it does not know: the
    nodes of a flat truss and the bottom chord alone. *)
Definition deck_only (span height : F) (panels : Z) : geometry F :=
  let eb := bottom_edges panels in
  {| nodes   := nodes (truss Pratt span height panels);
     members := combine (zrange 1 (List.length eb)) eb;
     bottom  := bottom (truss Pratt span height panels);
     top     := top (truss Pratt span height panels);
     bot_ch  := zrange 1 (List.length eb);
     top_ch  := [];
     verts   := [];
     diags   := [] |}.

(** The truss types the generator knows, as first words. *)
Definition known_key (key : string) : bool :=
  String.eqb key "warren" || String.eqb key "pratt"
  || String.eqb key "howe" || String.eqb key "bowstring".

End MoreReading.

(** ** Mirror image of a flat truss *)

(** The node at the same place counted from the right end: [bottom[k]]
    goes to [bottom[panels - k]] and [top[k]] to [top[panels - k]] (flat
    trusses have [panels + 1] nodes on each chord). *)
Definition mirror_node (panels n : Z) : Z :=
  if n <=? panels + 1 then panels + 2 - n else 3 * panels + 4 - n.


(** ** The first half of an export, event by event *)

Section Script.

Context {F : Type} `{PyFloat F}.

Variables (cfg : config F) (lu fu : Z) (g : geometry F).

(** Connecting and setting the units. *)
Definition setup_events : list (event F) :=
  [Log MsgConnecting false false;
   Call connect;
   Log (MsgSettingUnits (cfg_unit cfg) lu fu) false false;
   Call (SetInputUnits lu fu);
   Call (SaveModel true)].

Definition create_node (n : Z * coord F) : call F :=
  let '(nid, (x, y, z)) := n in CreateNode nid x y z.

Definition create_beam (m : Z * (Z * Z)) : call F :=
  let '(mid, (n1, n2)) := m in CreateBeam mid n1 n2.

(** Creating the nodes, then the members. *)
Definition node_events : list (event F) :=
  Log (MsgCreatingNodes (Z.of_nat (List.length (nodes g)))) false false
  :: map (fun n => Call (create_node n)) (nodes g).

Definition member_events : list (event F) :=
  Log (MsgCreatingMembers (Z.of_nat (List.length (members g)))) false false
  :: map (fun m => Call (create_beam m)) (members g).

Definition create_chord_property : call F :=
  CreateBeamPropertyFromTable 1 (cfg_chord_sec cfg) 0 f0 f0.

Definition create_angle_property : call F :=
  CreateAnglePropertyFromTable 1 (cfg_diag_sec cfg) 0 f0.

(** Sections and material, [chord_p] and [diag_p] being what creating the
    two properties returned. *)
Definition property_events (chord_p diag_p : value) : list (event F) :=
  [Log MsgAssigningSections false false;
   Call create_chord_property;
   Call create_angle_property;
   Call (AssignBeamProperty (bot_ch g) chord_p)]
  ++ (if nonempty (top_ch g)
      then [Call (AssignBeamProperty (top_ch g) chord_p)] else [])
  ++ (if nonempty (verts g)
      then [Call (AssignBeamProperty (verts g) diag_p)] else [])
  ++ (if nonempty (diags g)
      then [Call (AssignBeamProperty (diags g) diag_p)] else [])
  ++ [Call (AssignMaterialToMember "STEEL"
              (zrange 1 (List.length (members g))))].

Definition release_spec (loc : Z) : call F :=
  CreateMemberPartialReleaseSpec loc [0; 1; 1]
    [f0; flit (99#100); flit (99#100)].

(** The releases, [sr] and [er] being the two specs as returned. *)
Definition release_events (sr er : value) : list (event F) :=
  if nonempty (diags g)
  then [Log MsgApplyingReleases false false;
        Call (release_spec 0);
        Call (release_spec 1);
        Call (AssignMemberSpecToBeam (diags g) sr);
        Call (AssignMemberSpecToBeam (diags g) er)]
  else [].

(** What holds of a node, a member or a support that the exporter sends
    to the service. *)
Definition from_geometry (ev : event F) : Prop :=
  match ev with
  | Call (CreateNode nid x y z) => In (nid, (x, y, z)) (nodes g)
  | Call (CreateBeam mid n1 n2) => In (mid, (n1, n2)) (members g)
  | Call (AssignSupportToNode ns sid) =>
      exists n, ns = [n] /\
                (getitem (bottom g) 0 = Ok n \/
                 getitem (bottom g) (-1) = Ok n)
  | _ => True
  end.

End Script.

Section RunShapes.

Context {F : Type} `{PyFloat F}.

(** [m] raises [e], the last event being [e0]. *)
Definition raises_after {A} (e0 : event F) (e : exn) (m : M F A) : Prop :=
  forall tr, exists es, m tr = (tr ++ es ++ [e0], Raise e).

(** [m] returns [b], the last event being [e0]. *)
Definition finishes {A} (e0 : event F) (b : A) (m : M F A) : Prop :=
  forall tr, exists es, m tr = (tr ++ es ++ [e0], Ok b).

Variable os_analytical : staad F.

(** Among the events [es] added after [tr], a call that the binding
    answers with an exception is the last one, and the exception is the
    outcome [r]. *)
Definition stops_at_raise {A} (tr es : list (event F)) (r : result A)
  : Prop :=
  forall a c b e,
    es = a ++ Call c :: b ->
    os_analytical (tr ++ a) c = Raise e ->
    b = [] /\ r = Raise e.

Definition halting {A} (m : M F A) : Prop :=
  forall tr, exists es,
    fst (m tr) = tr ++ es /\ stops_at_raise tr es (snd (m tr)).

End RunShapes.

(** ** Bindings and events for the failure cases *)

(** A service that cannot be reached. *)
Definition unreachable : staad R :=
  fun _ _ => Raise (StaadError "no STAAD").

(** A binding that refuses to set the units. *)
Definition refusing_units : staad R :=
  fun _ c =>
    match c with
    | SetInputUnits _ _ => Raise (StaadError "units")
    | _ => Ok 0
    end.

(** Events that leave the model as it was: no node, no member, no
    support, no analysis, and no line reporting success. *)
Definition builds_nothing {F : Type} (ev : event F) : Prop :=
  match ev with
  | Call (CreateNode _ _ _ _) => False
  | Call (CreateBeam _ _ _) => False
  | Call (AssignSupportToNode _ _) => False
  | Call (PerformAnalysis _) => False
  | Log _ _ true => False
  | _ => True
  end.

(** The starting configuration with no wind. *)
Definition windless_config : config R :=
  {| cfg_bridge_type   := cfg_bridge_type default_config;
     cfg_span          := cfg_span default_config;
     cfg_height        := cfg_height default_config;
     cfg_panels        := cfg_panels default_config;
     cfg_unit          := cfg_unit default_config;
     cfg_support_left  := cfg_support_left default_config;
     cfg_support_right := cfg_support_right default_config;
     cfg_chord_sec     := cfg_chord_sec default_config;
     cfg_diag_sec      := cfg_diag_sec default_config;
     cfg_dead_load     := cfg_dead_load default_config;
     cfg_live_load     := cfg_live_load default_config;
     cfg_wind_load     := 0%R;
     cfg_self_weight   := cfg_self_weight default_config |}.

(** ** The preview: [draw_preview_mpl]

    The matplotlib axes [ax] are outside the program: what is modelled is
    the list of calls that [draw_preview_mpl] makes on them, in order,
    and how the function ends.  The methods of [ax] are taken never to
    raise. *)

Definition ACCENT  : string := "#f59e0b".
Definition ACCENT2 : string := "#60a5fa".
Definition MUTED   : string := "#475569".

Section Preview.

Context {F : Type} `{PyFloat F}.

(** The calls on [ax].  Keyword arguments that are the same at every call
    of a method are left out: [solid_capstyle="round"] of the member
    lines, the edge colour and width of the node markers, [zorder=5] of
    the support symbols, the colours and the font of the legend and of
    the title. *)
Inductive ax_call : Type :=
| ax_clear
| ax_set_facecolor (color : string)
| ax_plot_line (x1 x2 y1 y2 : F) (color : string) (linewidth : Q)
| ax_plot_node (x y : F)
| ax_plot_support (x y : F) (marker : string) (markersize : Z)
                  (color : string)
| ax_axhline (y : Q) (color : string) (linewidth : Q)
| ax_set_xlim (lo hi : F)
| ax_set_ylim (lo hi : F)
| ax_set_aspect (aspect adjustable : string)
| ax_axis (arg : string)
| ax_legend (handles : list (string * string))
| ax_set_title (btype : string) (span height : F) (panels : Z).

(** What the preview can raise: what the generator raises and the
    [IndexError] of [bottom[0]], or the [KeyError] of [nodes[n]]. *)
Inductive preview_exn : Type :=
| Raised (e : exn)
| NodeKeyError (n : Z).

Inductive outcome (A : Type) : Type :=
| Done (a : A)
| Failed (e : preview_exn).

Arguments Done {A} a.
Arguments Failed {A} e.

(** The calls made, and the outcome. *)
Definition Draw (A : Type) : Type := list ax_call * outcome A.

Definition dret {A} (a : A) : Draw A := ([], Done a).

Definition dbind {A B} (m : Draw A) (k : A -> Draw B) : Draw B :=
  match m with
  | (cs, Done a) => let '(cs', r) := k a in (cs ++ cs', r)
  | (cs, Failed e) => (cs, Failed e)
  end.

Definition on_ax (c : ax_call) : Draw unit := ([c], Done tt).

Definition dlift {A} (r : result A) : Draw A :=
  match r with
  | Ok a => ([], Done a)
  | Raise e => ([], Failed (Raised e))
  end.

(** [nodes[n]] *)
Definition node_at (nodes : dict (coord F)) (n : Z) : Draw (coord F) :=
  match dict_get nodes n with
  | Some c => ([], Done c)
  | None => ([], Failed (NodeKeyError n))
  end.

Fixpoint draw_for {X} (xs : list X) (body : X -> Draw unit) : Draw unit :=
  match xs with
  | [] => dret tt
  | x :: xs' => dbind (body x) (fun _ => draw_for xs' body)
  end.

(** [for m in ms: color_map[m] = st] *)
Definition paint (ms : list Z) (st : string * Q) (color_map : dict (string * Q))
  : dict (string * Q) :=
  fold_left (fun cm m => dict_set cm m st) ms color_map.

(** [color_map.get(mid, default)] *)
Definition get_or {V} (d : dict V) (k : Z) (default : V) : V :=
  match dict_get d k with
  | Some v => v
  | None => default
  end.

Notation "x <~ m ;; k" := (dbind m (fun x => k))
  (at level 61, m at next level, right associativity).
Notation "m ;;; k" := (dbind m (fun _ => k))
  (at level 61, right associativity).

Definition draw_preview_mpl (span height : F) (panels : Z) (btype : string)
  : Draw unit :=
  on_ax ax_clear ;;;
  on_ax (ax_set_facecolor "#060f1a") ;;;
  g <~ dlift (compute_geometry span height panels btype) ;;
  let color_map := [] in
  let color_map := paint (bot_ch g ++ top_ch g) ("#f59e0b", 22#10)
                         color_map in
  let color_map := paint (diags g) ("#60a5fa", 15#10) color_map in
  let color_map := paint (verts g) ("#94a3b8", 14#10) color_map in
  draw_for (members g)
    (fun '(mid, (n1, n2)) =>
       c1 <~ node_at (nodes g) n1 ;;
       let '(x1, y1, _) := c1 in
       c2 <~ node_at (nodes g) n2 ;;
       let '(x2, y2, _) := c2 in
       let '(col, lw) := get_or color_map mid ("#60a5fa", 15#10) in
       on_ax (ax_plot_line x1 x2 y1 y2 col lw)) ;;;
  draw_for (nodes g)
    (fun '(nid, (x, y, _)) => on_ax (ax_plot_node x y)) ;;;
  (* Support symbols *)
  left_node <~ dlift (getitem (bottom g) 0) ;;
  cl <~ node_at (nodes g) left_node ;;
  let '(lx, ly, _) := cl in
  right_node <~ dlift (getitem (bottom g) (-1)) ;;
  cr <~ node_at (nodes g) right_node ;;
  let '(rx, ry, _) := cr in
  on_ax (ax_plot_support lx ly "^" 10 ACCENT) ;;;
  on_ax (ax_plot_support rx ry "s" 8 ACCENT2) ;;;
  (* Ground line *)
  on_ax (ax_axhline (-4#10) MUTED (15#10)) ;;;
  on_ax (ax_set_xlim (fmul (fneg span) (flit (5#100)))
                     (fmul span (flit (105#100)))) ;;;
  on_ax (ax_set_ylim (fmul (fneg height) (flit (25#100)))
                     (fmul height (flit (13#10)))) ;;;
  on_ax (ax_set_aspect "equal" "datalim") ;;;
  on_ax (ax_axis "off") ;;;
  (* Legend *)
  on_ax (ax_legend [("#f59e0b", "Chord"); ("#60a5fa", "Diagonal");
                    ("#94a3b8", "Vertical")]) ;;;
  on_ax (ax_set_title btype span height panels).

(** *** Describing a drawing *)

Definition chord_style : string * Q := ("#f59e0b", 22#10).
Definition vertical_style : string * Q := ("#94a3b8", 14#10).
Definition diagonal_style : string * Q := ("#60a5fa", 15#10).

Definition mem (k : Z) (l : list Z) : bool := existsb (Z.eqb k) l.

(** The style that goes with the role of a member. *)
Definition role_style (g : geometry F) (mid : Z) : string * Q :=
  if mem mid (bot_ch g ++ top_ch g) then chord_style
  else if mem mid (verts g) then vertical_style
  else diagonal_style.

(** [ln] draws the member [m] of [g]: from its first node to its second,
    in the style of its role. *)
Definition drawn_as (g : geometry F) (m : Z * (Z * Z)) (ln : ax_call)
  : Prop :=
  let '(mid, (n1, n2)) := m in
  exists x1 y1 z1 x2 y2 z2,
    dict_get (nodes g) n1 = Some (x1, y1, z1) /\
    dict_get (nodes g) n2 = Some (x2, y2, z2) /\
    ln = ax_plot_line x1 x2 y1 y2
                      (fst (role_style g mid)) (snd (role_style g mid)).

Definition node_marker (n : Z * coord F) : ax_call :=
  let '(_, (x, y, _)) := n in ax_plot_node x y.

(** What is drawn after the supports. *)
Definition decorations (span height : F) (panels : Z) (btype : string)
  : list ax_call :=
  [ax_axhline (-4#10) MUTED (15#10);
   ax_set_xlim (fmul (fneg span) (flit (5#100)))
               (fmul span (flit (105#100)));
   ax_set_ylim (fmul (fneg height) (flit (25#100)))
               (fmul height (flit (13#10)));
   ax_set_aspect "equal" "datalim";
   ax_axis "off";
   ax_legend [("#f59e0b", "Chord"); ("#60a5fa", "Diagonal");
              ("#94a3b8", "Vertical")];
   ax_set_title btype span height panels].

End Preview.

Arguments ax_call F : clear implicits.
Arguments Draw F A : clear implicits.
Arguments Done {A} a.
Arguments Failed {A} e.

(** * Properties *)

(** ** Lemmas on lists, ranges and dictionaries *)

Lemma length_zrange (n : nat) : forall a, List.length (zrange a n) = n.
Proof. induction n; intros; simpl; auto. Qed.

Lemma zrange_app (n m : nat) : forall a,
  zrange a (n + m) = zrange a n ++ zrange (a + Z.of_nat n) m.
Proof.
  induction n; intros a.
  - simpl. now rewrite Z.add_0_r.
  - cbn [zrange Nat.add app]. rewrite IHn. do 3 f_equal. lia.
Qed.

Lemma zrange_snoc (n : nat) (a : Z) :
  zrange a n ++ [a + Z.of_nat n] = zrange a (S n).
Proof.
  replace (S n) with (n + 1)%nat by lia. now rewrite zrange_app.
Qed.

Lemma in_zrange (n : nat) : forall a x,
  In x (zrange a n) <-> a <= x < a + Z.of_nat n.
Proof.
  induction n; intros a x; simpl zrange.
  - simpl. lia.
  - cbn [In]. rewrite IHn. lia.
Qed.

Lemma NoDup_zrange (n : nat) : forall a, NoDup (zrange a n).
Proof.
  induction n; intros a; simpl; constructor; auto.
  rewrite in_zrange. lia.
Qed.

Lemma nth_error_zrange (n : nat) : forall a k,
  (k < n)%nat -> nth_error (zrange a n) k = Some (a + Z.of_nat k).
Proof.
  induction n; intros a k Hk; [lia|].
  destruct k; simpl.
  - now rewrite Z.add_0_r.
  - rewrite IHn by lia. f_equal. lia.
Qed.

Lemma zrange_map (n : nat) : forall a,
  zrange a n = map (fun k => a + Z.of_nat k) (seq 0 n).
Proof.
  induction n; intros a; simpl; [reflexivity|].
  rewrite Z.add_0_r. f_equal. rewrite IHn, <- seq_shift, map_map.
  apply map_ext. intros k. lia.
Qed.

Lemma range_zrange (n : Z) : range n = zrange 0 (Z.to_nat n).
Proof. unfold range. now rewrite zrange_map. Qed.

Lemma length_range (n : Z) : List.length (range n) = Z.to_nat n.
Proof. now rewrite range_zrange, length_zrange. Qed.

Lemma in_range (n i : Z) : In i (range n) <-> 0 <= i < n.
Proof. rewrite range_zrange, in_zrange. lia. Qed.

Lemma getitem_zrange (a : Z) (n : nat) (i : Z) :
  0 <= i < Z.of_nat n -> getitem (zrange a n) i = Ok (a + i).
Proof.
  intros Hi. unfold getitem. rewrite length_zrange.
  destruct (Z.ltb_spec i 0); [lia|].
  destruct (Z.ltb_spec i 0); [lia|].
  destruct (Z.leb_spec (Z.of_nat n) i); [lia|]. simpl.
  rewrite nth_error_zrange by lia. f_equal. lia.
Qed.

Lemma keys_app {V} (d d' : dict V) : keys (d ++ d') = keys d ++ keys d'.
Proof. apply map_app. Qed.

Lemma keys_combine {V} (ks : list Z) (vs : list V) :
  List.length ks = List.length vs -> keys (combine ks vs) = ks.
Proof.
  revert vs. induction ks; intros [|v vs] Hl; simpl in *; try discriminate;
    auto.
  f_equal. apply IHks. lia.
Qed.

Lemma dict_set_fresh {V} (d : dict V) (k : Z) (v : V) :
  keys_below d k -> dict_set d k v = d ++ [(k, v)].
Proof.
  unfold keys_below, keys. induction d as [|[k' v'] d IH]; intros Hb; simpl.
  - reflexivity.
  - inversion Hb; subst. simpl in *.
    destruct (Z.eqb_spec k' k); [lia|]. now rewrite IH.
Qed.

Lemma keys_below_snoc {V} (d : dict V) (k : Z) (v : V) :
  keys_below d k -> keys_below (d ++ [(k, v)]) (k + 1).
Proof.
  unfold keys_below. rewrite keys_app. intros Hb.
  apply Forall_app; split.
  - eapply Forall_impl; [|exact Hb]. simpl. intros; lia.
  - repeat constructor. simpl. lia.
Qed.

(** ** The loops of the generator in closed form *)

Section Loops.

Context {F : Type} `{PyFloat F}.

Lemma for_each_bottom_nodes (xs : list Z) (f : Z -> coord F) body :
  forall s,
    (forall i s', In i xs -> body i s' = Ok (add_bottom_node (f i) s')) ->
    for_each xs body s = Ok (add_bottom_nodes (map f xs) s).
Proof.
  induction xs as [|x xs IH]; intros s Hb; simpl; [reflexivity|].
  rewrite Hb by now left. simpl. apply IH. intros; apply Hb; now right.
Qed.

Lemma for_each_top_nodes (xs : list Z) (f : Z -> coord F) body :
  forall s,
    (forall i s', In i xs -> body i s' = Ok (add_top_node (f i) s')) ->
    for_each xs body s = Ok (add_top_nodes (map f xs) s).
Proof.
  induction xs as [|x xs IH]; intros s Hb; simpl; [reflexivity|].
  rewrite Hb by now left. simpl. apply IH. intros; apply Hb; now right.
Qed.

Lemma for_each_members (r : role) (xs : list Z) (g : Z -> list (Z * Z))
      body :
  forall s,
    (forall i s', In i xs -> body i s' = Ok (add_members r (g i) s')) ->
    for_each xs body s = Ok (add_members r (flat_map g xs) s).
Proof.
  induction xs as [|x xs IH]; intros s Hb; simpl; [reflexivity|].
  rewrite Hb by now left. simpl. rewrite IH by (intros; apply Hb; now right).
  unfold add_members. now rewrite fold_left_app.
Qed.

Lemma add_bottom_nodes_closed (cs : list (coord F)) : forall s,
  keys_below (nv_nodes s) (nv_nid s) ->
  add_bottom_nodes cs s =
  {| nv_nodes  := nv_nodes s
                  ++ combine (zrange (nv_nid s) (List.length cs)) cs;
     nv_nid    := nv_nid s + Z.of_nat (List.length cs);
     nv_bottom := nv_bottom s ++ zrange (nv_nid s) (List.length cs);
     nv_top    := nv_top s |}.
Proof.
  induction cs as [|c cs IH]; intros [d k b t] Hk; cbn [nv_nodes nv_nid
    nv_bottom nv_top] in *.
  - cbn. now rewrite !app_nil_r, Z.add_0_r.
  - change (add_bottom_nodes (c :: cs) ?s)
      with (add_bottom_nodes cs (add_bottom_node c s)).
    unfold add_bottom_node. cbn [nv_nodes nv_nid nv_bottom nv_top].
    rewrite dict_set_fresh by assumption.
    rewrite IH by (cbn; now apply keys_below_snoc).
    cbn [nv_nodes nv_nid nv_bottom nv_top List.length zrange combine].
    rewrite <- !app_assoc. cbn [app]. f_equal. lia.
Qed.

Lemma add_top_nodes_closed (cs : list (coord F)) : forall s,
  keys_below (nv_nodes s) (nv_nid s) ->
  add_top_nodes cs s =
  {| nv_nodes  := nv_nodes s
                  ++ combine (zrange (nv_nid s) (List.length cs)) cs;
     nv_nid    := nv_nid s + Z.of_nat (List.length cs);
     nv_bottom := nv_bottom s;
     nv_top    := nv_top s ++ zrange (nv_nid s) (List.length cs) |}.
Proof.
  induction cs as [|c cs IH]; intros [d k b t] Hk; cbn [nv_nodes nv_nid
    nv_bottom nv_top] in *.
  - cbn. now rewrite !app_nil_r, Z.add_0_r.
  - change (add_top_nodes (c :: cs) ?s)
      with (add_top_nodes cs (add_top_node c s)).
    unfold add_top_node. cbn [nv_nodes nv_nid nv_bottom nv_top].
    rewrite dict_set_fresh by assumption.
    rewrite IH by (cbn; now apply keys_below_snoc).
    cbn [nv_nodes nv_nid nv_bottom nv_top List.length zrange combine].
    rewrite <- !app_assoc. cbn [app]. f_equal. lia.
Qed.

Lemma add_members_closed (r : role) (es : list (Z * Z)) : forall s,
  keys_below (mv_members s) (mv_mid s) ->
  add_members r es s =
  let ids := zrange (mv_mid s) (List.length es) in
  {| mv_members := mv_members s ++ combine ids es;
     mv_mid     := mv_mid s + Z.of_nat (List.length es);
     mv_bot_ch  := grow r BottomChord (mv_bot_ch s) ids;
     mv_top_ch  := grow r TopChord (mv_top_ch s) ids;
     mv_verts   := grow r Vertical (mv_verts s) ids;
     mv_diags   := grow r Diagonal (mv_diags s) ids |}.
Proof.
  induction es as [|e es IH]; intros [d k b t v g] Hk;
    cbn [mv_members mv_mid mv_bot_ch mv_top_ch mv_verts mv_diags] in *.
  - cbn. rewrite app_nil_r, Z.add_0_r.
    destruct r; cbn; now rewrite ?app_nil_r.
  - change (add_members r (e :: es) ?s)
      with (add_members r es (add_member r e s)).
    unfold add_member.
    cbn [mv_members mv_mid mv_bot_ch mv_top_ch mv_verts mv_diags].
    rewrite dict_set_fresh by assumption.
    rewrite IH by (cbn; now apply keys_below_snoc).
    cbn [mv_members mv_mid mv_bot_ch mv_top_ch mv_verts mv_diags
         List.length zrange combine].
    rewrite <- !app_assoc. cbn [app].
    replace (k + 1 + Z.of_nat (List.length es))
      with (k + Z.of_nat (S (List.length es))) by lia.
    destruct r; cbn [grow]; rewrite <- ?app_assoc; reflexivity.
Qed.

Lemma BRIDGE_TYPES_topologies :
  BRIDGE_TYPES = map btype_of [Pratt; Warren; Howe; Bowstring].
Proof. reflexivity. Qed.

Lemma btype_key_of (t : topology) :
  getitem (split (lower (btype_of t))) 0 = Ok (key_of t).
Proof. destruct t; reflexivity. Qed.

Lemma flat_map_singleton {A B} (f : A -> B) (l : list A) :
  flat_map (fun x => [f x]) l = map f l.
Proof. induction l; simpl; congruence. Qed.

Lemma keys_below_nil {V} (k : Z) : keys_below (@nil (Z * V)) k.
Proof. constructor. Qed.

Lemma keys_below_combine {V} (d : dict V) (k : Z) (vs : list V) :
  keys_below d k ->
  keys_below (d ++ combine (zrange k (List.length vs)) vs)
             (k + Z.of_nat (List.length vs)).
Proof.
  unfold keys_below. intros Hd. rewrite keys_app, keys_combine
    by now rewrite length_zrange.
  apply Forall_app; split.
  - eapply Forall_impl; [|exact Hd]. simpl; intros; lia.
  - apply Forall_forall. intros x Hx. apply in_zrange in Hx. lia.
Qed.

Lemma combine_app_eq {A B} (l1 l2 : list A) (m1 m2 : list B) :
  List.length l1 = List.length m1 ->
  combine l1 m1 ++ combine l2 m2 = combine (l1 ++ l2) (m1 ++ m2).
Proof.
  revert m1. induction l1; intros [|b m1] Hl; simpl in *; try discriminate;
    auto.
  f_equal. apply IHl1. lia.
Qed.

Lemma nodes_closed (cb ct : list (coord F)) :
  add_top_nodes ct (add_bottom_nodes cb nv0) =
  {| nv_nodes := combine (zrange 1 (List.length cb)) cb
                 ++ combine (zrange (1 + Z.of_nat (List.length cb))
                                    (List.length ct)) ct;
     nv_nid := 1 + Z.of_nat (List.length cb) + Z.of_nat (List.length ct);
     nv_bottom := zrange 1 (List.length cb);
     nv_top := zrange (1 + Z.of_nat (List.length cb)) (List.length ct) |}.
Proof.
  unfold nv0.
  rewrite (add_bottom_nodes_closed cb) by apply keys_below_nil.
  rewrite add_top_nodes_closed
    by (cbn [nv_nodes nv_nid]; apply keys_below_combine, keys_below_nil).
  reflexivity.
Qed.

Lemma members_closed (eb et ev ed : list (Z * Z)) :
  let mb := List.length eb in
  let mt := List.length et in
  let mv := List.length ev in
  let md := List.length ed in
  add_members Diagonal ed
    (add_members Vertical ev
       (add_members TopChord et (add_members BottomChord eb mv0))) =
  {| mv_members :=
       combine (zrange 1 (mb + mt + mv + md)) (eb ++ et ++ ev ++ ed);
     mv_mid := 1 + Z.of_nat (mb + mt + mv + md);
     mv_bot_ch := zrange 1 mb;
     mv_top_ch := zrange (1 + Z.of_nat mb) mt;
     mv_verts := zrange (1 + Z.of_nat (mb + mt)) mv;
     mv_diags := zrange (1 + Z.of_nat (mb + mt + mv)) md |}.
Proof.
  intros mb mt mv md. unfold mv0.
  rewrite (add_members_closed BottomChord eb) by apply keys_below_nil.
  cbv zeta. cbn [mv_members mv_mid mv_bot_ch mv_top_ch mv_verts mv_diags grow].
  rewrite (add_members_closed TopChord et)
    by (cbn [mv_members mv_mid]; apply keys_below_combine, keys_below_nil).
  cbv zeta. cbn [mv_members mv_mid mv_bot_ch mv_top_ch mv_verts mv_diags grow].
  rewrite (add_members_closed Vertical ev)
    by (cbn [mv_members mv_mid];
        repeat apply keys_below_combine; apply keys_below_nil).
  cbv zeta. cbn [mv_members mv_mid mv_bot_ch mv_top_ch mv_verts mv_diags grow].
  rewrite (add_members_closed Diagonal ed)
    by (cbn [mv_members mv_mid];
        repeat apply keys_below_combine; apply keys_below_nil).
  cbv zeta. cbn [mv_members mv_mid mv_bot_ch mv_top_ch mv_verts mv_diags grow].
  fold mb mt mv md. cbn [app].
  rewrite !combine_app_eq by (rewrite ?length_app, !length_zrange; reflexivity).
  rewrite <- !app_assoc.
  replace (1 + Z.of_nat mb + Z.of_nat mt) with (1 + Z.of_nat (mb + mt)) by lia.
  replace (1 + Z.of_nat (mb + mt) + Z.of_nat mv)
    with (1 + Z.of_nat (mb + mt + mv)) by lia.
  replace (1 + Z.of_nat (mb + mt + mv) + Z.of_nat md)
    with (1 + Z.of_nat (mb + mt + mv + md)) by lia.
  f_equal.
  rewrite !zrange_app. rewrite <- !app_assoc. 
  reflexivity.
Qed.

Ltac in_range_tac :=
  match goal with
  | Hi : In _ (range _) |- _ => apply in_range in Hi
  end.

Ltac getitems :=
  rewrite ?length_map, ?length_range;
  repeat (rewrite getitem_zrange by lia; cbn [bind]).

Lemma compute_geometry_closed (t : topology) (span height : F) (p : Z) :
  1 <= p ->
  compute_geometry span height p (btype_of t) = Ok (truss t span height p).
Proof.
  intros Hp. unfold compute_geometry, float_div_int.
  destruct (Z.eqb_spec p 0) as [|_]; [lia|]. cbn [bind].
  rewrite btype_key_of. cbn [bind]. fold (@nv0 F) mv0.
  rewrite (for_each_bottom_nodes _ (bottom_coord (fdiv span (of_int p))))
    by reflexivity.
  cbn [bind].
  assert (Htop :
    forall s, (if String.eqb (key_of t) "warren" then
            for_each (range p)
              (fun i s =>
                 let x := round4 (fmul (fadd (of_int i) (flit (1#2)))
                                       (fdiv span (of_int p))) in
                 Ok (add_top_node (x, height, f0) s)) s
          else if String.eqb (key_of t) "bowstring" then
            for_each (range (p + 1))
              (fun i s =>
                 let x := round4 (fmul (of_int i) (fdiv span (of_int p))) in
                 q <- int_truediv i p ;;
                 let y := round4 (fmul height (fsin (fmul q fpi))) in
                 Ok (add_top_node (x, y, f0) s)) s
          else
            for_each (range (p + 1))
              (fun i s =>
                 let x := round4 (fmul (of_int i) (fdiv span (of_int p))) in
                 Ok (add_top_node (x, height, f0) s)) s)
     = Ok (add_top_nodes (map (top_coord t height p (fdiv span (of_int p)))
                              (range (top_count t p))) s)).
  { intros s. destruct t; cbn [key_of String.eqb Ascii.eqb Bool.eqb andb];
      apply for_each_top_nodes; intros i s' Hi; try reflexivity.
    unfold int_truediv. destruct (Z.eqb_spec p 0); [lia|]. reflexivity. }
  cbv zeta in Htop. rewrite Htop. clear Htop. cbn [bind].
  rewrite nodes_closed. cbn [nv_nodes nv_bottom nv_top].
  rewrite !length_map, !length_range.
  replace (1 + Z.of_nat (Z.to_nat (p + 1))) with (p + 2) by lia.
  rewrite (for_each_members BottomChord _
             (fun i => [(bottom_id i, bottom_id (i + 1))])).
  2:{ intros i s' Hi. in_range_tac. getitems. reflexivity. }
  cbn [bind]. rewrite flat_map_singleton. fold (bottom_edges p).
  assert (Htc : forall s,
    for_each (range (match t with Warren => p - 1 | _ => p end))
      (fun i s =>
         a <- getitem (zrange (p + 2) (Z.to_nat (top_count t p))) i ;;
         b <- getitem (zrange (p + 2) (Z.to_nat (top_count t p))) (i + 1) ;;
         Ok (add_member TopChord (a, b) s)) s
    = Ok (add_members TopChord (top_edges t p) s)).
  { intros s. unfold top_edges. rewrite <- flat_map_singleton.
    apply for_each_members. intros i s' Hi. in_range_tac.
    destruct t; cbn [top_count] in *; getitems; reflexivity. }
  assert (Hv : forall s,
    t <> Warren ->
    for_each (range (p + 1))
      (fun i s =>
         a <- getitem (zrange 1 (Z.to_nat (p + 1))) i ;;
         b <- getitem (zrange (p + 2) (Z.to_nat (top_count t p))) i ;;
         Ok (add_member Vertical (a, b) s)) s
    = Ok (add_members Vertical (vertical_edges t p) s)).
  { intros s Ht.
    replace (vertical_edges t p)
      with (flat_map (fun i => [(bottom_id i, top_id p i)]) (range (p + 1)))
      by (rewrite flat_map_singleton; now destruct t).
    apply for_each_members. intros i s' Hi. in_range_tac.
    destruct t; try congruence; cbn [top_count] in *; getitems;
      reflexivity. }
  destruct t; cbn [key_of String.eqb Ascii.eqb Bool.eqb andb orb];
    rewrite Htc; cbn [bind]; rewrite ?Hv by discriminate; cbn [bind];
    cbn [top_count].
  - (* Pratt *)
    rewrite (for_each_members Diagonal _
               (fun i => [if i <? p / 2 then falling p i else rising p i])).
    2:{ intros i s' Hi. in_range_tac.
        destruct (i <? p / 2); getitems; reflexivity. }
    cbn [bind]. rewrite flat_map_singleton.
    fold (diagonal_edges Pratt p). rewrite members_closed. reflexivity.
  - (* Warren *)
    rewrite (for_each_members Diagonal _
               (fun i => [(bottom_id i, top_id p i);
                          (top_id p i, bottom_id (i + 1))])).
    2:{ intros i s' Hi. in_range_tac. getitems. reflexivity. }
    cbn [bind]. fold (diagonal_edges Warren p).
    change (add_members TopChord (top_edges Warren p) ?s)
      with (add_members Vertical (vertical_edges Warren p)
              (add_members TopChord (top_edges Warren p) s)).
    rewrite members_closed. reflexivity.
  - (* Howe *)
    rewrite (for_each_members Diagonal _
               (fun i => [if i <? p / 2 then rising p i else falling p i])).
    2:{ intros i s' Hi. in_range_tac.
        destruct (i <? p / 2); getitems; reflexivity. }
    cbn [bind]. rewrite flat_map_singleton.
    fold (diagonal_edges Howe p). rewrite members_closed. reflexivity.
  - (* Bowstring *)
    rewrite (for_each_members Diagonal _ (fun i => [rising p i])).
    2:{ intros i s' Hi. in_range_tac. getitems. reflexivity. }
    cbn [bind]. rewrite flat_map_singleton.
    fold (diagonal_edges Bowstring p). rewrite members_closed. reflexivity.
Qed.
End Loops.
(** ** Shape of the generated truss *)

Section TrussFacts.

Context {F : Type} `{PyFloat F}.

Lemma length_bottom_edges (p : Z) :
  List.length (bottom_edges p) = Z.to_nat p.
Proof. unfold bottom_edges. now rewrite length_map, length_range. Qed.

Lemma length_top_edges (t : topology) (p : Z) :
  List.length (top_edges t p) =
  Z.to_nat (match t with Warren => p - 1 | _ => p end).
Proof. unfold top_edges. now rewrite length_map, length_range. Qed.

Lemma length_vertical_edges (t : topology) (p : Z) :
  List.length (vertical_edges t p) =
  match t with Warren => 0%nat | _ => Z.to_nat (p + 1) end.
Proof.
  destruct t; cbn [vertical_edges]; now rewrite ?length_map, ?length_range.
Qed.

Lemma length_flat_map_pair {A B} (f g : A -> B) (l : list A) :
  List.length (flat_map (fun x => [f x; g x]) l) = (2 * List.length l)%nat.
Proof. induction l; simpl; lia. Qed.

Lemma length_diagonal_edges (t : topology) (p : Z) :
  List.length (diagonal_edges t p) =
  match t with
  | Warren => (2 * Z.to_nat p)%nat
  | _ => Z.to_nat p
  end.
Proof.
  destruct t; cbn [diagonal_edges];
    now rewrite ?length_flat_map_pair, ?length_map, ?length_range.
Qed.

Lemma in_flat_map_pair {A B} (f g : A -> B) (l : list A) (y : B) :
  In y (flat_map (fun x => [f x; g x]) l) <->
  exists x, In x l /\ (y = f x \/ y = g x).
Proof.
  rewrite in_flat_map. split; intros [x [Hx Hy]]; exists x; split; auto.
  - simpl in Hy. intuition auto.
  - simpl. intuition auto.
Qed.

(** Every edge joins two different nodes of the truss. *)
Lemma edge_endpoints (t : topology) (p a b : Z) :
  1 <= p ->
  In (a, b) (bottom_edges p ++ top_edges t p ++ vertical_edges t p
             ++ diagonal_edges t p) ->
  1 <= a < p + 2 + top_count t p /\
  1 <= b < p + 2 + top_count t p /\ a <> b.
Proof.
  intros Hp. rewrite !in_app_iff.
  unfold bottom_edges, top_edges, vertical_edges, diagonal_edges,
    falling, rising, bottom_id, top_id.
  intros [Hin|[Hin|[Hin|Hin]]]; destruct t; cbn [top_count];
    try contradiction;
    rewrite ?in_map_iff, ?in_flat_map_pair in Hin;
    destruct Hin as [i [Hi Hr]];
    try (rewrite in_range in Hi);
    try (rewrite in_range in Hr);
    repeat match goal with
           | Hx : _ \/ _ |- _ => destruct Hx
           | Hx : (if ?c then _ else _) = _ |- _ => destruct c
           | Hx : (_, _) = (_, _) |- _ =>
               apply pair_equal_spec in Hx; destruct Hx as [? ?]; subst
           end; lia.
Qed.

Lemma length_nodes_truss (t : topology) (span height : F) (p : Z) :
  0 <= p ->
  List.length (nodes (truss t span height p)) =
  Z.to_nat (p + 1 + top_count t p).
Proof.
  intros Hp. cbn [truss nodes].
  rewrite length_app, !length_combine, !length_zrange, !length_map,
    !length_range, !Nat.min_id.
  destruct t; cbn [top_count]; lia.
Qed.

Lemma keys_nodes_truss (t : topology) (span height : F) (p : Z) :
  0 <= p ->
  keys (nodes (truss t span height p)) =
  zrange 1 (Z.to_nat (p + 1 + top_count t p)).
Proof.
  intros Hp. cbn [truss nodes].
  rewrite keys_app, !keys_combine
    by now rewrite length_zrange, length_map, length_range.
  replace (Z.to_nat (p + 1 + top_count t p))
    with (Z.to_nat (p + 1) + Z.to_nat (top_count t p))%nat
    by (destruct t; cbn [top_count]; lia).
  rewrite zrange_app. do 2 f_equal. lia.
Qed.

Lemma length_members_truss (t : topology) (span height : F) (p : Z) :
  List.length (members (truss t span height p)) =
  (List.length (bottom_edges p) + List.length (top_edges t p)
   + List.length (vertical_edges t p)
   + List.length (diagonal_edges t p))%nat.
Proof.
  cbn [truss members].
  rewrite length_combine, length_zrange, !length_app. lia.
Qed.

Lemma keys_members_truss (t : topology) (span height : F) (p : Z) :
  keys (members (truss t span height p)) =
  zrange 1 (List.length (members (truss t span height p))).
Proof.
  rewrite length_members_truss. cbn [truss members].
  apply keys_combine. rewrite length_zrange, !length_app. lia.
Qed.

Lemma roles_truss (t : topology) (span height : F) (p : Z) :
  let g := truss t span height p in
  bot_ch g ++ top_ch g ++ verts g ++ diags g = keys (members g).
Proof.
  intros g. unfold g. rewrite keys_members_truss, length_members_truss.
  cbn [truss bot_ch top_ch verts diags].
  rewrite !zrange_app. rewrite <- !app_assoc.
  repeat f_equal; lia.
Qed.

Lemma truss_well_formed (t : topology) (span height : F) (p : Z) :
  1 <= p -> well_formed (truss t span height p).
Proof.
  intros Hp. unfold well_formed. rewrite roles_truss.
  rewrite keys_members_truss.
  rewrite keys_nodes_truss, length_nodes_truss by lia.
  repeat split; auto using NoDup_zrange.
  - apply in_zrange.
    apply in_combine_r in H0. apply (edge_endpoints t p) in H0; lia.
  - apply in_zrange.
    apply in_combine_r in H0. apply (edge_endpoints t p) in H0; lia.
  - apply in_combine_r in H0. apply (edge_endpoints t p) in H0; lia.
Qed.

End TrussFacts.

(** ** Looking nodes and members up *)

Lemma dict_get_app {V} (d d' : dict V) (k : Z) :
  dict_get (d ++ d') k =
  match dict_get d k with
  | Some v => Some v
  | None => dict_get d' k
  end.
Proof.
  induction d as [|[k' v'] d IH]; simpl; [reflexivity|].
  destruct (k' =? k); auto.
Qed.

Lemma dict_get_absent {V} (d : dict V) (k : Z) :
  ~ In k (keys d) -> dict_get d k = None.
Proof.
  induction d as [|[k' v'] d IH]; simpl; intros Hn; [reflexivity|].
  destruct (Z.eqb_spec k' k); [tauto|]. apply IH. tauto.
Qed.

Lemma dict_get_combine {V} (vs : list V) : forall (a : Z) (k : nat),
  (k < List.length vs)%nat ->
  dict_get (combine (zrange a (List.length vs)) vs) (a + Z.of_nat k) =
  nth_error vs k.
Proof.
  induction vs as [|v vs IH]; intros a k Hk; simpl in Hk; [lia|].
  cbn [List.length zrange combine dict_get].
  destruct k as [|k].
  - rewrite Z.add_0_r, Z.eqb_refl. reflexivity.
  - destruct (Z.eqb_spec a (a + Z.of_nat (S k))); [lia|].
    replace (a + Z.of_nat (S k)) with (a + 1 + Z.of_nat k) by lia.
    rewrite IH by lia. reflexivity.
Qed.

Lemma nth_error_map_range {B} (f : Z -> B) (n i : Z) :
  0 <= i < n -> nth_error (map f (range n)) (Z.to_nat i) = Some (f i).
Proof.
  intros Hi. rewrite nth_error_map, range_zrange, nth_error_zrange by lia.
  simpl. f_equal. f_equal. lia.
Qed.

Lemma getitem_nth {A} (l : list A) (i : Z) (a : A) :
  0 <= i -> nth_error l (Z.to_nat i) = Some a -> getitem l i = Ok a.
Proof.
  intros Hi Hn. unfold getitem.
  assert (Hlt : (Z.to_nat i < List.length l)%nat)
    by (apply nth_error_Some; congruence).
  destruct (Z.ltb_spec i 0); [lia|].
  destruct (Z.ltb_spec i 0); [lia|].
  destruct (Z.leb_spec (Z.of_nat (List.length l)) i); [lia|].
  simpl. now rewrite Hn.
Qed.

Section Lookup.

Context {F : Type} `{PyFloat F}.

Variables (t : topology) (span height : F) (p : Z).
Hypothesis Hp : 1 <= p.

Let g := truss t span height p.
Let panel_w := fdiv span (of_int p).

Lemma getitem_bottom (i : Z) :
  0 <= i <= p -> getitem (bottom g) i = Ok (bottom_id i).
Proof. intros Hi. apply getitem_zrange. lia. Qed.

Lemma getitem_top (i : Z) :
  0 <= i < top_count t p -> getitem (top g) i = Ok (top_id p i).
Proof. intros Hi. apply getitem_zrange. lia. Qed.

Lemma node_bottom (i : Z) :
  0 <= i <= p ->
  dict_get (nodes g) (bottom_id i) = Some (bottom_coord panel_w i).
Proof.
  intros Hi. unfold g, bottom_id. cbn [truss nodes]. rewrite dict_get_app.
  replace (1 + i) with (1 + Z.of_nat (Z.to_nat i)) by lia.
  replace (Z.to_nat (p + 1))
    with (List.length (map (bottom_coord panel_w) (range (p + 1))))
    by now rewrite length_map, length_range.
  rewrite dict_get_combine by (rewrite length_map, length_range; lia).
  now rewrite nth_error_map_range by lia.
Qed.

Lemma node_top (i : Z) :
  0 <= i < top_count t p ->
  dict_get (nodes g) (top_id p i) = Some (top_coord t height p panel_w i).
Proof.
  intros Hi. unfold g, top_id. cbn [truss nodes]. rewrite dict_get_app.
  rewrite dict_get_absent.
  2:{ rewrite keys_combine
        by now rewrite length_zrange, length_map, length_range.
      rewrite in_zrange. lia. }
  replace (p + 2 + i) with (p + 2 + Z.of_nat (Z.to_nat i)) by lia.
  replace (Z.to_nat (top_count t p))
    with (List.length (map (top_coord t height p panel_w)
                           (range (top_count t p))))
    by now rewrite length_map, length_range.
  rewrite dict_get_combine by (rewrite length_map, length_range; lia).
  now rewrite nth_error_map_range by lia.
Qed.

(** The [k]-th member has id [k + 1]. *)
Lemma member_lookup (k : nat) (e : Z * Z) :
  nth_error (bottom_edges p ++ top_edges t p ++ vertical_edges t p
             ++ diagonal_edges t p) k = Some e ->
  dict_get (members g) (1 + Z.of_nat k) = Some e.
Proof.
  intros Hn. unfold g. cbn [truss members].
  rewrite <- Hn.
  replace (List.length (bottom_edges p) + List.length (top_edges t p)
           + List.length (vertical_edges t p)
           + List.length (diagonal_edges t p))%nat
    with (List.length (bottom_edges p ++ top_edges t p
                       ++ vertical_edges t p ++ diagonal_edges t p))
    by (rewrite !length_app; lia).
  apply dict_get_combine. apply nth_error_Some. congruence.
Qed.

(** The [k]-th diagonal, as a member. *)
Lemma diagonal_lookup (k : nat) (e : Z * Z) :
  nth_error (diagonal_edges t p) k = Some e ->
  exists d, getitem (diags g) (Z.of_nat k) = Ok d /\
            dict_get (members g) d = Some e.
Proof.
  intros Hn.
  assert (Hk : (k < List.length (diagonal_edges t p))%nat)
    by (apply nth_error_Some; congruence).
  eexists. split.
  - unfold g. cbn [truss diags]. apply getitem_zrange. lia.
  - set (o := (List.length (bottom_edges p) + List.length (top_edges t p)
               + List.length (vertical_edges t p))%nat).
    replace (1 + Z.of_nat o + Z.of_nat k) with (1 + Z.of_nat (o + k)) by lia.
    apply member_lookup.
    rewrite !app_assoc. rewrite nth_error_app2; rewrite !length_app;
      [|lia].
    rewrite <- Hn. f_equal. lia.
Qed.

End Lookup.

(** ** Rounding in exact arithmetic *)

Section Rounding.

#[local] Open Scope R_scope.

Lemma round_half_even_down (x : R) (n : Z) :
  IZR n <= x < IZR n + 1 / 2 -> round_half_even x = n.
Proof.
  intros Hx. unfold round_half_even.
  assert (Hn : Int_part x = n)
    by (symmetry; apply Int_part_spec; lra).
  rewrite Hn. destruct (Rlt_dec (x - IZR n) (1 / 2)); [reflexivity|lra].
Qed.

Lemma round_half_even_up (x : R) (n : Z) :
  IZR n + 1 / 2 < x < IZR n + 1 -> round_half_even x = (n + 1)%Z.
Proof.
  intros Hx. unfold round_half_even.
  assert (Hn : Int_part x = n)
    by (symmetry; apply Int_part_spec; lra).
  rewrite Hn. destruct (Rlt_dec (x - IZR n) (1 / 2)); [lra|].
  destruct (Rlt_dec (1 / 2) (x - IZR n)); [reflexivity|lra].
Qed.

Lemma round_half_even_IZR (n : Z) : round_half_even (IZR n) = n.
Proof. apply round_half_even_down. lra. Qed.

Lemma Rround4_four_decimals (x : R) : four_decimals (Rround4 x).
Proof. unfold four_decimals, Rround4. eauto. Qed.

Lemma Rround4_fixed (x : R) : four_decimals x -> Rround4 x = x.
Proof.
  intros [n ->]. unfold Rround4.
  replace (IZR n / 10000 * 10000) with (IZR n) by field.
  now rewrite round_half_even_IZR.
Qed.

Lemma Rround4_0 : Rround4 0 = 0.
Proof.
  rewrite Rround4_fixed; [reflexivity|]. exists 0%Z. lra.
Qed.

Lemma not_four_decimals_small : ~ four_decimals (1 / 100000).
Proof.
  intros [n Hn].
  assert (Hz : IZR (n * 10) = IZR 1) by (rewrite mult_IZR; lra).
  apply eq_IZR in Hz. lia.
Qed.

Lemma Rround4_small : Rround4 (1 / 100000) = 0.
Proof.
  unfold Rround4. rewrite (round_half_even_down _ 0); lra.
Qed.

(** [math.pi] is below pi, by between 1.0e-16 and 1.5e-16. *)
Lemma PI_near_pi64 : pi64 + 1 / 10 ^ 16 < PI < pi64 + 15 / 10 ^ 17.
Proof.
  pose proof (PI_2_3_7_ineq 9) as [Hlo _].
  pose proof (PI_2_3_7_ineq 9) as [_ Hhi].
  unfold pi64.
  cbv [sum_f_R0 tg_alt PI_2_3_7_tg Ratan_seq Nat.mul Nat.add pow INR]
    in Hlo, Hhi.
  split; lra.
Qed.

Lemma sin_small (d : R) : 0 <= d <= 1 -> d / 2 <= sin d <= d.
Proof.
  intros Hd. split.
  - destruct (sin_bound d 0) as [Hlo _]; [lra|pose proof PI2_1; lra|].
    cbv [sin_approx sum_f_R0 sin_term Nat.mul Nat.add pow fact INR
         Nat.div Nat.divmod fst] in Hlo.
    nra.
  - destruct (Req_dec d 0) as [->|Hne]; [rewrite sin_0; lra|].
    apply Rlt_le, sin_lt_x. lra.
Qed.

(** [sin(math.pi)] is between 0.5e-16 and 1.5e-16. *)
Lemma sin_pi64 : 5 / 10 ^ 17 < sin pi64 < 15 / 10 ^ 17.
Proof.
  rewrite <- (sin_PI_x pi64).
  pose proof PI_near_pi64 as [Hlo Hhi].
  destruct (sin_small (PI - pi64)) as [H1 H2]; lra.
Qed.

Lemma Rround4_near_1 (x : R) :
  5 / 10 ^ 5 < x < 15 / 10 ^ 5 -> Rround4 x = 1 / 10000.
Proof.
  intros Hx. unfold Rround4.
  destruct (Rlt_le_dec (x * 10000) 1) as [Hlt|Hge].
  - rewrite (round_half_even_up _ 0); [reflexivity|lra].
  - rewrite (round_half_even_down _ 1); [reflexivity|lra].
Qed.

Lemma R_float_ieee : ieee_identities R.
Proof.
  constructor; cbn [of_int flit fmul fdiv fsin fpi R_float].
  - intros n Hn. unfold Q2R. cbn. field. apply not_0_IZR. lia.
  - intros n Hn. unfold Q2R. cbn. field. apply not_0_IZR. lia.
  - intros k Hk. rewrite mult_IZR. unfold Q2R. cbn. field.
    apply not_0_IZR. lia.
  - unfold Q2R. cbn. lra.
  - unfold Q2R. cbn. lra.
  - replace (Q2R 0) with 0 by (unfold Q2R; cbn; lra). apply sin_0.
  - replace (Q2R (1 # 2) * PI) with (PI / 2) by (unfold Q2R; cbn; lra).
    rewrite sin_PI2. unfold Q2R. cbn. lra.
  - intros x. unfold Q2R. cbn. lra.
Qed.

End Rounding.

(** ** The generator: ids, roles and diagonals *)

Section GeneratorClaims.

Context {F : Type} `{PyFloat F}.

(** The generator run on small inputs. *)

Example pratt_4_panels (span height : F) :
  match compute_geometry span height 4 "Pratt Truss" with
  | Ok g =>
      bottom g = [1; 2; 3; 4; 5] /\ top g = [6; 7; 8; 9; 10] /\
      members g =
      [(1, (1, 2)); (2, (2, 3)); (3, (3, 4)); (4, (4, 5));
       (5, (6, 7)); (6, (7, 8)); (7, (8, 9)); (8, (9, 10));
       (9, (1, 6)); (10, (2, 7)); (11, (3, 8)); (12, (4, 9)); (13, (5, 10));
       (14, (6, 2)); (15, (7, 3)); (16, (3, 9)); (17, (4, 10))] /\
      bot_ch g = [1; 2; 3; 4] /\ top_ch g = [5; 6; 7; 8] /\
      verts g = [9; 10; 11; 12; 13] /\ diags g = [14; 15; 16; 17]
  | Raise _ => False
  end.
Proof. vm_compute. repeat split. Qed.

Example howe_3_panels (span height : F) :
  match compute_geometry span height 3 "Howe Truss" with
  | Ok g =>
      members g =
      [(1, (1, 2)); (2, (2, 3)); (3, (3, 4));
       (4, (5, 6)); (5, (6, 7)); (6, (7, 8));
       (7, (1, 5)); (8, (2, 6)); (9, (3, 7)); (10, (4, 8));
       (11, (1, 6)); (12, (6, 3)); (13, (7, 4))] /\
      diags g = [11; 12; 13]
  | Raise _ => False
  end.
Proof. vm_compute. repeat split. Qed.

Example warren_2_panels (span height : F) :
  compute_geometry span height 2 "Warren Truss" =
  Ok {| nodes :=
          [(1, (round4 (fmul (of_int 0) (fdiv span (of_int 2))), f0, f0));
           (2, (round4 (fmul (of_int 1) (fdiv span (of_int 2))), f0, f0));
           (3, (round4 (fmul (of_int 2) (fdiv span (of_int 2))), f0, f0));
           (4, (round4 (fmul (fadd (of_int 0) (flit (1#2)))
                             (fdiv span (of_int 2))), height, f0));
           (5, (round4 (fmul (fadd (of_int 1) (flit (1#2)))
                             (fdiv span (of_int 2))), height, f0))];
        members :=
          [(1, (1, 2)); (2, (2, 3)); (3, (4, 5));
           (4, (1, 4)); (5, (4, 2)); (6, (2, 5)); (7, (5, 3))];
        bottom := [1; 2; 3]; top := [4; 5];
        bot_ch := [1; 2]; top_ch := [3]; verts := [];
        diags := [4; 5; 6; 7] |}.
Proof. reflexivity. Qed.

Example unknown_type_has_bottom_chord_only (span height : F) :
  match compute_geometry span height 2 "Cable Stayed" with
  | Ok g => members g = [(1, (1, 2)); (2, (2, 3))] /\ top g = [4; 5; 6]
  | Raise _ => False
  end.
Proof. vm_compute. repeat split. Qed.

Example blank_type_raises (span height : F) :
  compute_geometry span height 2 "  " = Raise IndexError.
Proof. reflexivity. Qed.

(** C1. For every panel count [>= 1], every span and height (positive or
    not) and each of the four truss types, the generator returns a
    geometry whose node ids are exactly [1..N] and whose member ids are
    exactly [1..M], without duplicates; both ends of every member are
    node ids and differ; and the bottom-chord, top-chord, vertical and
    diagonal id lists, put together, hold every member id exactly once. *)
Theorem generator_output_well_formed
        (t : topology) (span height : F) (panels : Z) :
  1 <= panels ->
  exists g, compute_geometry span height panels (btype_of t) = Ok g /\
            well_formed g.
Proof.
  intros Hp. exists (truss t span height panels). split.
  - now apply compute_geometry_closed.
  - now apply truss_well_formed.
Qed.

(** C3. With [half = panels // 2], the Pratt truss has one diagonal per
    panel, the one of panel [i] being [(top[i], bottom[i+1])] when
    [i < half] and [(bottom[i], top[i+1])] otherwise; the Howe truss has
    the two cases swapped.  [panels / 2] rounds down, so an odd panel
    count gives the uneven split. *)
Theorem pratt_howe_diagonals (span height : F) (panels : Z) :
  1 <= panels ->
  let half := panels / 2 in
  exists gp gh,
    compute_geometry span height panels "Pratt Truss" = Ok gp /\
    compute_geometry span height panels "Howe Truss" = Ok gh /\
    Z.of_nat (List.length (diags gp)) = panels /\
    Z.of_nat (List.length (diags gh)) = panels /\
    bottom gh = bottom gp /\ top gh = top gp /\
    forall i, 0 <= i < panels ->
      exists top_i top_i1 bottom_i bottom_i1,
        getitem (top gp) i = Ok top_i /\
        getitem (top gp) (i + 1) = Ok top_i1 /\
        getitem (bottom gp) i = Ok bottom_i /\
        getitem (bottom gp) (i + 1) = Ok bottom_i1 /\
        diagonal_of gp i (if i <? half then (top_i, bottom_i1)
                          else (bottom_i, top_i1)) /\
        diagonal_of gh i (if i <? half then (bottom_i, top_i1)
                          else (top_i, bottom_i1)).
Proof.
  intros Hp half.
  exists (truss Pratt span height panels), (truss Howe span height panels).
  split; [now apply (compute_geometry_closed Pratt)|].
  split; [now apply (compute_geometry_closed Howe)|].
  split; [cbn [truss diags]; rewrite length_zrange, length_diagonal_edges;
          lia|].
  split; [cbn [truss diags]; rewrite length_zrange, length_diagonal_edges;
          lia|].
  split; [reflexivity|]. split; [reflexivity|].
  intros i Hi.
  exists (top_id panels i), (top_id panels (i + 1)), (bottom_id i),
    (bottom_id (i + 1)).
  rewrite !getitem_top, !getitem_bottom by (cbn [top_count]; lia).
  repeat split.
  - replace i with (Z.of_nat (Z.to_nat i)) at 1 by lia.
    apply diagonal_lookup. cbn [diagonal_edges].
    now rewrite nth_error_map_range.
  - replace i with (Z.of_nat (Z.to_nat i)) at 1 by lia.
    apply diagonal_lookup. cbn [diagonal_edges].
    now rewrite nth_error_map_range.
Qed.

End GeneratorClaims.

Lemma generator_output_well_formed_witness :
  1 <= 8 /\
  exists g : geometry R,
    compute_geometry 120%R 20%R 8 (btype_of Pratt) = Ok g /\ well_formed g.
Proof.
  split; [lia|]. apply (generator_output_well_formed Pratt 120%R 20%R 8). lia.
Defined.

Lemma pratt_howe_diagonals_witness :
  1 <= 3 /\
  exists gp gh : geometry R,
    compute_geometry 120%R 20%R 3 "Pratt Truss" = Ok gp /\
    compute_geometry 120%R 20%R 3 "Howe Truss" = Ok gh /\
    diagonal_of gp 0 (5, 2) /\ diagonal_of gp 1 (2, 7) /\
    diagonal_of gp 2 (3, 8) /\
    diagonal_of gh 0 (1, 6) /\ diagonal_of gh 1 (6, 3) /\
    diagonal_of gh 2 (7, 4).
Proof.
  split; [lia|].
  destruct (pratt_howe_diagonals 120%R 20%R 3) as
    (gp & gh & Hgp & Hgh & _ & _ & Hb & Ht & Hd); [lia|].
  exists gp, gh. split; [exact Hgp|]. split; [exact Hgh|].
  rewrite (compute_geometry_closed Pratt) in Hgp by lia.
  injection Hgp as <-.
  repeat split.
  - destruct (Hd 0) as (a & b & c & d & Ha & Hb' & Hc & Hd' & Hp & _);
      [lia|].
    vm_compute in Ha, Hb', Hc, Hd'.
    injection Ha as <-. injection Hb' as <-. injection Hc as <-.
    injection Hd' as <-. exact Hp.
  - destruct (Hd 1) as (a & b & c & d & Ha & Hb' & Hc & Hd' & Hp & _);
      [lia|].
    vm_compute in Ha, Hb', Hc, Hd'.
    injection Ha as <-. injection Hb' as <-. injection Hc as <-.
    injection Hd' as <-. exact Hp.
  - destruct (Hd 2) as (a & b & c & d & Ha & Hb' & Hc & Hd' & Hp & _);
      [lia|].
    vm_compute in Ha, Hb', Hc, Hd'.
    injection Ha as <-. injection Hb' as <-. injection Hc as <-.
    injection Hd' as <-. exact Hp.
  - destruct (Hd 0) as (a & b & c & d & Ha & Hb' & Hc & Hd' & _ & Hp);
      [lia|].
    vm_compute in Ha, Hb', Hc, Hd'.
    injection Ha as <-. injection Hb' as <-. injection Hc as <-.
    injection Hd' as <-. exact Hp.
  - destruct (Hd 1) as (a & b & c & d & Ha & Hb' & Hc & Hd' & _ & Hp);
      [lia|].
    vm_compute in Ha, Hb', Hc, Hd'.
    injection Ha as <-. injection Hb' as <-. injection Hc as <-.
    injection Hd' as <-. exact Hp.
  - destruct (Hd 2) as (a & b & c & d & Ha & Hb' & Hc & Hd' & _ & Hp);
      [lia|].
    vm_compute in Ha, Hb', Hc, Hd'.
    injection Ha as <-. injection Hb' as <-. injection Hc as <-.
    injection Hd' as <-. exact Hp.
Defined.

(** ** The Warren truss *)

Lemma nth_error_flat_map_pair {A B} (f g : A -> B) (l : list A) :
  forall (k : nat) (x : A),
    nth_error l k = Some x ->
    nth_error (flat_map (fun x => [f x; g x]) l) (2 * k) = Some (f x) /\
    nth_error (flat_map (fun x => [f x; g x]) l) (2 * k + 1) = Some (g x).
Proof.
  induction l as [|a l IH]; intros [|k] x Hx; simpl in Hx; try discriminate.
  - injection Hx as <-. split; reflexivity.
  - destruct (IH k x Hx) as [H1 H2].
    replace (2 * S k)%nat with (S (S (2 * k))) by lia.
    replace (S (S (2 * k)) + 1)%nat with (S (S (2 * k + 1))) by lia.
    split; assumption.
Qed.

Section WarrenClaims.

Context {F : Type} `{PyFloat F}.

(** C4 (amended).  For every panel count [>= 1] the Warren truss has
    [panels + 1] bottom nodes and [panels] apex nodes, apex [i] lying at
    [x = round((i + 0.5) * panel_w, 4)] (the product rounded to four
    decimal places) and [y = height]; [panels] bottom-chord members,
    [panels - 1] top-chord members, no vertical and [2 * panels]
    diagonals, the two of panel [i] being [(bottom[i], top[i])] and
    [(top[i], bottom[i+1])]; with 8 panels that makes 17 nodes and 31
    members. *)
Theorem warren_layout (span height : F) (panels : Z) :
  1 <= panels ->
  exists g,
    compute_geometry span height panels "Warren Truss" = Ok g /\
    Z.of_nat (List.length (bottom g)) = panels + 1 /\
    Z.of_nat (List.length (top g)) = panels /\
    Z.of_nat (List.length (bot_ch g)) = panels /\
    Z.of_nat (List.length (top_ch g)) = panels - 1 /\
    Z.of_nat (List.length (diags g)) = 2 * panels /\
    verts g = [] /\
    Z.of_nat (List.length (nodes g)) = 2 * panels + 1 /\
    Z.of_nat (List.length (members g)) = 4 * panels - 1 /\
    (forall i, 0 <= i < panels ->
       top_node g i =
       Some (round4 (fmul (fadd (of_int i) (flit (1#2)))
                          (fdiv span (of_int panels))),
             height, f0)) /\
    (forall i, 0 <= i < panels ->
       exists bottom_i top_i bottom_i1,
         getitem (bottom g) i = Ok bottom_i /\
         getitem (top g) i = Ok top_i /\
         getitem (bottom g) (i + 1) = Ok bottom_i1 /\
         diagonal_of g (2 * i) (bottom_i, top_i) /\
         diagonal_of g (2 * i + 1) (top_i, bottom_i1)) /\
    (panels = 8 ->
       List.length (nodes g) = 17%nat /\ List.length (members g) = 31%nat).
Proof.
  intros Hp. exists (truss Warren span height panels).
  split; [now apply (compute_geometry_closed Warren)|].
  assert (Hn : List.length (nodes (truss Warren span height panels))
               = Z.to_nat (2 * panels + 1)).
  { rewrite length_nodes_truss by lia. cbn [top_count]. f_equal. lia. }
  assert (Hm : List.length (members (truss Warren span height panels))
               = Z.to_nat (4 * panels - 1)).
  { rewrite length_members_truss, length_bottom_edges, length_top_edges,
      length_vertical_edges, length_diagonal_edges. lia. }
  cbn [truss bottom top bot_ch top_ch verts diags].
  rewrite !length_zrange, length_bottom_edges, length_top_edges,
    length_vertical_edges, length_diagonal_edges, Hn, Hm.
  cbn [top_count zrange].
  repeat (split; [lia || reflexivity|]).
  split; [|split].
  - intros i Hi. unfold top_node.
    rewrite (getitem_top Warren span height panels) by (cbn [top_count]; lia).
    rewrite node_top by (cbn [top_count]; lia). reflexivity.
  - intros i Hi.
    exists (bottom_id i), (top_id panels i), (bottom_id (i + 1)).
    rewrite (getitem_top Warren span height panels) by (cbn [top_count]; lia).
    rewrite !(getitem_bottom Warren span height panels) by lia.
    assert (Hr : nth_error (range panels) (Z.to_nat i) = Some i).
    { rewrite <- (map_id (range panels)). now apply nth_error_map_range. }
    destruct (nth_error_flat_map_pair
                (fun i => (bottom_id i, top_id panels i))
                (fun i => (top_id panels i, bottom_id (i + 1)))
                _ _ _ Hr) as [H1 H2].
    repeat split.
    + replace (2 * i) with (Z.of_nat (2 * Z.to_nat i)) by lia.
      now apply diagonal_lookup.
    + replace (2 * i + 1) with (Z.of_nat (2 * Z.to_nat i + 1)) by lia.
      now apply diagonal_lookup.
  - intros ->. split; reflexivity.
Qed.

End WarrenClaims.

Lemma warren_layout_witness :
  1 <= 8 /\
  exists g : geometry R,
    compute_geometry 120%R 20%R 8 "Warren Truss" = Ok g /\
    List.length (nodes g) = 17%nat /\ List.length (members g) = 31%nat /\
    verts g = [].
Proof.
  split; [lia|].
  destruct (warren_layout 120%R 20%R 8) as
    (g & Hg & _ & _ & _ & _ & _ & Hv & _ & _ & _ & _ & H8); [lia|].
  exists g. destruct (H8 eq_refl) as [Hn Hm]. auto.
Defined.

(** With span 100 and 6 panels the first apex is at [x = 8.3333], which is
    not [(0 + 0.5) * panel_w = 25/3]: C4 as stated, without the rounding,
    fails there. *)
Lemma warren_apex_counterexample :
  exists (g : geometry R) (x y z : R),
    compute_geometry 100%R 20%R 6 "Warren Truss" = Ok g /\
    top_node g 0 = Some (x, y, z) /\
    x = (83333 / 10000)%R /\
    x <> ((0 + 1 / 2) * (100 / 6))%R.
Proof.
  exists (truss Warren 100%R 20%R 6).
  assert (Hx : round4 (fmul (fadd (of_int 0) (flit (1#2)))
                            (fdiv 100%R (of_int 6))) = (83333 / 10000)%R).
  { cbn [round4 fmul fadd of_int flit fdiv R_float]. unfold Rround4, Q2R.
    cbn [Qnum Qden]. rewrite (round_half_even_down _ 83333); [reflexivity|].
    lra. }
  do 3 eexists. split; [now apply (compute_geometry_closed Warren)|].
  split.
  - unfold top_node.
    rewrite (getitem_top Warren 100%R 20%R 6) by (cbn [top_count]; lia).
    rewrite node_top by (cbn [top_count]; lia). reflexivity.
  - rewrite Hx. split; [reflexivity|lra].
Qed.

(** ** Coordinates *)

Section CoordinateClaims.

Context {F : Type} `{PyFloat F}.

Lemma in_nodes_truss (t : topology) (span height : F) (p n : Z)
      (c : coord F) :
  In (n, c) (nodes (truss t span height p)) ->
  (exists i, 0 <= i < p + 1 /\ In n (bottom (truss t span height p)) /\
             c = bottom_coord (fdiv span (of_int p)) i) \/
  (exists i, 0 <= i < top_count t p /\
             In n (top (truss t span height p)) /\
             c = top_coord t height p (fdiv span (of_int p)) i).
Proof.
  cbn [truss nodes bottom top]. rewrite in_app_iff.
  intros [Hin|Hin]; [left|right].
  - pose proof (in_combine_l _ _ _ _ Hin) as Hl.
    apply in_combine_r, in_map_iff in Hin. destruct Hin as [i [<- Hi]].
    apply in_range in Hi. eauto.
  - pose proof (in_combine_l _ _ _ _ Hin) as Hl.
    apply in_combine_r, in_map_iff in Hin. destruct Hin as [i [<- Hi]].
    apply in_range in Hi. eauto.
Qed.

(** C6 (amended).  For every panel count [>= 1] and each truss type: the
    [x] of every node is a value returned by [round(_, 4)] and its [z] is
    [0.0]; the [y] of a bottom node is [0.0]; the [y] of a top node is a
    value returned by [round(_, 4)] for the Bowstring arch, and is the
    height as it was passed in (not rounded) for Pratt, Howe and
    Warren. *)
Theorem coordinates_rounding
        (t : topology) (span height : F) (panels : Z) :
  1 <= panels ->
  exists g,
    compute_geometry span height panels (btype_of t) = Ok g /\
    forall n x y z, In (n, (x, y, z)) (nodes g) ->
      rounded4 x /\ z = f0 /\
      ((In n (bottom g) /\ y = f0) \/
       (In n (top g) /\
        match t with
        | Bowstring => rounded4 y
        | _ => y = height
        end)).
Proof.
  intros Hp. exists (truss t span height panels).
  split; [now apply compute_geometry_closed|].
  intros n x y z Hin. apply in_nodes_truss in Hin.
  destruct Hin as [(i & Hi & Hn & Hc)|(i & Hi & Hn & Hc)].
  - unfold bottom_coord in Hc. injection Hc as -> -> ->.
    split; [eexists; reflexivity|]. split; [reflexivity|]. now left.
  - destruct t; cbn [top_coord] in Hc; injection Hc as -> -> ->;
      (split; [eexists; reflexivity|]); (split; [reflexivity|]); right;
      (split; [assumption|]); try reflexivity.
    eexists; reflexivity.
Qed.

End CoordinateClaims.

Lemma coordinates_rounding_witness :
  1 <= 8 /\
  exists g : geometry R,
    compute_geometry 120%R 20%R 8 (btype_of Howe) = Ok g /\
    forall n x y z, In (n, (x, y, z)) (nodes g) -> four_decimals x.
Proof.
  split; [lia|].
  destruct (coordinates_rounding Howe 120%R 20%R 8) as (g & Hg & Hc); [lia|].
  exists g. split; [exact Hg|].
  intros n x y z Hin. destruct (Hc n x y z Hin) as [[u ->] _].
  apply Rround4_four_decimals.
Defined.

(** A Pratt truss of height [0.00001] has a top node whose [y] is
    [0.00001]: not a number with four decimal places, and not what
    [round(y, 4)] gives.  C6 as stated fails there. *)
Lemma unrounded_height_counterexample :
  exists (g : geometry R) (n : Z) (x y z : R),
    compute_geometry 120%R (1 / 100000)%R 4 "Pratt Truss" = Ok g /\
    dict_get (nodes g) n = Some (x, y, z) /\
    ~ four_decimals y /\ round4 y <> y.
Proof.
  exists (truss Pratt 120%R (1 / 100000)%R 4), (top_id 4 0).
  do 3 eexists. split; [now apply (compute_geometry_closed Pratt)|].
  split.
  - rewrite node_top by (cbn [top_count]; lia). reflexivity.
  - split; [exact not_four_decimals_small|].
    cbn [round4 R_float]. rewrite Rround4_small. lra.
Qed.

(** ** The Bowstring arch *)

Section BowstringClaims.

Context {F : Type} `{PyFloat F}.

Lemma bowstring_top_node (span height : F) (panels i : Z) :
  1 <= panels -> 0 <= i <= panels ->
  top_node (truss Bowstring span height panels) i =
  Some (round4 (fmul (of_int i) (fdiv span (of_int panels))),
        round4 (fmul height
                  (fsin (fmul (fdiv (of_int i) (of_int panels)) fpi))),
        f0).
Proof.
  intros Hp Hi. unfold top_node.
  rewrite (getitem_top Bowstring span height panels)
    by (cbn [top_count]; lia).
  rewrite node_top by (cbn [top_count]; lia). reflexivity.
Qed.


End BowstringClaims.


(** ** Reasoning on runs of the exporter *)

Section RunRules.

Context {F : Type} `{PyFloat F}.

Variable os_analytical : staad F.

Variable P : event F -> Prop.

Lemma emits_ret {A} (a : A) : emits P (ret a).
Proof. intros tr. exists []. cbn. now rewrite app_nil_r. Qed.

Lemma emits_lift {A} (r : result A) : emits P (lift r).
Proof. intros tr. exists []. cbn. now rewrite app_nil_r. Qed.

Lemma emits_log (m : message F) (e s : bool) :
  P (Log m e s) -> emits P (log_callback m e s).
Proof. intros HP tr. exists [Log m e s]. cbn. auto. Qed.

Lemma emits_call (c : call F) :
  P (Call c) -> emits P (do_call os_analytical c).
Proof. intros HP tr. exists [Call c]. cbn. auto. Qed.

Lemma emits_bind {A B} (m : M F A) (k : A -> M F B) :
  emits P m -> (forall a, emits P (k a)) -> emits P (mbind m k).
Proof.
  intros Hm Hk tr. destruct (Hm tr) as (es & Hes & HP).
  unfold mbind. destruct (m tr) as [tr1 [a|e]]; cbn in Hes; subst tr1.
  - destruct (Hk a (tr ++ es)) as (es' & Hes' & HP').
    exists (es ++ es'). rewrite Hes', app_assoc. split; [reflexivity|].
    now apply Forall_app.
  - exists es. auto.
Qed.

Lemma emits_bind_lift {A B} (r : result A) (k : A -> M F B) :
  (forall a, r = Ok a -> emits P (k a)) -> emits P (mbind (lift r) k).
Proof.
  intros Hk tr. unfold mbind, lift. destruct r as [a|e].
  - now apply Hk.
  - exists []. cbn. now rewrite app_nil_r.
Qed.

Lemma emits_when (b : bool) (m : M F unit) :
  (b = true -> emits P m) -> emits P (when b m).
Proof. destruct b; cbn; intros Hm; [now apply Hm | apply emits_ret]. Qed.

Lemma emits_if {A} (b : bool) (m1 m2 : M F A) :
  emits P m1 -> emits P m2 -> emits P (if b then m1 else m2).
Proof. now destruct b. Qed.

Lemma emits_for {X} (xs : list X) (body : X -> M F unit) :
  (forall x, In x xs -> emits P (body x)) -> emits P (for_eachM xs body).
Proof.
  induction xs as [|x xs IH]; intros Hb; cbn [for_eachM].
  - apply emits_ret.
  - apply emits_bind; [apply Hb; now left|].
    intros _. apply IH. intros; apply Hb; now right.
Qed.

Lemma emits_try {A} (body : M F A) (h : exn -> M F A) :
  emits P body -> (forall e, emits P (h e)) -> emits P (try_except body h).
Proof.
  intros Hb Hh tr. destruct (Hb tr) as (es & Hes & HP).
  unfold try_except. destruct (body tr) as [tr1 [a|e]]; cbn in Hes;
    subst tr1.
  - exists es. auto.
  - destruct (Hh e (tr ++ es)) as (es' & Hes' & HP').
    exists (es ++ es'). rewrite Hes', app_assoc. split; [reflexivity|].
    now apply Forall_app.
Qed.

End RunRules.

(** Applies the rules above down to the events themselves. *)
Ltac emits_rules :=
  repeat first
    [ apply emits_ret
    | apply emits_lift
    | apply emits_log
    | apply emits_call
    | apply emits_when; intros ?
    | apply emits_if
    | apply emits_for; intros ? ?
    | apply emits_try; [|intros ?]
    | apply emits_bind_lift; intros ? ?
    | apply emits_bind; [|intros ?]
    | match goal with
      | |- emits _ (let '(_, _) := ?p in _) => destruct p
      end ].

Section RunFacts.

Context {F : Type} `{PyFloat F}.

Variable os_analytical : staad F.

Lemma build_model_emits P (cfg : config F) (lu fu : Z) (g : geometry F) :
  (forall m e s, P (Log m e s)) ->
  (forall c, load_guarded cfg g (Call c) -> P (Call c)) ->
  emits P (build_model os_analytical cfg lu fu g).
Proof.
  intros Hlog Hcall. unfold build_model.
  emits_rules; try apply Hlog; try (apply Hcall; exact I).
  - apply Hcall. cbn [load_guarded].
    match goal with
    | Hb : _ && _ = true |- _ => apply andb_prop in Hb; destruct Hb
    end.
    split; [assumption|]. eexists. split; [eassumption|]. reflexivity.
  - apply Hcall. left. split; [assumption|reflexivity].
  - apply Hcall. right. split; [assumption|reflexivity].
Qed.

Lemma run_in_staad_emits P (b : bool) (cfg : config F) :
  (forall m e s, P (Log m e s)) ->
  (forall g c,
      compute_geometry (cfg_span cfg) (cfg_height cfg) (cfg_panels cfg)
                       (cfg_bridge_type cfg) = Ok g ->
      load_guarded cfg g (Call c) -> P (Call c)) ->
  emits P (run_in_staad os_analytical b cfg).
Proof.
  intros Hlog Hcall. unfold run_in_staad.
  destruct (negb b).
  - emits_rules. apply Hlog.
  - apply emits_bind_lift. intros [lu fu] _.
    apply emits_bind_lift. intros g Hg.
    apply emits_try.
    + apply build_model_emits; [exact Hlog|].
      intros c Hc. now apply (Hcall g c).
    + intros e. emits_rules. apply Hlog.
Qed.

(** Every load that a run applies is one of the three guarded loads. *)
Lemma run_loads_guarded (b : bool) (cfg : config F) (g : geometry F) :
  compute_geometry (cfg_span cfg) (cfg_height cfg) (cfg_panels cfg)
                   (cfg_bridge_type cfg) = Ok g ->
  Forall (load_guarded cfg g) (fst (run_in_staad os_analytical b cfg [])).
Proof.
  intros Hg.
  destruct (run_in_staad_emits (load_guarded cfg g) b cfg)
    with (tr := @nil (event F)) as (es & Hes & HP).
  - intros; exact I.
  - intros g' c Hg' Hc. congruence.
  - rewrite Hes. exact HP.
Qed.

(** A run only adds events. *)
Lemma build_model_extends (cfg : config F) (lu fu : Z) (g : geometry F)
      (tr : list (event F)) :
  exists es, fst (build_model os_analytical cfg lu fu g tr) = tr ++ es.
Proof.
  destruct (build_model_emits (fun _ => True) cfg lu fu g) with (tr := tr)
    as (es & Hes & _); eauto.
Qed.

End RunFacts.
(** ** Runs that get as far as saving the model *)

Section Reach.

Context {F : Type} `{PyFloat F}.

Variable os_analytical : staad F.

Lemma bind_reach {A B} (e0 : event F) (m : M F A) (k : A -> M F B)
      (tr : list (event F)) :
  emits (fun ev => ev <> e0) m ->
  ~ In e0 tr ->
  In e0 (fst (mbind m k tr)) ->
  exists a tr1, m tr = (tr1, Ok a) /\ ~ In e0 tr1 /\
                mbind m k tr = k a tr1.
Proof.
  intros Hm Hn Hin. destruct (Hm tr) as (es & Hes & HP).
  assert (Hes' : ~ In e0 (tr ++ es)).
  { rewrite in_app_iff. intros [Hi|Hi]; [tauto|].
    rewrite Forall_forall in HP. now apply (HP e0). }
  unfold mbind in *. destruct (m tr) as [tr1 [a|e]]; cbn in Hes; subst tr1.
  - eauto.
  - cbn in Hin. tauto.
Qed.

Lemma try_reach {A} (e0 : event F) (body : M F A) (h : exn -> M F A)
      (tr : list (event F)) :
  (forall e, emits (fun ev => ev <> e0) (h e)) ->
  In e0 (fst (try_except body h tr)) -> In e0 (fst (body tr)).
Proof.
  intros Hh. unfold try_except.
  destruct (body tr) as [tr1 [a|e]]; cbn; [tauto|].
  destruct (Hh e tr1) as (es & Hes & HP). rewrite Hes, in_app_iff.
  intros [Hi|Hi]; [assumption|].
  rewrite Forall_forall in HP. now destruct (HP e0 Hi).
Qed.

Lemma call_inv (c : call F) (tr tr1 : list (event F)) (a : value) :
  do_call os_analytical c tr = (tr1, Ok a) ->
  tr1 = tr ++ [Call c] /\ os_analytical tr c = Ok a.
Proof. unfold do_call. intros Heq. injection Heq as <- ->. auto. Qed.

Lemma log_inv (m : message F) (e s : bool) (tr tr1 : list (event F))
      (a : unit) :
  log_callback m e s tr = (tr1, Ok a) -> tr1 = tr ++ [Log m e s].
Proof. unfold log_callback. intros Heq. now injection Heq as <- _. Qed.

Lemma lift_inv {A} (r : result A) (tr tr1 : list (event F)) (a : A) :
  lift r tr = (tr1, Ok a) -> tr1 = tr /\ r = Ok a.
Proof. unfold lift. intros Heq. injection Heq as <- ->. auto. Qed.

Lemma if_call_inv (b : bool) (c1 c2 : call F) (tr tr1 : list (event F))
      (a : value) :
  (if b then do_call os_analytical c1 else do_call os_analytical c2) tr
  = (tr1, Ok a) ->
  tr1 = tr ++ [Call (if b then c1 else c2)] /\
  os_analytical tr (if b then c1 else c2) = Ok a.
Proof. destruct b; apply call_inv. Qed.

Lemma call_ret_inv (c : call F) (tr tr1 : list (event F)) (a : unit) :
  mbind (do_call os_analytical c) (fun _ => ret tt) tr = (tr1, Ok a) ->
  tr1 = tr ++ [Call c].
Proof.
  unfold mbind, do_call, ret. destruct (os_analytical tr c); intros Heq;
    [now injection Heq as <- _ | discriminate].
Qed.

Lemma when_call_inv (b : bool) (c : call F) (tr tr1 : list (event F))
      (a : unit) :
  when b (mbind (do_call os_analytical c) (fun _ => ret tt)) tr
  = (tr1, Ok a) ->
  tr1 = tr ++ (if b then [Call c] else []).
Proof.
  destruct b; cbn [when].
  - apply call_ret_inv.
  - unfold ret. intros Heq. injection Heq as <- _. now rewrite app_nil_r.
Qed.

Lemma for_call_inv {X} (f : X -> call F) (xs : list X) :
  forall (tr tr1 : list (event F)) (a : unit),
    for_eachM xs (fun x => mbind (do_call os_analytical (f x))
                                 (fun _ => ret tt)) tr = (tr1, Ok a) ->
    tr1 = tr ++ map (fun x => Call (f x)) xs.
Proof.
  induction xs as [|x xs IH]; intros tr tr1 a; cbn [for_eachM map].
  - unfold ret. intros Heq. injection Heq as <- _. now rewrite app_nil_r.
  - unfold mbind at 1.
    destruct (mbind (do_call os_analytical (f x)) (fun _ => ret tt) tr)
      as [tr2 [u|e]] eqn:Hx; [|discriminate].
    apply call_ret_inv in Hx. subst tr2. intros Heq. apply IH in Heq.
    rewrite Heq, <- app_assoc. reflexivity.
Qed.

Lemma when_for_inv {X} (b : bool) (f : X -> call F) (xs : list X)
      (tr tr1 : list (event F)) (a : unit) :
  when b (for_eachM xs (fun x => mbind (do_call os_analytical (f x))
                                       (fun _ => ret tt))) tr
  = (tr1, Ok a) ->
  tr1 = tr ++ (if b then map (fun x => Call (f x)) xs else []).
Proof.
  destruct b; cbn [when].
  - apply for_call_inv.
  - unfold ret. intros Heq. injection Heq as <- _. now rewrite app_nil_r.
Qed.

Lemma log_bind_extends {B} (m : message F) (e s : bool)
      (k : unit -> M F B) (tr : list (event F)) :
  emits (fun _ => True) (k tt) ->
  exists post,
    fst (mbind (log_callback m e s) k tr) = tr ++ Log m e s :: post.
Proof.
  intros Hk. unfold mbind, log_callback.
  destruct (Hk (tr ++ [Log m e s])) as (es & Hes & _).
  exists es. rewrite Hes, <- app_assoc. reflexivity.
Qed.

Lemma try_extends {A} (body : M F A) (h : exn -> M F A)
      (tr : list (event F)) :
  (forall e, emits (fun _ => True) (h e)) ->
  exists es, fst (try_except body h tr) = fst (body tr) ++ es.
Proof.
  intros Hh. unfold try_except. destruct (body tr) as [tr1 [a|e]]; cbn.
  - exists []. now rewrite app_nil_r.
  - destruct (Hh e tr1) as (es & Hes & _). eauto.
Qed.

Lemma run_in_staad_guarded (cfg : config F) (lu fu : Z) (g : geometry F)
      (tr : list (event F)) :
  lookup_unit UNIT_OPTIONS (cfg_unit cfg) = Ok (lu, fu) ->
  compute_geometry (cfg_span cfg) (cfg_height cfg) (cfg_panels cfg)
                   (cfg_bridge_type cfg) = Ok g ->
  run_in_staad os_analytical true cfg tr =
  try_except (build_model os_analytical cfg lu fu g)
    (fun exc => mbind (log_callback (MsgError exc) true false)
                      (fun _ => ret false)) tr.
Proof.
  intros Hu Hg. unfold run_in_staad. cbn [negb].
  unfold mbind at 1, lift at 1. rewrite Hu.
  unfold mbind at 1, lift at 1. rewrite Hg. reflexivity.
Qed.

Ltac reach_step_as Hin Htot Hm a :=
  match type of Hin with
  | In ?e (fst (mbind ?m ?k ?tr)) =>
      let tr1 := fresh "tr" in
      let Hn := fresh "Hn" in
      let Heq := fresh "Heq" in
      destruct (bind_reach e m k tr) as (a & tr1 & Hm & Hn & Heq);
      [ emits_rules; discriminate
      | assumption
      | exact Hin
      | rewrite Heq in Hin, Htot; clear Heq; cbv beta in Hin, Htot ]
  end.

Ltac reach_step Hin Htot Hm :=
  let a := fresh "a" in reach_step_as Hin Htot Hm a.

Ltac subst_tr Hm :=
  match type of Hm with
  | ?x = _ => subst x
  end.

Let saving : event F := Log MsgSavingModel false false.

(** A run that logs "Saving model" has assigned the supports, created the
    load cases and the combination, in this order and with nothing in
    between. *)
Lemma reach_saving (b : bool) (cfg : config F) :
  In saving (fst (run_in_staad os_analytical b cfg [])) ->
  exists g pre left_node right_node sid sid2 c1 c2 post,
    compute_geometry (cfg_span cfg) (cfg_height cfg) (cfg_panels cfg)
                     (cfg_bridge_type cfg) = Ok g /\
    getitem (bottom g) 0 = Ok left_node /\
    getitem (bottom g) (-1) = Ok right_node /\
    os_analytical (pre ++ [Log MsgAssigningSupports false false])
                  (create_left_support cfg) = Ok sid /\
    os_analytical (pre ++ [Log MsgAssigningSupports false false;
                           Call (create_left_support cfg);
                           Call (AssignSupportToNode [left_node] sid)])
                  (create_right_support cfg) = Ok sid2 /\
    fst (run_in_staad os_analytical b cfg []) =
    pre ++ support_events cfg left_node right_node sid sid2
        ++ load_events cfg g c1 c2 ++ saving :: post.
Proof.
  destruct b.
  2:{ cbn. intros [Heq|[]]. discriminate. }
  destruct (lookup_unit UNIT_OPTIONS (cfg_unit cfg)) as [[lu fu]|e] eqn:Hu.
  2:{ unfold run_in_staad. cbn [negb]. unfold mbind at 1, lift at 1.
      rewrite Hu. intros []. }
  destruct (compute_geometry (cfg_span cfg) (cfg_height cfg)
                             (cfg_panels cfg) (cfg_bridge_type cfg))
    as [g|e] eqn:Hg.
  2:{ unfold run_in_staad. cbn [negb]. unfold mbind at 1, lift at 1.
      rewrite Hu. unfold mbind at 1, lift at 1. rewrite Hg. intros []. }
  rewrite (run_in_staad_guarded cfg lu fu g) by assumption.
  intros Hin. exists g.
  destruct (try_extends (build_model os_analytical cfg lu fu g)
              (fun exc => mbind (log_callback (MsgError exc) true false)
                                (fun _ => ret false)) [])
    as (es & Hes); [intros; emits_rules; exact I|].
  rewrite Hes. apply try_reach in Hin; [|intros; emits_rules; discriminate].
  clear Hes.
  assert (Hnil : ~ In saving (@nil (event F))) by (intros []).
  remember (build_model os_analytical cfg lu fu g []) as T eqn:Htot.
  unfold build_model in Htot. rewrite Htot in Hin.
  do 18 (let Hm := fresh "Hm" in reach_step Hin Htot Hm; clear Hm).
  reach_step Hin Htot Hm. apply log_inv in Hm. subst_tr Hm.
  reach_step_as Hin Htot Hm left_node.
  apply lift_inv in Hm. destruct Hm as [-> Hl].
  reach_step_as Hin Htot Hm right_node.
  apply lift_inv in Hm. destruct Hm as [-> Hr].
  reach_step_as Hin Htot Hm sid.
  apply if_call_inv in Hm. destruct Hm as [-> Hsl].
  reach_step Hin Htot Hm. apply call_inv in Hm. destruct Hm as [-> _].
  reach_step_as Hin Htot Hm sid2.
  apply if_call_inv in Hm. destruct Hm as [-> Hsr].
  reach_step Hin Htot Hm. apply call_inv in Hm. destruct Hm as [-> _].
  reach_step Hin Htot Hm. apply log_inv in Hm. subst_tr Hm.
  reach_step_as Hin Htot Hm case1.
  apply call_inv in Hm. destruct Hm as [-> _].
  reach_step Hin Htot Hm. apply call_inv in Hm. destruct Hm as [-> _].
  reach_step Hin Htot Hm. apply when_call_inv in Hm. subst_tr Hm.
  reach_step Hin Htot Hm. apply when_for_inv in Hm. subst_tr Hm.
  reach_step Hin Htot Hm. apply when_call_inv in Hm. subst_tr Hm.
  reach_step_as Hin Htot Hm case2.
  apply call_inv in Hm. destruct Hm as [-> _].
  reach_step Hin Htot Hm. apply call_inv in Hm. destruct Hm as [-> _].
  reach_step Hin Htot Hm. apply when_call_inv in Hm. subst_tr Hm.
  reach_step Hin Htot Hm. apply call_inv in Hm. destruct Hm as [-> _].
  reach_step Hin Htot Hm. apply call_inv in Hm. destruct Hm as [-> _].
  reach_step Hin Htot Hm. apply call_inv in Hm. destruct Hm as [-> _].
  rewrite Htot.
  match goal with
  | |- context [fst (mbind (log_callback ?m ?e ?s) ?k ?t)] =>
      destruct (log_bind_extends m e s k t) as (post & Hpost);
      [emits_rules; exact I|]; rewrite Hpost
  end.
  match type of Hl with
  | _ = Ok ?l => match type of Hr with
                 | _ = Ok ?r => exists tr16, l, r
                 end
  end.
  exists sid, sid2, case1, case2, (post ++ es).
  split; [reflexivity|]. split; [exact Hl|]. split; [exact Hr|].
  split; [exact Hsl|].
  split; [rewrite <- !app_assoc in Hsr; exact Hsr|].
  unfold support_events, load_events, create_left_support,
    create_right_support, nodal_load, dead_load, wind_load, wind_members,
    interior, saving.
  rewrite <- !app_assoc. cbn [app]. reflexivity.
Qed.

End Reach.

(** ** Runs against a binding that never raises *)

Section Progress.

Context {F : Type} `{PyFloat F}.

Variable os_analytical : staad F.
Hypothesis Hrel : reliable os_analytical.

Lemma succeeds_ret {A} (a : A) : succeeds (ret a : M F A).
Proof. intros tr. exists [], a. cbn. now rewrite app_nil_r. Qed.

Lemma succeeds_log (m : message F) (e s : bool) :
  succeeds (log_callback m e s).
Proof. intros tr. exists [Log m e s], tt. reflexivity. Qed.

Lemma succeeds_call (c : call F) : succeeds (do_call os_analytical c).
Proof.
  intros tr. destruct (Hrel tr c) as [v Hv].
  exists [Call c], v. unfold do_call. now rewrite Hv.
Qed.

Lemma succeeds_bind {A B} (m : M F A) (k : A -> M F B) :
  succeeds m -> (forall a, succeeds (k a)) -> succeeds (mbind m k).
Proof.
  intros Hm Hk tr. destruct (Hm tr) as (es & a & Hes).
  destruct (Hk a (tr ++ es)) as (es' & b & Hes').
  exists (es ++ es'), b. unfold mbind. now rewrite Hes, Hes', app_assoc.
Qed.

Lemma succeeds_bind_lift {A B} (r : result A) (k : A -> M F B) (a : A) :
  r = Ok a -> succeeds (k a) -> succeeds (mbind (lift r) k).
Proof. intros -> Hk tr. unfold mbind, lift. apply Hk. Qed.

Lemma succeeds_when (b : bool) (m : M F unit) :
  succeeds m -> succeeds (when b m).
Proof. destruct b; cbn; [auto | intros _; apply succeeds_ret]. Qed.

Lemma succeeds_if {A} (b : bool) (m1 m2 : M F A) :
  succeeds m1 -> succeeds m2 -> succeeds (if b then m1 else m2).
Proof. now destruct b. Qed.

Lemma succeeds_for {X} (xs : list X) (body : X -> M F unit) :
  (forall x, succeeds (body x)) -> succeeds (for_eachM xs body).
Proof.
  intros Hb. induction xs as [|x xs IH]; cbn [for_eachM].
  - apply succeeds_ret.
  - apply succeeds_bind; auto.
Qed.

Lemma passes_here {B} (m : message F) (e s : bool) (k : unit -> M F B) :
  succeeds (k tt) -> passes (Log m e s) (mbind (log_callback m e s) k).
Proof.
  intros Hk tr. destruct (Hk (tr ++ [Log m e s])) as (es & b & Hes).
  exists (Log m e s :: es), b. unfold mbind, log_callback.
  rewrite Hes, <- app_assoc. split; [reflexivity|now left].
Qed.

Lemma passes_later {A B} (e0 : event F) (m : M F A) (k : A -> M F B) :
  succeeds m -> (forall a, passes e0 (k a)) -> passes e0 (mbind m k).
Proof.
  intros Hm Hk tr. destruct (Hm tr) as (es & a & Hes).
  destruct (Hk a (tr ++ es)) as (es' & b & Hes' & Hin).
  exists (es ++ es'), b. unfold mbind. rewrite Hes, Hes', app_assoc.
  split; [reflexivity|]. apply in_app_iff. now right.
Qed.

Lemma passes_bind_lift {A B} (e0 : event F) (r : result A)
      (k : A -> M F B) (a : A) :
  r = Ok a -> passes e0 (k a) -> passes e0 (mbind (lift r) k).
Proof. intros -> Hk tr. unfold mbind, lift. apply Hk. Qed.

Lemma passes_try {A} (e0 : event F) (body : M F A) (h : exn -> M F A) :
  passes e0 body -> passes e0 (try_except body h).
Proof.
  intros Hb tr. destruct (Hb tr) as (es & a & Hes & Hin).
  exists es, a. unfold try_except. now rewrite Hes.
Qed.

End Progress.

Ltac succeeds_rules Hrel :=
  repeat first
    [ apply succeeds_ret
    | apply succeeds_log
    | apply (succeeds_call _ Hrel)
    | apply succeeds_when
    | apply succeeds_if
    | apply succeeds_for; intros ?
    | eapply succeeds_bind_lift; [eassumption|]
    | apply succeeds_bind; [|intros ?]
    | match goal with
      | |- succeeds (let '(_, _) := ?p in _) => destruct p
      end ].

Section ProgressFacts.

Context {F : Type} `{PyFloat F}.

Variable os_analytical : staad F.
Hypothesis Hrel : reliable os_analytical.

(** Against a binding that never raises, and with a bottom chord to put
    the supports on, the export gets to saving the model. *)
Lemma run_passes_saving (cfg : config F) (lufu : Z * Z) (g : geometry F)
      (left_node right_node : Z) :
  lookup_unit UNIT_OPTIONS (cfg_unit cfg) = Ok lufu ->
  compute_geometry (cfg_span cfg) (cfg_height cfg) (cfg_panels cfg)
                   (cfg_bridge_type cfg) = Ok g ->
  getitem (bottom g) 0 = Ok left_node ->
  getitem (bottom g) (-1) = Ok right_node ->
  passes (Log MsgSavingModel false false)
         (run_in_staad os_analytical true cfg).
Proof.
  intros Hu Hg Hl Hr. unfold run_in_staad. cbn [negb].
  eapply passes_bind_lift; [exact Hu|]. destruct lufu as [lu fu].
  eapply passes_bind_lift; [exact Hg|].
  apply passes_try. unfold build_model.
  repeat first
    [ apply passes_here; succeeds_rules Hrel
    | eapply passes_bind_lift; [eassumption|]
    | apply passes_later; [succeeds_rules Hrel|intros ?] ].
Qed.

End ProgressFacts.

(** ** The exporter: what is validated and what is caught *)

Section BoundaryClaims.

Context {F : Type} `{PyFloat F}.

Lemma compute_geometry_zero_panels (span height : F) (btype : string) :
  compute_geometry span height 0 btype = Raise ZeroDivisionError.
Proof. reflexivity. Qed.

Lemma range_nonpositive (n : Z) : n <= 0 -> range n = [].
Proof.
  intros Hn. unfold range. now replace (Z.to_nat n) with 0%nat by lia.
Qed.

Lemma compute_geometry_negative_panels
      (t : topology) (span height : F) (panels : Z) :
  panels < 0 ->
  compute_geometry span height panels (btype_of t) = Ok empty_geometry.
Proof.
  intros Hp. unfold compute_geometry, float_div_int.
  destruct (Z.eqb_spec panels 0) as [|_]; [lia|]. cbn [bind].
  rewrite btype_key_of. cbn [bind].
  rewrite !(range_nonpositive panels), !(range_nonpositive (panels + 1)),
    !(range_nonpositive (panels - 1)) by lia.
  destruct t; reflexivity.
Qed.

Variable os_analytical : staad F.

Lemma returns_ret {A} (Q : A -> Prop) (a : A) :
  Q a -> returns Q (ret a : M F A).
Proof. intros HQ tr tr' b Heq. unfold ret in Heq. congruence. Qed.

Lemma returns_bind {A B} (Q : B -> Prop) (m : M F A) (k : A -> M F B) :
  (forall a, returns Q (k a)) -> returns Q (mbind m k).
Proof.
  intros Hk tr tr' b Heq. unfold mbind in Heq.
  destruct (m tr) as [tr1 [a|e]]; [|discriminate].
  now apply (Hk a tr1 tr').
Qed.

Lemma build_model_returns_true (cfg : config F) (lu fu : Z)
      (g : geometry F) :
  returns (fun b => b = true) (build_model os_analytical cfg lu fu g).
Proof.
  unfold build_model.
  repeat (apply returns_bind; intros ?). now apply returns_ret.
Qed.

Lemma run_in_staad_unguarded (cfg : config F) (lufu : Z * Z) (e : exn)
      (tr : list (event F)) :
  lookup_unit UNIT_OPTIONS (cfg_unit cfg) = Ok lufu ->
  compute_geometry (cfg_span cfg) (cfg_height cfg) (cfg_panels cfg)
                   (cfg_bridge_type cfg) = Raise e ->
  run_in_staad os_analytical true cfg tr = (tr, Raise e).
Proof.
  intros Hu Hg. unfold run_in_staad. cbn [negb].
  unfold mbind at 1, lift at 1. rewrite Hu. destruct lufu as [lu fu].
  unfold mbind at 1, lift at 1. rewrite Hg. reflexivity.
Qed.

(** Once the geometry is there, the exporter goes to the service. *)
Lemma run_contacts_service (cfg : config F) (lufu : Z * Z)
      (g : geometry F) :
  lookup_unit UNIT_OPTIONS (cfg_unit cfg) = Ok lufu ->
  compute_geometry (cfg_span cfg) (cfg_height cfg) (cfg_panels cfg)
                   (cfg_bridge_type cfg) = Ok g ->
  exists rest,
    fst (run_in_staad os_analytical true cfg []) =
    Log MsgConnecting false false :: Call connect :: rest.
Proof.
  intros Hu Hg. destruct lufu as [lu fu].
  rewrite (run_in_staad_guarded _ cfg lu fu g) by assumption.
  destruct (try_extends (build_model os_analytical cfg lu fu g)
              (fun exc => mbind (log_callback (MsgError exc) true false)
                                (fun _ => ret false)) [])
    as (es & Hes); [intros; emits_rules; exact I|].
  rewrite Hes. unfold build_model.
  unfold mbind at 1, log_callback at 1. cbn [app].
  unfold mbind at 1, do_call at 1. cbn [app].
  destruct (os_analytical _ connect) as [v|e].
  - match goal with
    | |- context [fst (?k ?tr)] =>
        assert (Hk : emits (fun _ => True) k)
          by (emits_rules; exact I);
        destruct (Hk tr) as (es' & Hes' & _); rewrite Hes'
    end.
    cbn [app]. eauto.
  - cbn [fst app]. eauto.
Qed.

(** C2 (amended).  The generator checks nothing.  With no panel it raises
    [ZeroDivisionError]; with a negative panel count it returns the empty
    geometry; with one panel or more it returns the truss of the type,
    well formed and with [panels + 1] bottom nodes and [panels] bottom
    chords, whatever the span and the height, positive or not.  The
    exporter, for its part, lets
    the [ZeroDivisionError] of a zero panel count escape before any call
    to the service and without a message; in every other case where the
    generator returns, its first two events are the "Connecting" line and
    the [connect] call. *)
Theorem no_geometry_validation :
  (forall (span height : F) btype,
      compute_geometry span height 0 btype = Raise ZeroDivisionError) /\
  (forall (span height : F) panels t,
      panels < 0 ->
      compute_geometry span height panels (btype_of t)
      = Ok empty_geometry) /\
  (forall (span height : F) panels t,
      1 <= panels ->
      compute_geometry span height panels (btype_of t)
      = Ok (truss t span height panels) /\
      well_formed (truss t span height panels) /\
      Z.of_nat (List.length (bottom (truss t span height panels)))
      = panels + 1 /\
      Z.of_nat (List.length (bot_ch (truss t span height panels)))
      = panels) /\
  (forall cfg lufu,
      lookup_unit UNIT_OPTIONS (cfg_unit cfg) = Ok lufu ->
      cfg_panels cfg = 0 ->
      run_in_staad os_analytical true cfg [] = ([], Raise ZeroDivisionError)) /\
  (forall cfg lufu t,
      lookup_unit UNIT_OPTIONS (cfg_unit cfg) = Ok lufu ->
      cfg_bridge_type cfg = btype_of t ->
      cfg_panels cfg <> 0 ->
      exists rest,
        fst (run_in_staad os_analytical true cfg []) =
        Log MsgConnecting false false :: Call connect :: rest).
Proof.
  split; [exact compute_geometry_zero_panels|].
  split; [intros; now apply compute_geometry_negative_panels|].
  split.
  { intros span height panels t Hp.
    split; [now apply compute_geometry_closed|].
    split; [now apply truss_well_formed|].
    cbn [truss bottom bot_ch].
    rewrite !length_zrange, length_bottom_edges. lia. }
  split.
  - intros cfg lufu Hu Hp. apply (run_in_staad_unguarded cfg lufu); auto.
    rewrite Hp. apply compute_geometry_zero_panels.
  - intros cfg lufu t Hu Ht Hp.
    destruct (Z_lt_le_dec (cfg_panels cfg) 0) as [Hneg|Hpos].
    + apply (run_contacts_service cfg lufu empty_geometry); auto.
      rewrite Ht. now apply compute_geometry_negative_panels.
    + apply (run_contacts_service cfg lufu
               (truss t (cfg_span cfg) (cfg_height cfg) (cfg_panels cfg)));
        auto.
      rewrite Ht. apply compute_geometry_closed. lia.
Qed.

(** C9 (amended).  When [openstaadpy] cannot be imported the exporter
    reports it and returns [False].  An exception raised by the unit
    lookup or by the geometry computation, both ahead of the [try],
    leaves the exporter as it is, with nothing reported.  From the [try]
    on, everything raised is caught: the run then ends with the error
    line and returns [False]; otherwise it returns [True]. *)
Theorem export_failure_handling (cfg : config F) :
  run_in_staad os_analytical false cfg []
  = ([Log MsgNoOpenstaadpy true false], Ok false) /\
  (forall e,
      lookup_unit UNIT_OPTIONS (cfg_unit cfg) = Raise e ->
      run_in_staad os_analytical true cfg [] = ([], Raise e)) /\
  (forall lufu e,
      lookup_unit UNIT_OPTIONS (cfg_unit cfg) = Ok lufu ->
      compute_geometry (cfg_span cfg) (cfg_height cfg) (cfg_panels cfg)
                       (cfg_bridge_type cfg) = Raise e ->
      run_in_staad os_analytical true cfg [] = ([], Raise e)) /\
  (forall lu fu g,
      lookup_unit UNIT_OPTIONS (cfg_unit cfg) = Ok (lu, fu) ->
      compute_geometry (cfg_span cfg) (cfg_height cfg) (cfg_panels cfg)
                       (cfg_bridge_type cfg) = Ok g ->
      match build_model os_analytical cfg lu fu g [] with
      | (tr, Ok b) =>
          b = true /\
          run_in_staad os_analytical true cfg [] = (tr, Ok true)
      | (tr, Raise e) =>
          run_in_staad os_analytical true cfg []
          = (tr ++ [Log (MsgError e) true false], Ok false)
      end).
Proof.
  split; [reflexivity|]. split; [|split].
  - intros e Hu. unfold run_in_staad. cbn [negb].
    unfold mbind at 1, lift at 1. now rewrite Hu.
  - intros lufu e Hu Hg. now apply (run_in_staad_unguarded cfg lufu).
  - intros lu fu g Hu Hg.
    rewrite (run_in_staad_guarded _ cfg lu fu g) by assumption.
    unfold try_except.
    destruct (build_model os_analytical cfg lu fu g []) as [tr [b|e]] eqn:Hb.
    + rewrite (build_model_returns_true cfg lu fu g _ _ _ Hb). auto.
    + reflexivity.
Qed.

End BoundaryClaims.
Lemma obliging_reliable : reliable obliging.
Proof. intros tr c. unfold obliging. eauto. Qed.

Lemma default_unit :
  lookup_unit UNIT_OPTIONS (cfg_unit default_config) = Ok (1, 0).
Proof. reflexivity. Qed.

Lemma fpos_R (x : R) : (0 < x)%R -> fpos x = true.
Proof. intros Hx. cbn [fpos R_float]. destruct (Rlt_dec 0 x); tauto. Qed.

(** With a span of -120 and a height of -20 the generator returns a
    well-formed truss and the exporter connects to the service; with -3
    panels the generator returns the empty geometry.  Nothing fails with
    an invalid-geometry condition: C2 as stated does not hold. *)
Lemma nonpositive_dimensions_counterexample :
  (exists g : geometry R,
      compute_geometry (-120)%R (-20)%R 8 "Pratt Truss" = Ok g /\
      well_formed g) /\
  (exists rest,
      fst (run_in_staad obliging true (resized_config (-120) (-20) 8) [])
      = Log MsgConnecting false false :: Call connect :: rest) /\
  compute_geometry 120%R 20%R (-3) "Pratt Truss"
  = Ok (empty_geometry : geometry R).
Proof.
  split; [|split].
  - exists (truss Pratt (-120)%R (-20)%R 8). split.
    + now apply (compute_geometry_closed Pratt).
    + apply truss_well_formed. lia.
  - apply (run_contacts_service obliging _ (1, 0)
             (truss Pratt (-120)%R (-20)%R 8)); [reflexivity|].
    now apply (compute_geometry_closed Pratt).
  - now apply (compute_geometry_negative_panels Pratt).
Qed.

(** With no panel, the [ZeroDivisionError] of the generator leaves
    [run_in_staad] uncaught and unreported: C9 as stated does not hold. *)
Lemma zero_panels_counterexample :
  run_in_staad obliging true (resized_config 120 20 0) []
  = ([], Raise ZeroDivisionError).
Proof.
  apply (run_in_staad_unguarded obliging _ (1, 0)); reflexivity.
Qed.

(** C7 (the code at the failing input).  With the right support set to
    "Roller" and a binding that accepts every call, the export creates a
    fixed support for the right end, node 9, and assigns it there: the
    support made right after the left one is assigned is
    [CreateSupportFixed], and what that call returned is what node 9
    gets. *)
Theorem roller_right_support_is_fixed :
  exists pre sid sid2 rest,
    fst (run_in_staad obliging true roller_config []) =
    pre ++ [Log MsgAssigningSupports false false;
            Call CreateSupportFixed;
            Call (AssignSupportToNode [1] sid);
            Call CreateSupportFixed;
            Call (AssignSupportToNode [9] sid2)] ++ rest /\
    obliging (pre ++ [Log MsgAssigningSupports false false;
                      Call CreateSupportFixed;
                      Call (AssignSupportToNode [1] sid)])
             CreateSupportFixed = Ok sid2.
Proof.
  assert (Hg : compute_geometry (cfg_span roller_config)
                 (cfg_height roller_config) (cfg_panels roller_config)
                 (cfg_bridge_type roller_config)
               = Ok (truss Pratt 120%R 20%R 8))
    by now apply (compute_geometry_closed Pratt).
  destruct (run_passes_saving obliging obliging_reliable roller_config
              (1, 0) _ 1 9 eq_refl Hg eq_refl eq_refl [])
    as (es & a & Hrun & Hin).
  assert (Hin' : In (Log MsgSavingModel false false)
                    (fst (run_in_staad obliging true roller_config [])))
    by (rewrite Hrun; exact Hin).
  apply reach_saving in Hin'.
  destruct Hin' as (g & pre & l & r & sid & sid2 & c1 & c2 & post & Hg'
                    & Hl & Hr & Hsl & Hsr & Htr).
  rewrite Hg in Hg'. injection Hg' as <-.
  vm_compute in Hl. injection Hl as <-.
  vm_compute in Hr. injection Hr as <-.
  exists pre, sid, sid2, (load_events roller_config (truss Pratt 120%R 20%R 8)
                            c1 c2
                          ++ Log MsgSavingModel false false :: post).
  split; [exact Htr|exact Hsr].
Qed.

(** ** The exporter: loads *)

Section LoadClaims.

Context {F : Type} `{PyFloat F}.

Variable os_analytical : staad F.

Lemma verts_truss_empty (t : topology) (span height : F) (p : Z) :
  0 <= p -> (verts (truss t span height p) = [] <-> t = Warren).
Proof.
  intros Hp. cbn [truss verts]. rewrite length_vertical_edges.
  destruct t; split; intros Heq; try reflexivity; try discriminate.
  all: replace (Z.to_nat (p + 1)) with (S (Z.to_nat p)) in Heq by lia;
    discriminate.
Qed.

Lemma in_load_events (cfg : config F) (g : geometry F) (c1 c2 : value)
      (pre post : list (event F)) (tr : list (event F)) (ev : event F) :
  tr = pre ++ load_events cfg g c1 c2 ++ post ->
  In ev (load_events cfg g c1 c2) -> In ev tr.
Proof. intros ->. rewrite !in_app_iff. tauto. Qed.

(** C8 (amended).  A wind load (a uniform force in direction 4) is
    applied only with a wind magnitude above 0: with a magnitude that is
    not above 0 no export applies one, though an export that gets past
    the load cases has created the "WIND FROM LEFT" case all the same.
    When a wind load is applied, it has the configured magnitude and goes
    to the vertical members when the geometry has some, and to the
    bottom-chord members otherwise, which for the four truss types means
    the Warren truss; and an export that gets past the load cases with a
    wind magnitude above 0 has applied it. *)
Theorem wind_load_target (b : bool) (cfg : config F) (g : geometry F) :
  compute_geometry (cfg_span cfg) (cfg_height cfg) (cfg_panels cfg)
                   (cfg_bridge_type cfg) = Ok g ->
  let tr := fst (run_in_staad os_analytical b cfg []) in
  (forall ms w d1 d2 d3,
      In (Call (AddMemberUniformForce ms 4 w d1 d2 d3)) tr ->
      fpos (cfg_wind_load cfg) = true /\
      w = cfg_wind_load cfg /\
      (verts g <> [] -> ms = verts g) /\
      (verts g = [] -> ms = bot_ch g)) /\
  (fpos (cfg_wind_load cfg) = false ->
   forall ms w d1 d2 d3,
     ~ In (Call (AddMemberUniformForce ms 4 w d1 d2 d3)) tr) /\
  (In (Log MsgSavingModel false false) tr ->
   In (Call (CreateNewPrimaryLoadEx2 "WIND FROM LEFT" 3 2)) tr) /\
  (In (Log MsgSavingModel false false) tr ->
   fpos (cfg_wind_load cfg) = true ->
   exists ms,
     In (Call (AddMemberUniformForce ms 4 (cfg_wind_load cfg) f0 f0 f0))
        tr) /\
  (forall t,
      cfg_bridge_type cfg = btype_of t -> 1 <= cfg_panels cfg ->
      (verts g = [] <-> t = Warren)).
Proof.
  intros Hg tr.
  assert (Hsafe : forall ms w d1 d2 d3,
             In (Call (AddMemberUniformForce ms 4 w d1 d2 d3)) tr ->
             fpos (cfg_wind_load cfg) = true /\
             w = cfg_wind_load cfg /\
             (verts g <> [] -> ms = verts g) /\
             (verts g = [] -> ms = bot_ch g)).
  { intros ms w d1 d2 d3 Hin.
    pose proof (run_loads_guarded os_analytical b cfg g Hg) as Hall.
    rewrite Forall_forall in Hall. apply Hall in Hin.
    cbn [load_guarded] in Hin.
    destruct Hin as [[_ Heq]|[Hw Heq]]; [discriminate Heq|].
    unfold wind_load, wind_members in Heq. injection Heq as -> -> _ _ _.
    split; [exact Hw|]. split; [reflexivity|].
    destruct (verts g); cbn [nonempty]; split; congruence. }
  split; [exact Hsafe|]. split; [|split; [|split]].
  - intros Hw ms w d1 d2 d3 Hin.
    destruct (Hsafe ms w d1 d2 d3 Hin) as [Hw' _]. congruence.
  - intros Hin. apply reach_saving in Hin.
    destruct Hin as (g' & pre & l & r & sid & sid2 & c1 & c2 & post & Hg'
                     & _ & _ & _ & _ & Htr).
    rewrite Hg in Hg'. injection Hg' as <-.
    unfold tr. rewrite app_assoc in Htr.
    eapply in_load_events; [exact Htr|].
    unfold load_events. rewrite !in_app_iff.
    do 4 right. left. now left.
  - intros Hin Hw. apply reach_saving in Hin.
    destruct Hin as (g' & pre & l & r & sid & sid2 & c1 & c2 & post & Hg'
                     & _ & _ & _ & _ & Htr).
    rewrite Hg in Hg'. injection Hg' as <-.
    exists (wind_members g). unfold tr.
    rewrite app_assoc in Htr.
    eapply in_load_events; [exact Htr|].
    unfold load_events. rewrite Hw, !in_app_iff.
    do 5 right. left. now left.
  - intros t Ht Hp. rewrite Ht, compute_geometry_closed in Hg by assumption.
    injection Hg as <-. apply verts_truss_empty. lia.
Qed.

(** C10.  In every export: a nodal load is applied only with a live load
    above 0 and to an interior bottom node, a uniform force in direction
    2 only with a dead load above 0, and one in direction 4 only with a
    wind load above 0.  And an export that gets to "Saving model" has,
    whatever the three magnitudes, created "DEAD AND LIVE LOAD", "WIND
    FROM LEFT" and the combination with its two factors; between these
    calls it has applied the nodal loads exactly when the live load is
    above 0 and there is an interior node, the dead load exactly when it
    is above 0, and the wind load exactly when it is above 0. *)
Theorem load_cases_and_guards (b : bool) (cfg : config F) (g : geometry F) :
  compute_geometry (cfg_span cfg) (cfg_height cfg) (cfg_panels cfg)
                   (cfg_bridge_type cfg) = Ok g ->
  let tr := fst (run_in_staad os_analytical b cfg []) in
  (forall ns fx fy fz mx my mz,
      In (Call (AddNodalLoad ns fx fy fz mx my mz)) tr ->
      fpos (cfg_live_load cfg) = true /\
      exists n, In n (interior g) /\ ns = [n]) /\
  (forall ms w d1 d2 d3,
      In (Call (AddMemberUniformForce ms 2 w d1 d2 d3)) tr ->
      fpos (cfg_dead_load cfg) = true) /\
  (forall ms w d1 d2 d3,
      In (Call (AddMemberUniformForce ms 4 w d1 d2 d3)) tr ->
      fpos (cfg_wind_load cfg) = true) /\
  (In (Log MsgSavingModel false false) tr ->
   exists pre c1 c2 post,
     tr = pre ++ load_events cfg g c1 c2
              ++ Log MsgSavingModel false false :: post).
Proof.
  intros Hg tr.
  pose proof (run_loads_guarded os_analytical b cfg g Hg) as Hall.
  rewrite Forall_forall in Hall.
  split; [|split; [|split]].
  - intros ns fx fy fz mx my mz Hin. apply Hall in Hin.
    cbn [load_guarded] in Hin. destruct Hin as (Hl & n & Hn & Heq).
    split; [exact Hl|]. exists n. split; [exact Hn|].
    unfold nodal_load in Heq. now injection Heq.
  - intros ms w d1 d2 d3 Hin. apply Hall in Hin.
    cbn [load_guarded] in Hin.
    destruct Hin as [[Hd _]|[_ Heq]]; [exact Hd|discriminate Heq].
  - intros ms w d1 d2 d3 Hin. apply Hall in Hin.
    cbn [load_guarded] in Hin.
    destruct Hin as [[_ Heq]|[Hw _]]; [discriminate Heq|exact Hw].
  - intros Hin. apply reach_saving in Hin.
    destruct Hin as (g' & pre & l & r & sid & sid2 & c1 & c2 & post & Hg'
                     & _ & _ & _ & _ & Htr).
    rewrite Hg in Hg'. injection Hg' as <-.
    exists (pre ++ support_events cfg l r sid sid2), c1, c2, post.
    unfold tr. rewrite Htr, <- app_assoc. reflexivity.
Qed.

End LoadClaims.

Lemma default_geometry :
  compute_geometry (cfg_span default_config) (cfg_height default_config)
                   (cfg_panels default_config)
                   (cfg_bridge_type default_config)
  = Ok (truss Pratt 120%R 20%R 8).
Proof. now apply (compute_geometry_closed Pratt). Qed.

Lemma default_run_saves :
  In (Log MsgSavingModel false false)
     (fst (run_in_staad obliging true default_config [])).
Proof.
  destruct (run_passes_saving obliging obliging_reliable default_config
              (1, 0) _ 1 9 default_unit default_geometry eq_refl eq_refl [])
    as (es & a & Hrun & Hin).
  rewrite Hrun. exact Hin.
Qed.

Lemma wind_load_target_witness :
  compute_geometry (cfg_span default_config) (cfg_height default_config)
                   (cfg_panels default_config)
                   (cfg_bridge_type default_config)
  = Ok (truss Pratt 120%R 20%R 8) /\
  In (Call (AddMemberUniformForce
              (verts (truss Pratt 120%R 20%R 8)) 4 (6 / 10)%R f0 f0 f0))
     (fst (run_in_staad obliging true default_config [])).
Proof.
  split; [exact default_geometry|].
  destruct (wind_load_target obliging true default_config _ default_geometry)
    as (Hsafe & _ & _ & Hpres & _).
  destruct (Hpres default_run_saves) as [ms Hms].
  - apply fpos_R. cbn. lra.
  - destruct (Hsafe _ _ _ _ _ Hms) as (_ & _ & Hv & _).
    rewrite Hv in Hms; [exact Hms|]. vm_compute. discriminate.
Defined.

(** With a wind magnitude of 0 the export of the starting Pratt truss,
    which has verticals, gets past the wind load case and on to "Saving
    model" without applying any wind load: C8 as stated does not hold. *)
Lemma windless_export_counterexample :
  compute_geometry (cfg_span windless_config) (cfg_height windless_config)
                   (cfg_panels windless_config)
                   (cfg_bridge_type windless_config)
  = Ok (truss Pratt 120%R 20%R 8) /\
  verts (truss Pratt 120%R 20%R 8) <> [] /\
  In (Call (CreateNewPrimaryLoadEx2 "WIND FROM LEFT" 3 2))
     (fst (run_in_staad obliging true windless_config [])) /\
  In (Log MsgSavingModel false false)
     (fst (run_in_staad obliging true windless_config [])) /\
  forall ms w d1 d2 d3,
    ~ In (Call (AddMemberUniformForce ms 4 w d1 d2 d3))
         (fst (run_in_staad obliging true windless_config [])).
Proof.
  set (tr := fst (run_in_staad obliging true windless_config [])).
  assert (Hg : compute_geometry (cfg_span windless_config)
                 (cfg_height windless_config) (cfg_panels windless_config)
                 (cfg_bridge_type windless_config)
               = Ok (truss Pratt 120%R 20%R 8))
    by now apply (compute_geometry_closed Pratt).
  assert (Hsave : In (Log MsgSavingModel false false) tr).
  { destruct (run_passes_saving obliging obliging_reliable windless_config
                (1, 0) _ 1 9 eq_refl Hg eq_refl eq_refl [])
      as (es & a & Hrun & Hin).
    unfold tr. rewrite Hrun. exact Hin. }
  split; [exact Hg|]. split; [vm_compute; discriminate|].
  split; [|split; [exact Hsave|]].
  - pose proof Hsave as Hin. apply reach_saving in Hin.
    destruct Hin as (g' & pre & l & r & sid & sid2 & c1 & c2 & post & Hg'
                     & _ & _ & _ & _ & Htr).
    unfold tr. rewrite Htr, !in_app_iff. right. right. left.
    unfold load_events. rewrite !in_app_iff.
    do 4 right. left. left. reflexivity.
  - intros ms w d1 d2 d3 Hin.
    pose proof (run_loads_guarded obliging true windless_config _ Hg)
      as Hall.
    rewrite Forall_forall in Hall. apply Hall in Hin.
    cbn [load_guarded] in Hin.
    destruct Hin as [[_ Heq]|[Hw _]]; [discriminate Heq|].
    cbn [fpos R_float cfg_wind_load windless_config] in Hw.
    destruct (Rlt_dec 0 0) as [Hlt|_]; [lra|discriminate].
Qed.

Lemma load_cases_and_guards_witness :
  compute_geometry (cfg_span default_config) (cfg_height default_config)
                   (cfg_panels default_config)
                   (cfg_bridge_type default_config)
  = Ok (truss Pratt 120%R 20%R 8) /\
  exists pre c1 c2 post,
    fst (run_in_staad obliging true default_config []) =
    pre ++ load_events default_config (truss Pratt 120%R 20%R 8) c1 c2
        ++ Log MsgSavingModel false false :: post.
Proof.
  split; [exact default_geometry|].
  destruct (load_cases_and_guards obliging true default_config _
              default_geometry) as (_ & _ & _ & Hpres).
  exact (Hpres default_run_saves).
Defined.

(** * Further properties of the generator *)

Section GeneratorExtras.

Context {F : Type} `{PyFloat F}.

Lemma compute_geometry_same_key (span height : F) (panels : Z)
      (b1 b2 : string) :
  getitem (split (lower b1)) 0 = getitem (split (lower b2)) 0 ->
  compute_geometry span height panels b1
  = compute_geometry span height panels b2.
Proof. intros Hk. unfold compute_geometry. now rewrite Hk. Qed.

(** X1.  Only the first word of the type counts, and its case does not: with
    one panel or more, a type whose first word, in lower case, is that of
    one of the four truss types gives that truss. *)
Theorem type_read_by_first_word
        (t : topology) (span height : F) (panels : Z) (btype : string) :
  getitem (split (lower btype)) 0 = Ok (key_of t) ->
  1 <= panels ->
  compute_geometry span height panels btype
  = Ok (truss t span height panels).
Proof.
  intros Hk Hp. rewrite <- (compute_geometry_closed t) by assumption.
  apply compute_geometry_same_key. now rewrite btype_key_of.
Qed.

Lemma compute_geometry_unknown_key
      (span height : F) (panels : Z) (btype key : string) :
  getitem (split (lower btype)) 0 = Ok key ->
  known_key key = false ->
  1 <= panels ->
  compute_geometry span height panels btype
  = Ok (deck_only span height panels).
Proof.
  intros Hk Hu Hp. unfold known_key in Hu.
  apply orb_false_elim in Hu. destruct Hu as [Hu Hb].
  apply orb_false_elim in Hu. destruct Hu as [Hu Hh].
  apply orb_false_elim in Hu. destruct Hu as [Hw Hpr].
  unfold compute_geometry, float_div_int.
  destruct (Z.eqb_spec panels 0) as [|_]; [lia|]. cbn [bind].
  rewrite Hk. cbn [bind]. rewrite Hw, Hb, Hpr, Hh. cbn [orb].
  fold (@nv0 F) mv0.
  rewrite (for_each_bottom_nodes _
             (bottom_coord (fdiv span (of_int panels)))) by reflexivity.
  cbn [bind].
  rewrite (for_each_top_nodes _
             (top_coord Pratt height panels (fdiv span (of_int panels))))
    by reflexivity.
  cbn [bind]. rewrite nodes_closed. cbn [nv_nodes nv_bottom nv_top].
  rewrite !length_map, !length_range.
  replace (1 + Z.of_nat (Z.to_nat (panels + 1))) with (panels + 2) by lia.
  rewrite (for_each_members BottomChord _
             (fun i => [(bottom_id i, bottom_id (i + 1))])).
  2:{ intros i s' Hi. apply in_range in Hi.
      rewrite !getitem_zrange by lia. reflexivity. }
  cbn [bind]. rewrite flat_map_singleton. fold (bottom_edges panels).
  unfold mv0. rewrite add_members_closed by apply keys_below_nil.
  reflexivity.
Qed.

(** X2.  A type whose first word is none of the four is not refused: with one
    panel or more the generator lays out the bottom nodes and a flat row
    of top nodes, joins the bottom nodes and leaves the top nodes
    unconnected. *)
Theorem unknown_type_gives_deck_only
        (span height : F) (panels : Z) (btype key : string) :
  getitem (split (lower btype)) 0 = Ok key ->
  known_key key = false ->
  1 <= panels ->
  compute_geometry span height panels btype
  = Ok (deck_only span height panels).
Proof. apply compute_geometry_unknown_key. Qed.

(** X3.  A type with no word in it makes the generator raise [IndexError],
    unless the panel count is 0: the division by zero comes first. *)
Theorem wordless_type_raises
        (span height : F) (panels : Z) (btype : string) :
  split (lower btype) = [] ->
  compute_geometry span height panels btype
  = Raise (if panels =? 0 then ZeroDivisionError else IndexError).
Proof.
  intros Hs. unfold compute_geometry, float_div_int.
  destruct (panels =? 0); [reflexivity|]. cbn [bind]. now rewrite Hs.
Qed.

End GeneratorExtras.

Lemma type_read_by_first_word_witness :
  getitem (split (lower "HOWE  bridge")) 0 = Ok (key_of Howe) /\
  1 <= 6 /\
  compute_geometry 90%R 15%R 6 "HOWE  bridge" = Ok (truss Howe 90%R 15%R 6).
Proof.
  split; [reflexivity|]. split; [lia|].
  apply (type_read_by_first_word Howe 90%R 15%R 6); [reflexivity|lia].
Defined.

Lemma unknown_type_gives_deck_only_witness :
  getitem (split (lower "Cable Stayed")) 0 = Ok "cable" /\
  known_key "cable" = false /\ 1 <= 4 /\
  compute_geometry 90%R 15%R 4 "Cable Stayed" = Ok (deck_only 90%R 15%R 4).
Proof.
  split; [reflexivity|]. split; [reflexivity|]. split; [lia|].
  apply (unknown_type_gives_deck_only 90%R 15%R 4 _ "cable");
    [reflexivity|reflexivity|lia].
Defined.

Lemma wordless_type_raises_witness :
  split (lower "   ") = [] /\
  compute_geometry 90%R 15%R 4 "   " = Raise IndexError.
Proof.
  split; [reflexivity|].
  apply (wordless_type_raises 90%R 15%R 4 "   "). reflexivity.
Defined.

(** A no-break space (U+00A0) separates words as a blank does, and upper
    case beyond [Z] is lowered too. *)
Example no_break_space_separates_words :
  getitem (split (lower (String.append "Pratt" (String "160"%char "Truss"))))
          0 = Ok "pratt" /\
  split (lower (String "160"%char EmptyString)) = [] /\
  lower (String "201"%char "cole") = String "233"%char "cole".
Proof. repeat split. Qed.
(** ** Chords, verticals and the order of creation *)

Section LayoutExtras.

Context {F : Type} `{PyFloat F}.

Lemma role_lookup (t : topology) (span height : F) (p : Z)
      (pre seg post : list (Z * Z)) (k : nat) (e : Z * Z) :
  bottom_edges p ++ top_edges t p ++ vertical_edges t p
  ++ diagonal_edges t p = pre ++ seg ++ post ->
  nth_error seg k = Some e ->
  dict_get (members (truss t span height p))
           (1 + Z.of_nat (List.length pre) + Z.of_nat k) = Some e.
Proof.
  intros Hall Hn.
  replace (1 + Z.of_nat (List.length pre) + Z.of_nat k)
    with (1 + Z.of_nat (List.length pre + k)) by lia.
  apply member_lookup. rewrite Hall.
  rewrite nth_error_app2 by lia.
  replace (List.length pre + k - List.length pre)%nat with k by lia.
  rewrite nth_error_app1; [assumption|].
  apply nth_error_Some. congruence.
Qed.

(** X4.  The numbers of nodes and members.  A Pratt, Howe or Bowstring truss of
    [p >= 1] panels has [p + 1] nodes on each chord, [p] members on each
    chord, [p + 1] verticals and [p] diagonals: [2p + 2] nodes and
    [4p + 1] members.  A Warren truss has [2p + 1] nodes and [4p - 1]
    members. *)
Theorem node_and_member_counts
        (t : topology) (span height : F) (panels : Z) :
  1 <= panels ->
  exists g,
    compute_geometry span height panels (btype_of t) = Ok g /\
    let count (l : list Z) := Z.of_nat (List.length l) in
    count (bottom g) = panels + 1 /\
    count (bot_ch g) = panels /\
    match t with
    | Warren =>
        count (top g) = panels /\ count (top_ch g) = panels - 1 /\
        count (verts g) = 0 /\ count (diags g) = 2 * panels /\
        Z.of_nat (List.length (nodes g)) = 2 * panels + 1 /\
        Z.of_nat (List.length (members g)) = 4 * panels - 1
    | _ =>
        count (top g) = panels + 1 /\ count (top_ch g) = panels /\
        count (verts g) = panels + 1 /\ count (diags g) = panels /\
        Z.of_nat (List.length (nodes g)) = 2 * panels + 2 /\
        Z.of_nat (List.length (members g)) = 4 * panels + 1
    end.
Proof.
  intros Hp. exists (truss t span height panels).
  split; [now apply compute_geometry_closed|].
  cbv zeta. rewrite length_nodes_truss, length_members_truss by lia.
  cbn [truss bottom top bot_ch top_ch verts diags].
  rewrite !length_zrange, length_bottom_edges, length_top_edges,
    length_vertical_edges, length_diagonal_edges.
  destruct t; cbn [top_count]; repeat split; lia.
Qed.

(** X5.  Ids follow the order of creation: the bottom nodes are
    [1..p+1] from left to right and the top nodes the ids right after
    them ([p] of them in a Warren truss, [p+1] otherwise); in [nodes] the
    bottom nodes come first; the members are [1..M], with [M = 4p-1] in a
    Warren truss and [4p+1] otherwise, the bottom chords being [1..p],
    followed by the top chords, the verticals and the diagonals. *)
Theorem ids_in_creation_order
        (t : topology) (span height : F) (panels : Z) :
  1 <= panels ->
  exists g,
    compute_geometry span height panels (btype_of t) = Ok g /\
    bottom g = zrange 1 (Z.to_nat (panels + 1)) /\
    top g = zrange (panels + 2)
                   (Z.to_nat (match t with
                              | Warren => panels
                              | _ => panels + 1
                              end)) /\
    keys (nodes g) = bottom g ++ top g /\
    keys (members g) = zrange 1 (List.length (members g)) /\
    Z.of_nat (List.length (members g))
    = match t with Warren => 4 * panels - 1 | _ => 4 * panels + 1 end /\
    keys (members g) = bot_ch g ++ top_ch g ++ verts g ++ diags g /\
    bot_ch g = zrange 1 (Z.to_nat panels).
Proof.
  intros Hp. exists (truss t span height panels).
  split; [now apply compute_geometry_closed|].
  split; [reflexivity|].
  split; [cbn [truss top]; now destruct t|].
  split.
  { cbn [truss nodes bottom top]. rewrite keys_app.
    now rewrite !keys_combine
      by now rewrite length_zrange, length_map, length_range. }
  split; [apply keys_members_truss|].
  split.
  { rewrite length_members_truss, length_bottom_edges, length_top_edges,
      length_vertical_edges, length_diagonal_edges.
    destruct t; lia. }
  split; [symmetry; apply roles_truss|].
  cbn [truss bot_ch]. now rewrite length_bottom_edges.
Qed.

(** X6.  Which nodes the chords and the verticals join: bottom chord [i] joins
    [bottom[i]] to [bottom[i+1]], top chord [i] joins [top[i]] to
    [top[i+1]], vertical [i] joins [bottom[i]] to [top[i]], and every
    Bowstring diagonal [i] joins [bottom[i]] to [top[i+1]]. *)
Theorem chords_and_verticals
        (t : topology) (span height : F) (panels : Z) :
  1 <= panels ->
  exists g,
    compute_geometry span height panels (btype_of t) = Ok g /\
    (forall i, 0 <= i < panels ->
       joins g (bot_ch g) i (bottom g) i (bottom g) (i + 1)) /\
    (forall i, 0 <= i < Z.of_nat (List.length (top_ch g)) ->
       joins g (top_ch g) i (top g) i (top g) (i + 1)) /\
    (forall i, 0 <= i < Z.of_nat (List.length (verts g)) ->
       joins g (verts g) i (bottom g) i (top g) i) /\
    (t = Bowstring ->
     forall i, 0 <= i < panels ->
       joins g (diags g) i (bottom g) i (top g) (i + 1)).
Proof.
  intros Hp. exists (truss t span height panels).
  split; [now apply compute_geometry_closed|].
  split; [|split; [|split]].
  - intros i Hi.
    exists (1 + i), (bottom_id i), (bottom_id (i + 1)).
    rewrite !(getitem_bottom t span height panels) by lia.
    split; [|split; [|split]]; try reflexivity.
    + cbn [truss bot_ch]. apply getitem_zrange.
      rewrite length_bottom_edges. lia.
    + replace (1 + i) with (1 + Z.of_nat (@List.length (Z * Z) [])
                            + Z.of_nat (Z.to_nat i))
      by (cbn [List.length]; lia).
      eapply role_lookup; [rewrite app_nil_l; reflexivity|].
      unfold bottom_edges. now rewrite nth_error_map_range.
  - intros i Hi. cbn [truss top_ch] in Hi.
    rewrite length_zrange, length_top_edges in Hi.
    exists (1 + Z.of_nat (List.length (bottom_edges panels)) + i),
      (top_id panels i), (top_id panels (i + 1)).
    rewrite !(getitem_top t span height panels)
      by (destruct t; cbn [top_count]; lia).
    split; [|split; [|split]]; try reflexivity.
    + cbn [truss top_ch]. apply getitem_zrange.
      rewrite length_top_edges. lia.
    + replace i with (Z.of_nat (Z.to_nat i)) at 1 by lia.
      eapply role_lookup; [reflexivity|].
      unfold top_edges. now rewrite nth_error_map_range by lia.
  - intros i Hi. cbn [truss verts] in Hi.
    rewrite length_zrange, length_vertical_edges in Hi.
    assert (Ht : t <> Warren) by (intros ->; cbn in Hi; lia).
    assert (Hi' : 0 <= i <= panels) by (destruct t; lia || congruence).
    exists (1 + Z.of_nat (List.length (bottom_edges panels)
                          + List.length (top_edges t panels)) + i),
      (bottom_id i), (top_id panels i).
    rewrite (getitem_top t span height panels)
      by (destruct t; cbn [top_count]; lia || congruence).
    rewrite (getitem_bottom t span height panels) by lia.
    split; [|split; [|split]]; try reflexivity.
    + cbn [truss verts]. apply getitem_zrange.
      rewrite length_vertical_edges. destruct t; lia || congruence.
    + replace i with (Z.of_nat (Z.to_nat i)) at 1 by lia.
      rewrite <- length_app.
      apply (role_lookup t span height panels
               (bottom_edges panels ++ top_edges t panels)
               (vertical_edges t panels) (diagonal_edges t panels));
        [now rewrite <- app_assoc|].
      destruct t; try congruence; cbn [vertical_edges];
        now rewrite nth_error_map_range by lia.
  - intros -> i Hi.
    destruct (diagonal_lookup Bowstring span height panels (Z.to_nat i)
                (rising panels i)) as (d & Hd & Hm).
    { cbn [diagonal_edges]. now rewrite nth_error_map_range. }
    exists d, (bottom_id i), (top_id panels (i + 1)).
    rewrite (getitem_top Bowstring span height panels)
      by (cbn [top_count]; lia).
    rewrite (getitem_bottom Bowstring span height panels) by lia.
    replace (Z.of_nat (Z.to_nat i)) with i in Hd by lia. auto.
Qed.

End LayoutExtras.
(** ** Where the nodes lie, and the mirror image *)

Section PlacementExtras.

Context {F : Type} `{PyFloat F}.

(** X7.  The deck is level and the verticals are vertical: every bottom node
    has [y = 0.0] and [z = 0.0], and in a Pratt, Howe or Bowstring truss
    [top[i]] has the very [x] of [bottom[i]]. *)
Theorem top_node_above_bottom_node
        (t : topology) (span height : F) (panels : Z) :
  1 <= panels ->
  exists g,
    compute_geometry span height panels (btype_of t) = Ok g /\
    forall i, 0 <= i <= panels ->
      exists x,
        bottom_node g i = Some (x, f0, f0) /\
        (t <> Warren -> exists y, top_node g i = Some (x, y, f0)).
Proof.
  intros Hp. exists (truss t span height panels).
  split; [now apply compute_geometry_closed|].
  intros i Hi.
  exists (round4 (fmul (of_int i) (fdiv span (of_int panels)))). split.
  - unfold bottom_node.
    rewrite (getitem_bottom t span height panels) by lia.
    now rewrite node_bottom by lia.
  - intros Ht. unfold top_node.
    rewrite (getitem_top t span height panels)
      by (destruct t; cbn [top_count]; lia || congruence).
    rewrite node_top by (destruct t; cbn [top_count]; lia || congruence).
    destruct t; try congruence; cbn [top_coord]; eauto.
Qed.

Lemma mirror_bottom (p k : Z) :
  0 <= k <= p -> mirror_node p (bottom_id k) = bottom_id (p - k).
Proof.
  intros Hk. unfold mirror_node, bottom_id.
  destruct (Z.leb_spec (1 + k) (p + 1)); lia.
Qed.

Lemma mirror_top (p k : Z) :
  0 <= k <= p -> mirror_node p (top_id p k) = top_id p (p - k).
Proof.
  intros Hk. unfold mirror_node, top_id.
  destruct (Z.leb_spec (p + 2 + k) (p + 1)); lia.
Qed.

(** X8.  With an even number of panels the diagonals of a Pratt or Howe truss
    are their own mirror image: [mirror_node] sends [bottom[k]] to
    [bottom[panels - k]] and [top[k]] to [top[panels - k]], and if
    diagonal [i] joins [a] to [b] then diagonal [panels - 1 - i] joins the
    mirror image of [b] to that of [a]. *)
Theorem even_pratt_howe_mirror_symmetric
        (t : topology) (span height : F) (panels : Z) :
  t = Pratt \/ t = Howe ->
  1 <= panels ->
  Z.even panels = true ->
  exists g,
    compute_geometry span height panels (btype_of t) = Ok g /\
    (forall k n, 0 <= k <= panels ->
       (getitem (bottom g) k = Ok n ->
        getitem (bottom g) (panels - k) = Ok (mirror_node panels n)) /\
       (getitem (top g) k = Ok n ->
        getitem (top g) (panels - k) = Ok (mirror_node panels n))) /\
    (forall i a b, 0 <= i < panels ->
       diagonal_of g i (a, b) ->
       diagonal_of g (panels - 1 - i)
                   (mirror_node panels b, mirror_node panels a)).
Proof.
  intros Ht Hp He. exists (truss t span height panels).
  split; [now apply compute_geometry_closed|].
  assert (Htc : top_count t panels = panels + 1)
    by (destruct Ht as [-> | ->]; reflexivity).
  assert (Hhalf : panels = 2 * (panels / 2)).
  { apply Z.even_spec in He. destruct He as [k Hk].
    rewrite Hk at 2. rewrite (Z.mul_comm 2 k), Z.div_mul by lia. lia. }
  split.
  - intros k n Hk. split; intros Hn.
    + rewrite (getitem_bottom t span height panels) in Hn by lia.
      injection Hn as <-.
      rewrite (getitem_bottom t span height panels) by lia.
      now rewrite mirror_bottom.
    + rewrite (getitem_top t span height panels) in Hn by lia.
      injection Hn as <-.
      rewrite (getitem_top t span height panels) by lia.
      now rewrite mirror_top.
  - intros i a b Hi (d & Hd & Hm).
    (* what diagonal [i] is *)
    destruct (diagonal_lookup t span height panels (Z.to_nat i)
                (match t with
                 | Howe => if i <? panels / 2 then rising panels i
                           else falling panels i
                 | _ => if i <? panels / 2 then falling panels i
                        else rising panels i
                 end))
      as (d' & Hd' & Hm').
    { destruct Ht as [-> | ->]; cbn [diagonal_edges];
        now rewrite nth_error_map_range. }
    replace (Z.of_nat (Z.to_nat i)) with i in Hd' by lia.
    rewrite Hd in Hd'. injection Hd' as <-. rewrite Hm in Hm'.
    (* what diagonal [panels - 1 - i] is *)
    destruct (diagonal_lookup t span height panels
                (Z.to_nat (panels - 1 - i))
                (match t with
                 | Howe => if panels - 1 - i <? panels / 2
                           then rising panels (panels - 1 - i)
                           else falling panels (panels - 1 - i)
                 | _ => if panels - 1 - i <? panels / 2
                        then falling panels (panels - 1 - i)
                        else rising panels (panels - 1 - i)
                 end))
      as (e & He' & Hme).
    { destruct Ht as [-> | ->]; cbn [diagonal_edges];
        now rewrite nth_error_map_range by lia. }
    replace (Z.of_nat (Z.to_nat (panels - 1 - i)))
      with (panels - 1 - i) in He' by lia.
    exists e. split; [exact He'|]. rewrite Hme. f_equal.
    unfold falling, rising in *.
    destruct Ht as [-> | ->];
      destruct (Z.ltb_spec i (panels / 2));
      destruct (Z.ltb_spec (panels - 1 - i) (panels / 2)); try lia;
      injection Hm' as -> ->;
      rewrite ?mirror_bottom, ?mirror_top by lia;
      unfold bottom_id, top_id; f_equal; lia.
Qed.

End PlacementExtras.

Lemma top_node_above_bottom_node_witness :
  1 <= 4 /\
  exists g : geometry R,
    compute_geometry 100%R 20%R 4 (btype_of Bowstring) = Ok g /\
    exists x y, bottom_node g 1 = Some (x, f0, f0) /\
                top_node g 1 = Some (x, y, f0).
Proof.
  split; [lia|].
  destruct (top_node_above_bottom_node Bowstring 100%R 20%R 4) as (g & Hg & Hn);
    [lia|].
  exists g. split; [exact Hg|].
  destruct (Hn 1) as (x & Hb & Ht); [lia|].
  destruct Ht as [y Hy]; [discriminate|]. eauto.
Defined.

Lemma even_pratt_howe_mirror_symmetric_witness :
  (Pratt = Pratt \/ Pratt = Howe) /\ 1 <= 4 /\ Z.even 4 = true /\
  exists g : geometry R,
    compute_geometry 100%R 20%R 4 (btype_of Pratt) = Ok g /\
    (diagonal_of g 0 (6, 2) -> diagonal_of g 3 (4, 10)).
Proof.
  split; [now left|]. split; [lia|]. split; [reflexivity|].
  destruct (even_pratt_howe_mirror_symmetric Pratt 100%R 20%R 4)
    as (g & Hg & _ & Hd); [now left|lia|reflexivity|].
  exists g. split; [exact Hg|].
  intros H0. apply (Hd 0 6 2) in H0; [exact H0|lia].
Defined.

Lemma node_and_member_counts_witness :
  1 <= 8 /\
  exists g : geometry R,
    compute_geometry 120%R 20%R 8 (btype_of Pratt) = Ok g /\
    Z.of_nat (List.length (nodes g)) = 18 /\
    Z.of_nat (List.length (members g)) = 33.
Proof.
  split; [lia|].
  destruct (node_and_member_counts Pratt 120%R 20%R 8)
    as (g & Hg & _ & _ & _ & _ & _ & _ & Hn & Hm); [lia|].
  exists g. auto.
Defined.

Lemma ids_in_creation_order_witness :
  1 <= 8 /\
  exists g : geometry R,
    compute_geometry 120%R 20%R 8 (btype_of Warren) = Ok g /\
    bottom g = [1; 2; 3; 4; 5; 6; 7; 8; 9] /\
    top g = [10; 11; 12; 13; 14; 15; 16; 17] /\
    keys (nodes g) = bottom g ++ top g /\
    Z.of_nat (List.length (members g)) = 31 /\
    bot_ch g = [1; 2; 3; 4; 5; 6; 7; 8].
Proof.
  split; [lia|].
  destruct (ids_in_creation_order Warren 120%R 20%R 8)
    as (g & Hg & Hb & Ht & Hk & _ & Hm & _ & Hbc); [lia|].
  exists g. auto 10.
Defined.

Lemma chords_and_verticals_witness :
  1 <= 8 /\
  exists g : geometry R,
    compute_geometry 120%R 20%R 8 (btype_of Howe) = Ok g /\
    joins g (verts g) 3 (bottom g) 3 (top g) 3.
Proof.
  split; [lia|].
  destruct (chords_and_verticals Howe 120%R 20%R 8)
    as (g & Hg & _ & _ & Hv & _); [lia|].
  exists g. split; [exact Hg|]. apply Hv.
  rewrite (compute_geometry_closed Howe) in Hg by lia.
  injection Hg as <-. vm_compute. split; [discriminate|reflexivity].
Defined.
(** * Further properties of the exporter *)

(** ** Exports that get as far as the supports *)

Section ReachSupports.

Context {F : Type} `{PyFloat F}.

Variable os_analytical : staad F.

Lemma for_body_inv {X} (f : X -> call F) (body : X -> M F unit)
      (xs : list X) :
  (forall x, body x = mbind (do_call os_analytical (f x)) (fun _ => ret tt)) ->
  forall (tr tr1 : list (event F)) (a : unit),
    for_eachM xs body tr = (tr1, Ok a) ->
    tr1 = tr ++ map (fun x => Call (f x)) xs.
Proof.
  intros Hb. induction xs as [|x xs IH]; intros tr tr1 a; cbn [for_eachM map].
  - unfold ret. intros Heq. injection Heq as <- _. now rewrite app_nil_r.
  - unfold mbind at 1. rewrite Hb.
    destruct (mbind (do_call os_analytical (f x)) (fun _ => ret tt) tr)
      as [tr2 [u|e]] eqn:Hx; [|discriminate].
    apply call_ret_inv in Hx. subst tr2. intros Heq. apply IH in Heq.
    rewrite Heq, <- app_assoc. reflexivity.
Qed.

Lemma releases_inv (b : bool) (m : message F) (c0 c1 : call F)
      (assign : value -> call F) (tr tr1 : list (event F)) (a : unit) :
  when b
    (mbind (log_callback m false false)
       (fun _ =>
          mbind (do_call os_analytical c0)
            (fun sr =>
               mbind (do_call os_analytical c1)
                 (fun er =>
                    mbind (do_call os_analytical (assign sr))
                      (fun _ =>
                         mbind (do_call os_analytical (assign er))
                           (fun _ => ret tt)))))) tr
  = (tr1, Ok a) ->
  exists sr er,
    tr1 = tr ++ (if b
                 then [Log m false false; Call c0; Call c1;
                       Call (assign sr); Call (assign er)]
                 else []) /\
    (b = true ->
     os_analytical (tr ++ [Log m false false]) c0 = Ok sr /\
     os_analytical (tr ++ [Log m false false; Call c0]) c1 = Ok er).
Proof.
  destruct b; cbn [when].
  - unfold mbind, log_callback, do_call, ret.
    destruct (os_analytical (tr ++ [Log m false false]) c0)
      as [sr|e] eqn:H0; [|discriminate].
    destruct (os_analytical ((tr ++ [Log m false false]) ++ [Call c0]) c1)
      as [er|e] eqn:H1; [|discriminate].
    destruct (os_analytical _ (assign sr)) as [u|e]; [|discriminate].
    destruct (os_analytical _ (assign er)) as [v|e]; [|discriminate].
    intros Heq. injection Heq as <- _. exists sr, er.
    rewrite <- !app_assoc in *. cbn [app] in *. auto.
  - unfold ret. intros Heq. injection Heq as <- _. exists 0, 0.
    rewrite app_nil_r. split; [reflexivity|discriminate].
Qed.

Ltac reach_step_as Hin Htot Hm a :=
  match type of Hin with
  | In ?e (fst (mbind ?m ?k ?tr)) =>
      let tr1 := fresh "tr" in
      let Hn := fresh "Hn" in
      let Heq := fresh "Heq" in
      destruct (bind_reach e m k tr) as (a & tr1 & Hm & Hn & Heq);
      [ emits_rules; discriminate
      | assumption
      | exact Hin
      | rewrite Heq in Hin, Htot; clear Heq; cbv beta in Hin, Htot ]
  end.

Ltac reach_step Hin Htot Hm :=
  let a := fresh "a" in reach_step_as Hin Htot Hm a.

Ltac subst_tr Hm :=
  match type of Hm with
  | ?x = _ => subst x
  end.

Let supports : event F := Log MsgAssigningSupports false false.

(** A run that logs "Assigning supports" has done all that comes before,
    in this order and with nothing in between. *)
Lemma reach_supports (b : bool) (cfg : config F) :
  In supports (fst (run_in_staad os_analytical b cfg [])) ->
  exists lu fu g chord_p diag_p sr er post,
    lookup_unit UNIT_OPTIONS (cfg_unit cfg) = Ok (lu, fu) /\
    compute_geometry (cfg_span cfg) (cfg_height cfg) (cfg_panels cfg)
                     (cfg_bridge_type cfg) = Ok g /\
    os_analytical (setup_events cfg lu fu ++ node_events g
                   ++ member_events g
                   ++ [Log MsgAssigningSections false false])
                  (create_chord_property cfg) = Ok chord_p /\
    os_analytical (setup_events cfg lu fu ++ node_events g
                   ++ member_events g
                   ++ [Log MsgAssigningSections false false;
                       Call (create_chord_property cfg)])
                  (create_angle_property cfg) = Ok diag_p /\
    (nonempty (diags g) = true ->
     os_analytical (setup_events cfg lu fu ++ node_events g
                    ++ member_events g
                    ++ property_events cfg g chord_p diag_p
                    ++ [Log MsgApplyingReleases false false])
                   (release_spec 0) = Ok sr /\
     os_analytical (setup_events cfg lu fu ++ node_events g
                    ++ member_events g
                    ++ property_events cfg g chord_p diag_p
                    ++ [Log MsgApplyingReleases false false;
                        Call (release_spec 0)])
                   (release_spec 1) = Ok er) /\
    fst (run_in_staad os_analytical b cfg []) =
    setup_events cfg lu fu ++ node_events g ++ member_events g
    ++ property_events cfg g chord_p diag_p
    ++ release_events g sr er ++ supports :: post.
Proof.
  destruct b.
  2:{ cbn. intros [Heq|[]]. discriminate. }
  destruct (lookup_unit UNIT_OPTIONS (cfg_unit cfg)) as [[lu fu]|e] eqn:Hu.
  2:{ unfold run_in_staad. cbn [negb]. unfold mbind at 1, lift at 1.
      rewrite Hu. intros []. }
  destruct (compute_geometry (cfg_span cfg) (cfg_height cfg)
                             (cfg_panels cfg) (cfg_bridge_type cfg))
    as [g|e] eqn:Hg.
  2:{ unfold run_in_staad. cbn [negb]. unfold mbind at 1, lift at 1.
      rewrite Hu. unfold mbind at 1, lift at 1. rewrite Hg. intros []. }
  rewrite (run_in_staad_guarded _ cfg lu fu g) by assumption.
  intros Hin. exists lu, fu, g.
  destruct (try_extends (build_model os_analytical cfg lu fu g)
              (fun exc => mbind (log_callback (MsgError exc) true false)
                                (fun _ => ret false)) [])
    as (es & Hes); [intros; emits_rules; exact I|].
  rewrite Hes. apply try_reach in Hin; [|intros; emits_rules; discriminate].
  clear Hes.
  assert (Hnil : ~ In supports (@nil (event F))) by (intros []).
  remember (build_model os_analytical cfg lu fu g []) as T eqn:Htot.
  unfold build_model in Htot. rewrite Htot in Hin.
  reach_step Hin Htot Hm. apply log_inv in Hm. subst_tr Hm.
  reach_step Hin Htot Hm. apply call_inv in Hm. destruct Hm as [-> _].
  reach_step Hin Htot Hm. apply log_inv in Hm. subst_tr Hm.
  reach_step Hin Htot Hm. apply call_inv in Hm. destruct Hm as [-> _].
  reach_step Hin Htot Hm. apply call_inv in Hm. destruct Hm as [-> _].
  reach_step Hin Htot Hm. apply log_inv in Hm. subst_tr Hm.
  reach_step Hin Htot Hm.
  apply (for_body_inv (create_node)) in Hm;
    [|intros [nid [[x y] z]]; reflexivity].
  subst_tr Hm.
  reach_step Hin Htot Hm. apply log_inv in Hm. subst_tr Hm.
  reach_step Hin Htot Hm.
  apply (for_body_inv (create_beam)) in Hm;
    [|intros [mid [n1 n2]]; reflexivity].
  subst_tr Hm.
  reach_step Hin Htot Hm. apply log_inv in Hm. subst_tr Hm.
  reach_step_as Hin Htot Hm chord_p.
  apply call_inv in Hm. destruct Hm as [-> Hc].
  reach_step_as Hin Htot Hm diag_p.
  apply call_inv in Hm. destruct Hm as [-> Hd].
  reach_step Hin Htot Hm. apply call_inv in Hm. destruct Hm as [-> _].
  reach_step Hin Htot Hm. apply when_call_inv in Hm. subst_tr Hm.
  reach_step Hin Htot Hm. apply when_call_inv in Hm. subst_tr Hm.
  reach_step Hin Htot Hm. apply when_call_inv in Hm. subst_tr Hm.
  reach_step Hin Htot Hm. apply call_inv in Hm. destruct Hm as [-> _].
  reach_step Hin Htot Hm.
  apply releases_inv in Hm. destruct Hm as (sr & er & -> & Hrel).
  rewrite Htot.
  match goal with
  | |- context [fst (mbind (log_callback ?m ?e ?s) ?k ?t)] =>
      destruct (log_bind_extends m e s k t) as (post & Hpost);
      [emits_rules; exact I|]; rewrite Hpost
  end.
  exists chord_p, diag_p, sr, er, (post ++ es).
  split; [reflexivity|]. split; [reflexivity|].
  unfold setup_events, node_events, member_events, property_events,
    release_events, release_spec, create_chord_property,
    create_angle_property, supports in *.
  rewrite <- !app_assoc in Hc, Hd. cbn [app] in Hc, Hd.
  split; [exact Hc|]. split; [exact Hd|].
  rewrite Nat2Z.id in *.
  split.
  - intros Hne. destruct (Hrel Hne) as [Hsr Her].
    rewrite <- !app_assoc in Hsr, Her. cbn [app] in Hsr, Her.
    rewrite <- !app_assoc. cbn [app]. split; assumption.
  - destruct (nonempty (diags g));
      rewrite <- !app_assoc; cbn [app]; reflexivity.
Qed.

End ReachSupports.
(** ** The model, the sections and the releases *)

Section ModelExtras.

Context {F : Type} `{PyFloat F}.

Variable os_analytical : staad F.

Lemma saving_implies_supports (b : bool) (cfg : config F) :
  In (Log MsgSavingModel false false)
     (fst (run_in_staad os_analytical b cfg [])) ->
  In (Log MsgAssigningSupports false false)
     (fst (run_in_staad os_analytical b cfg [])).
Proof.
  intros Hin. apply reach_saving in Hin.
  destruct Hin as (g & pre & l & r & sid & sid2 & c1 & c2 & post & _ & _
                   & _ & _ & _ & Htr).
  rewrite Htr. apply in_app_iff. right. now left.
Qed.

(** X12.  An export that gets to "Assigning supports" began by connecting,
    setting the units that [UNIT_OPTIONS] gives for the configured unit
    and saving; it then created every node of the generated geometry
    once, in the order of [nodes], and after the last node every member
    once, in the order of [members]. *)
Theorem nodes_created_before_members (b : bool) (cfg : config F) :
  let tr := fst (run_in_staad os_analytical b cfg []) in
  In (Log MsgAssigningSupports false false) tr ->
  exists lu fu g rest,
    lookup_unit UNIT_OPTIONS (cfg_unit cfg) = Ok (lu, fu) /\
    compute_geometry (cfg_span cfg) (cfg_height cfg) (cfg_panels cfg)
                     (cfg_bridge_type cfg) = Ok g /\
    tr = setup_events cfg lu fu ++ node_events g ++ member_events g ++ rest.
Proof.
  intros tr Hin. apply reach_supports in Hin.
  destruct Hin as (lu & fu & g & chord_p & diag_p & sr & er & post & Hu & Hg
                   & _ & _ & _ & Htr).
  exists lu, fu, g. eexists. split; [exact Hu|]. split; [exact Hg|].
  unfold tr. rewrite Htr. reflexivity.
Qed.

(** X13.  An export that gets to "Assigning supports" has, right before:
    created the chord property and the angle property; assigned what the
    first call returned to the bottom chords and, if there are any, to
    the top chords, and what the second returned to the verticals and to
    the diagonals, if there are any; assigned "STEEL" to the members
    [1..M]; and, exactly when there are diagonals, created the start and
    the end release spec and assigned what each of these two calls
    returned to the whole group of diagonals. *)
Theorem sections_material_and_releases (b : bool) (cfg : config F) :
  let tr := fst (run_in_staad os_analytical b cfg []) in
  In (Log MsgAssigningSupports false false) tr ->
  exists g pre chord_p diag_p sr er post,
    compute_geometry (cfg_span cfg) (cfg_height cfg) (cfg_panels cfg)
                     (cfg_bridge_type cfg) = Ok g /\
    os_analytical (pre ++ [Log MsgAssigningSections false false])
                  (create_chord_property cfg) = Ok chord_p /\
    os_analytical (pre ++ [Log MsgAssigningSections false false;
                           Call (create_chord_property cfg)])
                  (create_angle_property cfg) = Ok diag_p /\
    (nonempty (diags g) = true ->
     os_analytical (pre ++ property_events cfg g chord_p diag_p
                    ++ [Log MsgApplyingReleases false false])
                   (release_spec 0) = Ok sr /\
     os_analytical (pre ++ property_events cfg g chord_p diag_p
                    ++ [Log MsgApplyingReleases false false;
                        Call (release_spec 0)])
                   (release_spec 1) = Ok er) /\
    tr = pre ++ property_events cfg g chord_p diag_p
             ++ release_events g sr er
             ++ Log MsgAssigningSupports false false :: post.
Proof.
  intros tr Hin. apply reach_supports in Hin.
  destruct Hin as (lu & fu & g & chord_p & diag_p & sr & er & post & Hu & Hg
                   & Hc & Hd & Hrel & Htr).
  exists g, (setup_events cfg lu fu ++ node_events g ++ member_events g),
    chord_p, diag_p, sr, er, post.
  rewrite <- !app_assoc. split; [exact Hg|].
  split; [exact Hc|]. split; [exact Hd|]. split; [exact Hrel|].
  unfold tr. rewrite Htr. reflexivity.
Qed.

(** X14.  When the service cannot be reached ([connect] raises), the export
    stops there: it logs the error and returns [False] without having
    created anything. *)
Theorem connection_failure_creates_nothing
        (cfg : config F) (lufu : Z * Z) (g : geometry F) (e : exn) :
  lookup_unit UNIT_OPTIONS (cfg_unit cfg) = Ok lufu ->
  compute_geometry (cfg_span cfg) (cfg_height cfg) (cfg_panels cfg)
                   (cfg_bridge_type cfg) = Ok g ->
  os_analytical [Log MsgConnecting false false] connect = Raise e ->
  run_in_staad os_analytical true cfg [] =
  ([Log MsgConnecting false false; Call connect;
    Log (MsgError e) true false], Ok false).
Proof.
  intros Hu Hg He. destruct lufu as [lu fu].
  rewrite (run_in_staad_guarded _ cfg lu fu g) by assumption.
  unfold try_except, build_model.
  unfold mbind at 1, log_callback at 1. cbn [app].
  unfold mbind at 1, do_call at 1. rewrite He. reflexivity.
Qed.

End ModelExtras.

Lemma connection_failure_creates_nothing_witness :
  lookup_unit UNIT_OPTIONS (cfg_unit default_config) = Ok (1, 0) /\
  compute_geometry (cfg_span default_config) (cfg_height default_config)
                   (cfg_panels default_config)
                   (cfg_bridge_type default_config)
  = Ok (truss Pratt 120%R 20%R 8) /\
  unreachable [Log MsgConnecting false false] connect
  = Raise (StaadError "no STAAD") /\
  run_in_staad unreachable true default_config [] =
  ([Log MsgConnecting false false; Call connect;
    Log (MsgError (StaadError "no STAAD")) true false], Ok false).
Proof.
  split; [reflexivity|]. split; [exact default_geometry|].
  split; [reflexivity|].
  apply (connection_failure_creates_nothing unreachable default_config
           (1, 0) _ _ default_unit default_geometry).
  reflexivity.
Defined.

Lemma default_run_assigns_supports :
  In (Log MsgAssigningSupports false false)
     (fst (run_in_staad obliging true default_config [])).
Proof. apply saving_implies_supports, default_run_saves. Qed.

Lemma nodes_created_before_members_witness :
  In (Log MsgAssigningSupports false false)
     (fst (run_in_staad obliging true default_config [])) /\
  exists rest,
    fst (run_in_staad obliging true default_config []) =
    setup_events default_config 1 0
    ++ node_events (truss Pratt 120%R 20%R 8)
    ++ member_events (truss Pratt 120%R 20%R 8) ++ rest.
Proof.
  split; [exact default_run_assigns_supports|].
  destruct (nodes_created_before_members obliging true default_config
              default_run_assigns_supports)
    as (lu & fu & g & rest & Hu & Hg & Htr).
  rewrite default_unit in Hu. injection Hu as <- <-.
  rewrite default_geometry in Hg. injection Hg as <-.
  exists rest. exact Htr.
Defined.

Lemma sections_material_and_releases_witness :
  In (Log MsgAssigningSupports false false)
     (fst (run_in_staad obliging true default_config [])) /\
  exists pre chord_p diag_p sr er post,
    obliging (pre ++ property_events default_config
                       (truss Pratt 120%R 20%R 8) chord_p diag_p
              ++ [Log MsgApplyingReleases false false])
             (release_spec 0) = Ok sr /\
    obliging (pre ++ property_events default_config
                       (truss Pratt 120%R 20%R 8) chord_p diag_p
              ++ [Log MsgApplyingReleases false false;
                  Call (release_spec 0)])
             (release_spec 1) = Ok er /\
    fst (run_in_staad obliging true default_config []) =
    pre ++ property_events default_config (truss Pratt 120%R 20%R 8)
             chord_p diag_p
        ++ release_events (truss Pratt 120%R 20%R 8) sr er
        ++ Log MsgAssigningSupports false false :: post.
Proof.
  split; [exact default_run_assigns_supports|].
  destruct (sections_material_and_releases obliging true default_config
              default_run_assigns_supports)
    as (g & pre & chord_p & diag_p & sr & er & post & Hg & _ & _ & Hrel
        & Htr).
  rewrite default_geometry in Hg. injection Hg as <-.
  exists pre, chord_p, diag_p, sr, er, post.
  destruct (Hrel eq_refl) as [Hsr Her]. auto.
Defined.
(** ** After a call that raises *)

Section Halting.

Context {F : Type} `{PyFloat F}.

Variable os_analytical : staad F.

Lemma halting_ret {A} (a : A) : halting os_analytical (ret a : M F A).
Proof.
  intros tr. exists []. cbn. split; [now rewrite app_nil_r|].
  intros a0 c b e Hs. now destruct a0.
Qed.

Lemma halting_lift {A} (r : result A) : halting os_analytical (lift r).
Proof.
  intros tr. exists []. cbn. split; [now rewrite app_nil_r|].
  intros a0 c b e Hs. now destruct a0.
Qed.

Lemma halting_log (m : message F) (e s : bool) :
  halting os_analytical (log_callback m e s).
Proof.
  intros tr. exists [Log m e s]. cbn. split; [reflexivity|].
  intros a0 c b e0 Hs. destruct a0 as [|x [|y a0]]; discriminate.
Qed.

Lemma halting_call (c : call F) :
  halting os_analytical (do_call os_analytical c).
Proof.
  intros tr. exists [Call c]. cbn. split; [reflexivity|].
  intros a0 c0 b e Hs Hr. destruct a0 as [|x [|y a0]]; try discriminate.
  injection Hs as <- <-. rewrite app_nil_r in Hr. auto.
Qed.

Lemma halting_bind {A B} (m : M F A) (k : A -> M F B) :
  halting os_analytical m -> (forall a, halting os_analytical (k a)) ->
  halting os_analytical (mbind m k).
Proof.
  intros Hm Hk tr. destruct (Hm tr) as (es & Hes & Hs).
  unfold mbind. destruct (m tr) as [tr1 [a|e]]; cbn [fst snd] in Hes, Hs;
    subst tr1.
  - destruct (Hk a (tr ++ es)) as (es' & Hes' & Hs').
    exists (es ++ es'). rewrite Hes', app_assoc. split; [reflexivity|].
    intros a0 c b e Hsplit Hr.
    apply app_eq_app in Hsplit.
    destruct Hsplit as [l [[H1 H2]|[H1 H2]]].
    + destruct l as [|x l].
      * cbn in H2. rewrite app_nil_r in H1. subst a0.
        apply (Hs' [] c b e); [now symmetry|]. now rewrite app_nil_r.
      * injection H2 as <- ->.
        destruct (Hs a0 c l e H1 Hr) as [_ Habs]. discriminate.
    + subst a0. apply (Hs' l c b e H2). now rewrite <- app_assoc.
  - exists es. split; [reflexivity|]. cbn [snd].
    intros a0 c b e0 Hsplit Hr.
    destruct (Hs a0 c b e0 Hsplit Hr) as [-> He]. injection He as ->.
    auto.
Qed.

Lemma halting_when (b : bool) (m : M F unit) :
  halting os_analytical m -> halting os_analytical (when b m).
Proof. destruct b; cbn; [auto | intros _; apply halting_ret]. Qed.

Lemma halting_if {A} (b : bool) (m1 m2 : M F A) :
  halting os_analytical m1 -> halting os_analytical m2 ->
  halting os_analytical (if b then m1 else m2).
Proof. now destruct b. Qed.

Lemma halting_for {X} (xs : list X) (body : X -> M F unit) :
  (forall x, halting os_analytical (body x)) ->
  halting os_analytical (for_eachM xs body).
Proof.
  intros Hb. induction xs as [|x xs IH]; cbn [for_eachM].
  - apply halting_ret.
  - apply halting_bind; auto.
Qed.

Lemma build_model_halting (cfg : config F) (lu fu : Z) (g : geometry F) :
  halting os_analytical (build_model os_analytical cfg lu fu g).
Proof.
  unfold build_model.
  repeat first
    [ apply halting_ret
    | apply halting_lift
    | apply halting_log
    | apply halting_call
    | apply halting_when
    | apply halting_if
    | apply halting_for; intros ?
    | apply halting_bind; [|intros ?]
    | match goal with
      | |- halting _ (let '(_, _) := ?p in _) => destruct p
      end ].
Qed.

(** X15.  A call that the service answers with an exception is the last call
    of the export: whichever call it is, and however far the export has
    got, the one event after it is the line reporting that exception, and
    the export returns [False]. *)
Theorem failed_call_ends_export
        (cfg : config F) (lufu : Z * Z) (g : geometry F)
        (a b : list (event F)) (c : call F) (e : exn) :
  lookup_unit UNIT_OPTIONS (cfg_unit cfg) = Ok lufu ->
  compute_geometry (cfg_span cfg) (cfg_height cfg) (cfg_panels cfg)
                   (cfg_bridge_type cfg) = Ok g ->
  fst (run_in_staad os_analytical true cfg []) = a ++ Call c :: b ->
  os_analytical a c = Raise e ->
  b = [Log (MsgError e) true false] /\
  snd (run_in_staad os_analytical true cfg []) = Ok false.
Proof.
  intros Hu Hg. destruct lufu as [lu fu].
  rewrite (run_in_staad_guarded _ cfg lu fu g) by assumption.
  unfold try_except.
  destruct (build_model_halting cfg lu fu g []) as (es & Hes & Hs).
  destruct (build_model os_analytical cfg lu fu g []) as [tr1 [v|e1]];
    cbn [fst snd app] in Hes, Hs; subst tr1.
  - cbn [fst snd]. intros Hsplit Hr.
    destruct (Hs a c b e Hsplit Hr) as [_ Habs]. discriminate.
  - unfold mbind, log_callback, ret. cbn [fst snd]. intros Hsplit Hr.
    apply app_eq_app in Hsplit.
    destruct Hsplit as [l [[H1 H2]|[H1 H2]]].
    + destruct l as [|x l]; [discriminate|].
      injection H2 as <- ->.
      destruct (Hs a c l e H1 Hr) as [-> He]. injection He as ->.
      auto.
    + destruct l as [|x l]; [discriminate|].
      injection H2 as _ H2. now destruct l.
Qed.

End Halting.

Lemma failed_call_ends_export_witness :
  lookup_unit UNIT_OPTIONS (cfg_unit default_config) = Ok (1, 0) /\
  fst (run_in_staad refusing_units true default_config []) =
  [Log MsgConnecting false false; Call connect;
   Log (MsgSettingUnits "Feet / Kip" 1 0) false false]
  ++ Call (SetInputUnits 1 0)
  :: [Log (MsgError (StaadError "units")) true false] /\
  snd (run_in_staad refusing_units true default_config []) = Ok false.
Proof.
  assert (Hrun : fst (run_in_staad refusing_units true default_config []) =
                 [Log MsgConnecting false false; Call connect;
                  Log (MsgSettingUnits "Feet / Kip" 1 0) false false]
                 ++ Call (SetInputUnits 1 0)
                 :: [Log (MsgError (StaadError "units")) true false]).
  { rewrite (run_in_staad_guarded _ default_config 1 0 _ []
               default_unit default_geometry).
    reflexivity. }
  split; [exact default_unit|]. split; [exact Hrun|].
  apply (failed_call_ends_export refusing_units default_config (1, 0) _
           _ _ _ (StaadError "units") default_unit default_geometry Hrun).
  reflexivity.
Defined.

(** ** Exports that cannot succeed, exports that must *)

Section Outcomes.

Context {F : Type} `{PyFloat F}.

Variable os_analytical : staad F.

Lemma compute_geometry_negative (span height : F) (panels : Z)
      (btype key : string) :
  getitem (split (lower btype)) 0 = Ok key ->
  panels < 0 ->
  compute_geometry span height panels btype = Ok empty_geometry.
Proof.
  intros Hk Hp. unfold compute_geometry, float_div_int.
  destruct (Z.eqb_spec panels 0) as [|_]; [lia|]. cbn [bind].
  rewrite Hk. cbn [bind].
  rewrite !(range_nonpositive panels), !(range_nonpositive (panels + 1)),
    !(range_nonpositive (panels - 1)) by lia.
  destruct (String.eqb key "warren"); [reflexivity|].
  destruct (String.eqb key "bowstring");
    destruct (String.eqb key "pratt"); destruct (String.eqb key "howe");
    reflexivity.
Qed.

Lemma compute_geometry_cases (span height : F) (panels : Z)
      (btype key : string) :
  getitem (split (lower btype)) 0 = Ok key ->
  1 <= panels ->
  (exists t, compute_geometry span height panels btype
             = Ok (truss t span height panels)) \/
  compute_geometry span height panels btype
  = Ok (deck_only span height panels).
Proof.
  intros Hk Hp. destruct (known_key key) eqn:Hkn.
  - assert (Ht : exists t, key = key_of t).
    { unfold known_key in Hkn.
      repeat (apply orb_prop in Hkn; destruct Hkn as [Hkn|Hkn]);
        apply String.eqb_eq in Hkn;
        [exists Warren|exists Pratt|exists Howe|exists Bowstring];
        exact Hkn. }
    destruct Ht as [t ->]. left. exists t.
    rewrite <- (compute_geometry_closed t) by assumption.
    apply compute_geometry_same_key. now rewrite btype_key_of.
  - right.
    now apply (compute_geometry_unknown_key span height panels btype key).
Qed.

Lemma compute_geometry_bottom (span height : F) (panels : Z)
      (btype key : string) :
  getitem (split (lower btype)) 0 = Ok key ->
  1 <= panels ->
  exists g,
    compute_geometry span height panels btype = Ok g /\
    bottom g = zrange 1 (Z.to_nat (panels + 1)).
Proof.
  intros Hk Hp.
  destruct (compute_geometry_cases span height panels btype key Hk Hp)
    as [[t Hg]|Hg]; eexists; (split; [exact Hg|reflexivity]).
Qed.

Lemma returns_raise {A B} (Q : B -> Prop) (e : exn) (k : A -> M F B) :
  returns Q (mbind (lift (Raise e)) k).
Proof. intros tr tr' b Heq. discriminate. Qed.

Lemma raises_after_here {A B} (m : message F) (e s : bool) (exc : exn)
      (k : A -> M F B) :
  raises_after (Log m e s) exc
    (mbind (log_callback m e s) (fun _ => mbind (lift (Raise exc)) k)).
Proof. intros tr. exists []. reflexivity. Qed.

Lemma raises_after_later {A B} (e0 : event F) (exc : exn) (m : M F A)
      (k : A -> M F B) :
  succeeds m -> (forall a, raises_after e0 exc (k a)) ->
  raises_after e0 exc (mbind m k).
Proof.
  intros Hm Hk tr. destruct (Hm tr) as (es & a & Hes).
  destruct (Hk a (tr ++ es)) as (es' & Hes').
  exists (es ++ es'). unfold mbind. rewrite Hes, Hes'.
  now rewrite <- !app_assoc.
Qed.

Lemma finishes_here {B} (m : message F) (e s : bool) (b : B) :
  finishes (Log m e s) b (mbind (log_callback m e s) (fun _ => ret b)).
Proof. intros tr. exists []. reflexivity. Qed.

Lemma finishes_later {A B} (e0 : event F) (b : B) (m : M F A)
      (k : A -> M F B) :
  succeeds m -> (forall a, finishes e0 b (k a)) ->
  finishes e0 b (mbind m k).
Proof.
  intros Hm Hk tr. destruct (Hm tr) as (es & a & Hes).
  destruct (Hk a (tr ++ es)) as (es' & Hes').
  exists (es ++ es'). unfold mbind. rewrite Hes, Hes'.
  now rewrite <- !app_assoc.
Qed.

Lemma finishes_bind_lift {A B} (e0 : event F) (b : B) (r : result A)
      (k : A -> M F B) (a : A) :
  r = Ok a -> finishes e0 b (k a) -> finishes e0 b (mbind (lift r) k).
Proof. intros -> Hk tr. unfold mbind, lift. apply Hk. Qed.

(** X16.  A negative panel count is not refused: the exporter goes to the
    service with the empty geometry.  Whatever the service answers, the
    export then returns [False] and has created no node, no member and no
    support, run no analysis and reported no success; if the service
    raises nothing, it gets as far as "Assigning supports", where
    [bottom[0]] raises the [IndexError] that is reported. *)
Theorem negative_panels_export_fails
        (cfg : config F) (lufu : Z * Z) (key : string) :
  lookup_unit UNIT_OPTIONS (cfg_unit cfg) = Ok lufu ->
  getitem (split (lower (cfg_bridge_type cfg))) 0 = Ok key ->
  cfg_panels cfg < 0 ->
  snd (run_in_staad os_analytical true cfg []) = Ok false /\
  Forall builds_nothing (fst (run_in_staad os_analytical true cfg [])) /\
  (reliable os_analytical ->
   exists es,
     fst (run_in_staad os_analytical true cfg []) =
     es ++ [Log MsgAssigningSupports false false;
            Log (MsgError IndexError) true false]).
Proof.
  intros Hu Hk Hp. destruct lufu as [lu fu].
  assert (Hg := compute_geometry_negative (cfg_span cfg) (cfg_height cfg)
                  _ _ _ Hk Hp).
  rewrite (run_in_staad_guarded _ cfg lu fu _ [] Hu Hg).
  split; [|split].
  - unfold try_except.
    destruct (build_model os_analytical cfg lu fu empty_geometry [])
      as [tr [b|e]] eqn:Hb; [|reflexivity].
    exfalso. revert Hb. unfold build_model.
    match goal with
    | |- ?m [] = _ -> _ =>
        assert (Hr : returns (fun _ => False) m)
    end.
    { do 19 (apply returns_bind; intros ?). apply returns_raise. }
    apply Hr.
  - match goal with
    | |- Forall _ (fst (?m [])) =>
        assert (He : emits builds_nothing m)
    end.
    { unfold build_model. emits_rules; try exact I;
        try match goal with
            | Hin : In _ _ |- _ => now destruct Hin
            | Hget : getitem _ _ = Ok _ |- _ => discriminate Hget
            end. }
    destruct (He []) as (es & Hes & HP). rewrite Hes. exact HP.
  - intros Hrel.
    assert (Hb : raises_after (Log MsgAssigningSupports false false)
                   IndexError
                   (build_model os_analytical cfg lu fu empty_geometry)).
    { unfold build_model.
      repeat first
        [ apply raises_after_here
        | apply raises_after_later; [succeeds_rules Hrel|intros ?] ]. }
    destruct (Hb []) as (es & Hes). unfold try_except. rewrite Hes.
    exists es. unfold mbind, log_callback, ret. cbn [fst app].
    now rewrite <- app_assoc.
Qed.

(** X17.  Against a service that raises nothing, with a unit of the table, a
    type that has a first word and one panel or more, the export runs to
    its end: the last event is the "DONE" line, flagged as a success and
    giving the type, the dimensions and the numbers of nodes and members
    of the generated geometry, and the export returns [True]. *)
Theorem reliable_export_completes
        (cfg : config F) (lufu : Z * Z) (key : string) :
  reliable os_analytical ->
  lookup_unit UNIT_OPTIONS (cfg_unit cfg) = Ok lufu ->
  getitem (split (lower (cfg_bridge_type cfg))) 0 = Ok key ->
  1 <= cfg_panels cfg ->
  exists g es,
    compute_geometry (cfg_span cfg) (cfg_height cfg) (cfg_panels cfg)
                     (cfg_bridge_type cfg) = Ok g /\
    run_in_staad os_analytical true cfg [] =
    (es ++ [Log (MsgDone (cfg_bridge_type cfg) (cfg_span cfg)
                         (cfg_height cfg) (cfg_panels cfg)
                         (Z.of_nat (List.length (nodes g)))
                         (Z.of_nat (List.length (members g))))
                false true],
     Ok true).
Proof.
  intros Hrel Hu Hk Hp. destruct lufu as [lu fu].
  destruct (compute_geometry_bottom (cfg_span cfg) (cfg_height cfg) _ _ _
              Hk Hp) as (g & Hg & Hbot).
  exists g.
  rewrite (run_in_staad_guarded _ cfg lu fu g [] Hu Hg).
  assert (Hl : getitem (bottom g) 0 = Ok 1)
    by (rewrite Hbot; apply getitem_zrange; lia).
  assert (Hr : getitem (bottom g) (-1) = Ok (cfg_panels cfg + 1)).
  { rewrite Hbot. unfold getitem. rewrite length_zrange.
    replace (-1 <? 0) with true by reflexivity.
    destruct (Z.ltb_spec (-1 + Z.of_nat (Z.to_nat (cfg_panels cfg + 1))) 0);
      [lia|].
    destruct (Z.leb_spec (Z.of_nat (Z.to_nat (cfg_panels cfg + 1)))
                (-1 + Z.of_nat (Z.to_nat (cfg_panels cfg + 1)))); [lia|].
    cbn [orb]. rewrite nth_error_zrange by lia. f_equal. lia. }
  match goal with
  | |- exists es, _ /\ _ = (es ++ [?e0], _) =>
      assert (Hb : finishes e0 true
                     (build_model os_analytical cfg lu fu g))
  end.
  { unfold build_model.
    repeat first
      [ apply finishes_here
      | eapply finishes_bind_lift; [eassumption|]
      | apply finishes_later; [succeeds_rules Hrel|intros ?] ]. }
  destruct (Hb []) as (es & Hes). exists es. split; [exact Hg|].
  unfold try_except. rewrite Hes. reflexivity.
Qed.

(** X18.  Whatever the service answers and wherever the export stops, every
    node it has created is an entry of the generated [nodes], every
    member an entry of [members], and a support is only ever assigned to
    [bottom[0]] or to [bottom[-1]], one node at a time. *)
Theorem export_sends_generated_model
        (b : bool) (cfg : config F) (g : geometry F) :
  compute_geometry (cfg_span cfg) (cfg_height cfg) (cfg_panels cfg)
                   (cfg_bridge_type cfg) = Ok g ->
  Forall (from_geometry g) (fst (run_in_staad os_analytical b cfg [])).
Proof.
  intros Hg.
  assert (He : emits (from_geometry g) (run_in_staad os_analytical b cfg)).
  { unfold run_in_staad. destruct (negb b); [emits_rules; exact I|].
    apply emits_bind_lift. intros [lu fu] _.
    apply emits_bind_lift. intros g' Hg'.
    assert (g' = g) by congruence. subst g'.
    unfold build_model. emits_rules; try exact I.
    - assumption.
    - assumption.
    - eexists. split; [reflexivity|]. left. assumption.
    - eexists. split; [reflexivity|]. right. assumption. }
  destruct (He []) as (es & Hes & HP). rewrite Hes. exact HP.
Qed.

End Outcomes.

Lemma negative_panels_export_fails_witness :
  lookup_unit UNIT_OPTIONS (cfg_unit (resized_config 120%R 20%R (-3)))
  = Ok (1, 0) /\
  getitem (split (lower (cfg_bridge_type (resized_config 120%R 20%R (-3)))))
          0 = Ok "pratt" /\
  cfg_panels (resized_config 120%R 20%R (-3)) < 0 /\
  snd (run_in_staad obliging true (resized_config 120%R 20%R (-3)) [])
  = Ok false.
Proof.
  split; [reflexivity|]. split; [reflexivity|]. split; [cbn; lia|].
  apply (negative_panels_export_fails obliging
           (resized_config 120%R 20%R (-3)) (1, 0) "pratt");
    [reflexivity|reflexivity|cbn; lia].
Defined.

Lemma reliable_export_completes_witness :
  reliable obliging /\
  lookup_unit UNIT_OPTIONS (cfg_unit default_config) = Ok (1, 0) /\
  getitem (split (lower (cfg_bridge_type default_config))) 0 = Ok "pratt" /\
  1 <= cfg_panels default_config /\
  exists es,
    run_in_staad obliging true default_config [] =
    (es ++ [Log (MsgDone "Pratt Truss" 120%R 20%R 8 18 33) false true],
     Ok true).
Proof.
  split; [exact obliging_reliable|]. split; [reflexivity|].
  split; [reflexivity|]. split; [cbn; lia|].
  destruct (reliable_export_completes obliging default_config (1, 0)
              "pratt" obliging_reliable)
    as (g & es & Hg & Hrun); [reflexivity|reflexivity|cbn; lia|].
  rewrite default_geometry in Hg. injection Hg as <-.
  exists es. exact Hrun.
Defined.

Lemma export_sends_generated_model_witness :
  compute_geometry (cfg_span default_config) (cfg_height default_config)
                   (cfg_panels default_config)
                   (cfg_bridge_type default_config)
  = Ok (truss Pratt 120%R 20%R 8) /\
  Forall (from_geometry (truss Pratt 120%R 20%R 8))
         (fst (run_in_staad obliging true default_config [])).
Proof.
  split; [exact default_geometry|].
  apply (export_sends_generated_model obliging true default_config).
  exact default_geometry.
Defined.

(** * The preview *)

Section PreviewFacts.

Context {F : Type} `{PyFloat F}.

Lemma dict_get_dict_set {V} (d : dict V) (k : Z) (v : V) (k' : Z) :
  dict_get (dict_set d k v) k' = if k =? k' then Some v else dict_get d k'.
Proof.
  induction d as [|[k0 v0] d IH]; cbn [dict_set dict_get]; [reflexivity|].
  destruct (Z.eqb_spec k0 k) as [->|Hne]; cbn [dict_get].
  - destruct (k =? k'); reflexivity.
  - rewrite IH. destruct (Z.eqb_spec k0 k'); [|reflexivity].
    destruct (Z.eqb_spec k k'); [congruence|reflexivity].
Qed.

Lemma dict_get_paint (ms : list Z) (st : string * Q) :
  forall (cm : dict (string * Q)) (k : Z),
    dict_get (paint ms st cm) k =
    if mem k ms then Some st else dict_get cm k.
Proof.
  induction ms as [|m ms IH]; intros cm k; [reflexivity|].
  unfold paint. cbn [fold_left]. fold (paint ms st (dict_set cm m st)).
  rewrite IH, dict_get_dict_set. unfold mem. cbn [existsb].
  rewrite (Z.eqb_sym k m).
  destruct (m =? k); destruct (existsb (Z.eqb k) ms); reflexivity.
Qed.

Lemma mem_In (k : Z) (l : list Z) : mem k l = true <-> In k l.
Proof.
  unfold mem. rewrite existsb_exists. split.
  - intros (x & Hin & Heq). apply Z.eqb_eq in Heq. now subst.
  - intros Hin. exists k. split; [assumption|apply Z.eqb_refl].
Qed.

Lemma NoDup_app_apart {A} (l1 l2 : list A) (x : A) :
  NoDup (l1 ++ l2) -> In x l1 -> In x l2 -> False.
Proof.
  induction l1 as [|a l1 IH]; cbn; intros Hnd H1 H2; [assumption|].
  inversion Hnd as [|? ? Hnotin Hnd']; subst.
  destruct H1 as [->|H1]; [|now apply IH].
  apply Hnotin, in_app_iff. now right.
Qed.

(** The colour map gives every member the style of its role. *)
Lemma color_of_role (g : geometry F) (mid : Z) :
  NoDup (bot_ch g ++ top_ch g ++ verts g ++ diags g) ->
  get_or (paint (verts g) ("#94a3b8", 14 # 10)
            (paint (diags g) ("#60a5fa", 15 # 10)
               (paint (bot_ch g ++ top_ch g) ("#f59e0b", 22 # 10) [])))
         mid ("#60a5fa", 15 # 10)
  = role_style g mid.
Proof.
  intros Hnd. unfold get_or, role_style. rewrite !dict_get_paint.
  cbn [dict_get]. rewrite app_assoc in Hnd.
  destruct (mem mid (bot_ch g ++ top_ch g)) eqn:Hc;
    destruct (mem mid (verts g)) eqn:Hv;
    destruct (mem mid (diags g)) eqn:Hd; try reflexivity;
    exfalso; apply mem_In in Hc;
    apply (NoDup_app_apart _ _ mid Hnd Hc), in_app_iff.
  - left. now apply mem_In.
  - left. now apply mem_In.
  - right. now apply mem_In.
Qed.

Lemma dict_get_present {V} (d : dict V) (k : Z) :
  In k (keys d) -> exists v, dict_get d k = Some v.
Proof.
  induction d as [|[k' v'] d IH]; cbn; intros Hin; [contradiction|].
  destruct (Z.eqb_spec k' k); [eauto|]. apply IH. tauto.
Qed.

Lemma draw_members (g : geometry F) (color_map : dict (string * Q))
      (ms : list (Z * (Z * Z))) :
  (forall mid n1 n2, In (mid, (n1, n2)) ms ->
                     In n1 (keys (nodes g)) /\ In n2 (keys (nodes g))) ->
  (forall mid, get_or color_map mid ("#60a5fa", 15 # 10)
               = role_style g mid) ->
  exists lines,
    draw_for ms
      (fun '(mid, (n1, n2)) =>
         dbind (node_at (nodes g) n1) (fun c1 =>
         let '(x1, y1, _) := c1 in
         dbind (node_at (nodes g) n2) (fun c2 =>
         let '(x2, y2, _) := c2 in
         let '(col, lw) := get_or color_map mid ("#60a5fa", 15 # 10) in
         on_ax (ax_plot_line x1 x2 y1 y2 col lw))))
    = (lines, Done tt) /\
    Forall2 (drawn_as g) ms lines.
Proof.
  intros Hends Hcol.
  induction ms as [|[mid [n1 n2]] ms IH]; cbn [draw_for].
  - exists []. split; [reflexivity|constructor].
  - destruct IH as (lines & Hrun & Hall).
    { intros m a b Hin. apply (Hends m). now right. }
    destruct (Hends mid n1 n2) as [H1 H2]; [now left|].
    apply dict_get_present in H1, H2.
    destruct H1 as [[[x1 y1] z1] H1]. destruct H2 as [[[x2 y2] z2] H2].
    rewrite Hrun. unfold node_at. rewrite H1. cbn [dbind app].
    rewrite H2. cbn [dbind app]. rewrite Hcol.
    destruct (role_style g mid) as [col lw] eqn:Hst.
    cbn [dbind on_ax app].
    eexists. split; [reflexivity|].
    constructor; [|exact Hall].
    cbn [drawn_as]. exists x1, y1, z1, x2, y2, z2.
    rewrite Hst. auto.
Qed.

Lemma draw_nodes (ns : dict (coord F)) :
  draw_for ns (fun '(nid, (x, y, _)) => on_ax (ax_plot_node x y))
  = (map node_marker ns, Done tt).
Proof.
  induction ns as [|[nid [[x y] z]] ns IH]; cbn [draw_for map];
    [reflexivity|].
  rewrite IH. reflexivity.
Qed.

Lemma dbind_on_ax {B} (c : ax_call F) (k : unit -> Draw F B) :
  dbind (on_ax c) k = (c :: fst (k tt), snd (k tt)).
Proof. unfold dbind, on_ax. now destruct (k tt). Qed.

Lemma dbind_done {A B} (m : Draw F A) (cs : list (ax_call F)) (a : A)
      (k : A -> Draw F B) :
  m = (cs, Done a) -> dbind m k = (cs ++ fst (k a), snd (k a)).
Proof. intros ->. unfold dbind. now destruct (k a). Qed.

Lemma dbind_dlift_ok {A B} (a : A) (k : A -> Draw F B) :
  dbind (dlift (Ok a)) k = k a.
Proof. unfold dbind, dlift. now destruct (k a). Qed.

Lemma dbind_node_at {B} (d : dict (coord F)) (n : Z) (c : coord F)
      (k : coord F -> Draw F B) :
  dict_get d n = Some c -> dbind (node_at d n) k = k c.
Proof. intros Hc. unfold dbind, node_at. rewrite Hc. now destruct (k c). Qed.

(** The preview of a geometry whose members join nodes of it, whose role
    lists do not overlap and whose bottom chord ends on nodes. *)
Lemma preview_of_geometry (span height : F) (panels : Z) (btype : string)
      (g : geometry F) (l r : Z) (cl cr : coord F) :
  compute_geometry span height panels btype = Ok g ->
  (forall mid n1 n2, In (mid, (n1, n2)) (members g) ->
                     In n1 (keys (nodes g)) /\ In n2 (keys (nodes g))) ->
  NoDup (bot_ch g ++ top_ch g ++ verts g ++ diags g) ->
  getitem (bottom g) 0 = Ok l -> dict_get (nodes g) l = Some cl ->
  getitem (bottom g) (-1) = Ok r -> dict_get (nodes g) r = Some cr ->
  exists lines,
    draw_preview_mpl span height panels btype =
    ([ax_clear; ax_set_facecolor "#060f1a"]
     ++ lines ++ map node_marker (nodes g)
     ++ [ax_plot_support (fst (fst cl)) (snd (fst cl)) "^" 10 ACCENT;
         ax_plot_support (fst (fst cr)) (snd (fst cr)) "s" 8 ACCENT2]
     ++ decorations span height panels btype,
     Done tt) /\
    Forall2 (drawn_as g) (members g) lines.
Proof.
  intros Hg Hends Hnd Hl Hcl Hr Hcr.
  destruct (draw_members g _ (members g) Hends
              (fun mid => color_of_role g mid Hnd)) as (lines & Hrun & Hall).
  exists lines. split; [|exact Hall].
  unfold draw_preview_mpl.
  rewrite dbind_on_ax. cbv beta. rewrite dbind_on_ax. cbv beta.
  rewrite Hg, dbind_dlift_ok. cbv beta zeta.
  rewrite (dbind_done _ _ _ _ Hrun). cbv beta.
  rewrite (dbind_done _ _ _ _ (draw_nodes (nodes g))). cbv beta.
  rewrite Hl, dbind_dlift_ok. cbv beta.
  rewrite (dbind_node_at _ _ _ _ Hcl).
  destruct cl as [[lx ly] lz]. cbv beta iota.
  rewrite Hr, dbind_dlift_ok. cbv beta.
  rewrite (dbind_node_at _ _ _ _ Hcr).
  destruct cr as [[rx ry] rz]. cbv beta iota.
  rewrite !dbind_on_ax. reflexivity.
Qed.

Lemma getitem_last_zrange (a : Z) (n : nat) :
  (0 < n)%nat -> getitem (zrange a n) (-1) = Ok (a + Z.of_nat n - 1).
Proof.
  intros Hn. unfold getitem. rewrite length_zrange.
  replace (-1 <? 0) with true by reflexivity.
  destruct (Z.ltb_spec (-1 + Z.of_nat n) 0); [lia|].
  destruct (Z.leb_spec (Z.of_nat n) (-1 + Z.of_nat n)); [lia|].
  cbn [orb]. rewrite nth_error_zrange by lia. f_equal. lia.
Qed.

Lemma deck_only_ends (span height : F) (panels mid n1 n2 : Z) :
  1 <= panels ->
  In (mid, (n1, n2)) (members (deck_only span height panels)) ->
  In n1 (keys (nodes (deck_only span height panels))) /\
  In n2 (keys (nodes (deck_only span height panels))).
Proof.
  intros Hp Hin. cbn [deck_only members nodes] in *.
  apply in_combine_r in Hin.
  assert (Hin' : In (n1, n2)
                   (bottom_edges panels ++ top_edges Pratt panels
                    ++ vertical_edges Pratt panels
                    ++ diagonal_edges Pratt panels))
    by (apply in_app_iff; now left).
  apply (edge_endpoints Pratt panels) in Hin'; [|assumption].
  rewrite (keys_nodes_truss Pratt span height panels) by lia.
  rewrite !in_zrange. cbn [top_count] in *. lia.
Qed.

(** X19.  With one panel or more and a type that has a first word, the preview
    succeeds and draws, in this order: a line for every member, in the
    order of [members], from its first node to its second and in the
    style of its role (chords amber, 2.2 wide; verticals grey, 1.4 wide;
    diagonals blue, 1.5 wide); a marker for every node; a triangle at the
    left end of the bottom chord and a square at its right end; the
    ground line, the limits, the legend and the title. *)
Theorem preview_draws_members_by_role
        (span height : F) (panels : Z) (btype key : string) :
  getitem (split (lower btype)) 0 = Ok key ->
  1 <= panels ->
  let panel_w := fdiv span (of_int panels) in
  exists g lines,
    compute_geometry span height panels btype = Ok g /\
    draw_preview_mpl span height panels btype =
    ([ax_clear; ax_set_facecolor "#060f1a"]
     ++ lines ++ map node_marker (nodes g)
     ++ [ax_plot_support (round4 (fmul (of_int 0) panel_w)) f0
                         "^" 10 ACCENT;
         ax_plot_support (round4 (fmul (of_int panels) panel_w)) f0
                         "s" 8 ACCENT2]
     ++ decorations span height panels btype,
     Done tt) /\
    Forall2 (drawn_as g) (members g) lines.
Proof.
  intros Hk Hp panel_w.
  destruct (compute_geometry_cases span height panels btype key Hk Hp)
    as [[t Hg]|Hg].
  - exists (truss t span height panels).
    destruct (truss_well_formed t span height panels Hp)
      as (_ & _ & _ & _ & Hends & Hnd & _).
    destruct (preview_of_geometry span height panels btype _
                1 (panels + 1)
                (bottom_coord panel_w 0) (bottom_coord panel_w panels) Hg)
      as (lines & Hrun & Hall).
    + intros mid n1 n2 Hin. destruct (Hends mid n1 n2 Hin) as (? & ? & _).
      auto.
    + exact Hnd.
    + apply getitem_zrange. lia.
    + apply (node_bottom t span height panels Hp 0). lia.
    + cbn [truss bottom]. rewrite getitem_last_zrange by lia. f_equal. lia.
    + replace (panels + 1) with (bottom_id panels) by (unfold bottom_id; lia).
      apply (node_bottom t span height panels Hp panels). lia.
    + exists lines. split; [exact Hg|]. split; [exact Hrun|exact Hall].
  - exists (deck_only span height panels).
    destruct (preview_of_geometry span height panels btype _
                1 (panels + 1)
                (bottom_coord panel_w 0) (bottom_coord panel_w panels) Hg)
      as (lines & Hrun & Hall).
    + intros mid n1 n2. now apply deck_only_ends.
    + cbn [deck_only bot_ch top_ch verts diags app]. rewrite app_nil_r.
      apply NoDup_zrange.
    + apply getitem_zrange. lia.
    + apply (node_bottom Pratt span height panels Hp 0). lia.
    + cbn [deck_only truss bottom]. rewrite getitem_last_zrange by lia.
      f_equal. lia.
    + replace (panels + 1) with (bottom_id panels) by (unfold bottom_id; lia).
      apply (node_bottom Pratt span height panels Hp panels). lia.
    + exists lines. split; [exact Hg|]. split; [exact Hrun|exact Hall].
Qed.

Lemma getitem_raises {A} (l : list A) (i : Z) (e : exn) :
  getitem l i = Raise e -> e = IndexError.
Proof.
  unfold getitem.
  destruct ((_ <? 0) || _); [congruence|].
  destruct (nth_error _ _); congruence.
Qed.

(** X20.  With a panel count of 0 or less the preview wipes the axes and
    raises, having drawn nothing: [ZeroDivisionError] for 0 panels,
    [IndexError] for a negative count, whatever the type is. *)
Theorem preview_of_bad_panel_count
        (span height : F) (panels : Z) (btype : string) :
  panels <= 0 ->
  draw_preview_mpl span height panels btype =
  ([ax_clear; ax_set_facecolor "#060f1a"],
   Failed (Raised (if panels =? 0 then ZeroDivisionError
                   else IndexError))).
Proof.
  intros Hp. unfold draw_preview_mpl.
  destruct (Z.eqb_spec panels 0) as [->|Hne].
  - reflexivity.
  - destruct (getitem (split (lower btype)) 0) as [key|e] eqn:Hk.
    + rewrite (compute_geometry_negative span height panels btype key)
        by (assumption || lia).
      reflexivity.
    + assert (e = IndexError) by (eapply getitem_raises; eassumption).
      subst e.
      assert (Hg : compute_geometry span height panels btype
                   = Raise IndexError).
      { unfold compute_geometry, float_div_int.
        destruct (Z.eqb_spec panels 0); [lia|]. cbn [bind].
        now rewrite Hk. }
      rewrite Hg. reflexivity.
Qed.

End PreviewFacts.

Lemma preview_draws_members_by_role_witness :
  getitem (split (lower "Warren Truss")) 0 = Ok "warren" /\
  1 <= 4 /\
  exists lines,
    draw_preview_mpl 120%R 20%R 4 "Warren Truss" =
    ([ax_clear; ax_set_facecolor "#060f1a"]
     ++ lines ++ map node_marker (nodes (truss Warren 120%R 20%R 4))
     ++ [ax_plot_support (round4 (fmul (of_int 0) (fdiv 120%R (of_int 4))))
                         f0 "^" 10 ACCENT;
         ax_plot_support (round4 (fmul (of_int 4) (fdiv 120%R (of_int 4))))
                         f0 "s" 8 ACCENT2]
     ++ decorations 120%R 20%R 4 "Warren Truss",
     Done tt) /\
    Forall2 (drawn_as (truss Warren 120%R 20%R 4))
            (members (truss Warren 120%R 20%R 4)) lines.
Proof.
  split; [reflexivity|]. split; [lia|].
  destruct (preview_draws_members_by_role 120%R 20%R 4 "Warren Truss"
              "warren" eq_refl)
    as (g & lines & Hg & Hrun & Hall); [lia|].
  rewrite (compute_geometry_closed Warren) in Hg by lia.
  injection Hg as <-.
  exists lines. split; [exact Hrun|exact Hall].
Defined.

Lemma preview_of_bad_panel_count_witness :
  -2 <= 0 /\
  draw_preview_mpl 120%R 20%R (-2) "Pratt Truss" =
  ([ax_clear; ax_set_facecolor "#060f1a"], Failed (Raised IndexError)).
Proof.
  split; [lia|].
  apply (preview_of_bad_panel_count 120%R 20%R (-2) "Pratt Truss"). lia.
Defined.
